(** * zEpid: inverse probability of treatment weights and doubly robust
      estimators

    A shallow embedding of [zepid/causal/ipw/IPTW.py] (class [IPTW]) and,
    where the repository's doubly robust estimators are concerned, of
    their description in the specification.

    Conventions of the embedding.
    - A numpy/pandas float is a [cell]: a real number or NaN ([None]).
      Arithmetic propagates NaN.  Rounding, overflow and the infinities
      of IEEE arithmetic are outside the model; quotients are read on
      nonzero divisors.
    - A pandas [Series]/numpy vector is a [col], a list of cells.  A
      [DataFrame] is a finite map from column labels to columns.  The
      predictions of a custom model are numpy arrays: assigned as a
      column they must have one value per row.
    - Data frames are objects: the machine has a heap of frames and an
      [IPTW] instance refers to its working frame by location.
    - A Python call that may raise returns an [outcome]; a method is a
      state transformer over the instance and the machine, and the state
      reached when an exception escapes is the state at the [raise]. *)

From Stdlib Require Import Reals Lra Lia Ascii String.
From stdpp Require Import gmap strings list.
Open Scope R_scope.

(** ** Floats with NaN *)

Abbreviation cell := (option R).

Definition nan : cell := None.

Definition cell_lift2 (f : R -> R -> R) (x y : cell) : cell :=
  match x, y with
  | Some a, Some b => Some (f a b)
  | _, _ => None
  end.

Definition cell_add := cell_lift2 Rplus.
Definition cell_sub := cell_lift2 Rminus.
Definition cell_mul := cell_lift2 Rmult.
Definition cell_div := cell_lift2 Rdiv.

Declare Scope cell_scope.
Delimit Scope cell_scope with C.
Infix "+" := cell_add : cell_scope.
Infix "-" := cell_sub : cell_scope.
Infix "*" := cell_mul : cell_scope.
Infix "/" := cell_div : cell_scope.
Notation "# x" := (Some x) (at level 1, x at level 0, only parsing) : cell_scope.

Definition Reqb (x y : R) : bool := if Req_dec_T x y then true else false.
Arguments Reqb : simpl never.

(** [x == v] for a float [x]: NaN compares unequal to everything. *)
Definition cell_eqb (x : cell) (v : R) : bool :=
  match x with
  | Some a => Reqb a v
  | None => false
  end.

Definition cell_isna (x : cell) : bool :=
  match x with
  | Some _ => false
  | None => true
  end.

Definition cell_notnull (x : cell) : bool := negb (cell_isna x).

(** [np.sqrt]: NaN below zero. *)
Definition cell_sqrt (x : cell) : cell :=
  match x with
  | Some a => if Rlt_dec a 0 then None else Some (sqrt a)
  | None => None
  end.

(** ** Columns *)

Abbreviation col := (list cell).

(** An operand of a vectorised operation: a column or a scalar that is
    broadcast along it. *)
Inductive operand :=
  | Series (c : col)
  | Scalar (v : cell).

Definition broadcast (n : nat) (o : operand) : col :=
  match o with
  | Series c => c
  | Scalar v => replicate n v
  end.

Definition col_eq (c : col) (v : R) : list bool := (fun x => cell_eqb x v) <$> c.
Definition col_isna (c : col) : list bool := cell_isna <$> c.
Definition col_notnull (c : col) : list bool := cell_notnull <$> c.

Definition col_div (a b : col) : col := zip_with cell_div a b.
Definition col_mul (a b : col) : col := zip_with cell_mul a b.

(** [v - c] and [v / c] for a scalar [v]. *)
Definition rsub (v : R) (c : col) : col := cell_sub (Some v) <$> c.
Definition rdiv (v : R) (c : col) : col := cell_div (Some v) <$> c.

(** [np.where(cond, x, y)]. *)
Definition np_where (cond : list bool) (x y : operand) : col :=
  zip_with (fun (c : bool) (xy : cell * cell) => if c then xy.1 else xy.2)
    cond
    (zip (broadcast (length cond) x) (broadcast (length cond) y)).

(** ** Exceptions and effects *)

Inductive exn :=
  | ValueError | TypeError | KeyError | IndexError | AttributeError
  | ZeroDivisionError | LinAlgError.

Record exception := { exc_class : exn; exc_msg : string }.

Inductive outcome (A : Type) :=
  | Ok (a : A)
  | Raise (e : exception).
Arguments Ok {A} a.
Arguments Raise {A} e.

#[export] Instance outcome_ret : MRet outcome := fun A a => Ok a.
#[export] Instance outcome_bind : MBind outcome := fun A B f m =>
  match m with
  | Ok a => f a
  | Raise e => Raise e
  end.

Definition throw {A} (c : exn) (msg : string) : outcome A :=
  Raise {| exc_class := c; exc_msg := msg |}.

(** ** Data frames *)

Record DataFrame := { nrows : nat; cols : gmap string col }.

(** [df[c]] *)
Definition df_get (d : DataFrame) (c : string) : outcome col :=
  match cols d !! c with
  | Some x => Ok x
  | None => throw KeyError c
  end.

(** [df[c] = v] *)
Definition df_set (d : DataFrame) (c : string) (v : col) : DataFrame :=
  {| nrows := nrows d; cols := <[c := v]> (cols d) |}.

(** [df[c] = v] for a scalar [v]. *)
Definition df_set_scalar (d : DataFrame) (c : string) (v : cell) : DataFrame :=
  df_set d c (replicate (nrows d) v).

(** The right-hand side of an assignment [df[c] = v]: a pandas Series,
    which is aligned on the index of the frame, or a numpy array, which
    must have one value per row. *)
Inductive values :=
  | aligned (x : col)
  | array (x : col).

Definition msg_length : string := "Length of values does not match length of index".

(** [df[c] = v] for a Series or an array [v]: pandas raises ValueError
    for an array whose length is not the number of rows. *)
Definition df_assign (d : DataFrame) (c : string) (v : values) : outcome DataFrame :=
  match v with
  | aligned x => Ok (df_set d c x)
  | array x =>
      if bool_decide (length x = nrows d) then Ok (df_set d c x)
      else throw ValueError msg_length
  end.

(** ** External collaborators *)

(** What [patsy.dmatrix] returns: the terms of the formula in order, each
    with its label and its column or columns.  Columns are aligned with
    the rows of the frame, NaN where patsy dropped the row. *)
Record design := { dm_terms : list (string * list col) }.

(** The fitted logistic regression returned by [propensity_score]; its
    [predict] returns a pandas Series. *)
Record logit_model := { lm_predict : DataFrame -> outcome col }.

(** What the [fit] of a custom model returns; an absent attribute is
    [None] ([hasattr] is false). [predict_proba] returns a 2-D array,
    given by rows, and [predict] an array. *)
Record fitted := {
  fm_summarize : option string;
  fm_predict_proba : option (design -> outcome (list (list cell)));
  fm_predict : option (design -> outcome col)
}.

Record custom_model := { cm_fit : design -> col -> outcome fitted }.

Inductive model :=
  | Logit (m : logit_model)
  | Custom (fm : fitted).

(** Functions the class calls and does not define.
    - [propensity_score df formula print_results]: [zepid.causal.ipw.utils];
    - [dmatrix formula df]: [patsy.dmatrix];
    - [linalg_inv]: [np.linalg.inv]. *)
Class Collaborators := {
  propensity_score : DataFrame -> string -> bool -> outcome logit_model;
  dmatrix : string -> DataFrame -> outcome design;
  linalg_inv : list (list cell) -> outcome (list (list cell))
}.

(** ** The machine: a heap of data frames and a console *)

Definition loc := positive.

Inductive item :=
  | PStr (s : string)
  | PRound (x : cell) (ndigits : Z).

Inductive event :=
  | Print (items : list item)
  | Warn (category : string) (msg : string).

Record machine := { heap : gmap loc DataFrame; console : list event }.

(** [df.copy()]: a new frame with the same contents. *)
Definition df_copy (r : loc) (m : machine) : outcome loc * machine :=
  match heap m !! r with
  | Some d =>
      let r' := fresh (dom (heap m)) in
      (Ok r', {| heap := <[r' := d]> (heap m); console := console m |})
  | None => (throw AttributeError "copy", m)
  end.

(** ** The class IPTW *)

Record IPTW := {
  denominator_model : option model;
  numerator_model : option model;
  _mdenom : option string;
  Weight : option col;
  ProbabilityNumerator : option col;
  ProbabilityDenominator : option col;
  df : loc;
  ex : string;
  stabilized : bool;
  standardize : string;
  _pos_avg : option cell;
  _pos_min : option cell;
  _pos_max : option cell;
  _pos_sd : option cell
}.

Definition set_denominator_model (v : option model) (s : IPTW) : IPTW :=
  {| denominator_model := v; numerator_model := numerator_model s; _mdenom := _mdenom s;
     Weight := Weight s; ProbabilityNumerator := ProbabilityNumerator s;
     ProbabilityDenominator := ProbabilityDenominator s; df := df s; ex := ex s;
     stabilized := stabilized s; standardize := standardize s; _pos_avg := _pos_avg s;
     _pos_min := _pos_min s; _pos_max := _pos_max s; _pos_sd := _pos_sd s |}.

Definition set_numerator_model (v : option model) (s : IPTW) : IPTW :=
  {| denominator_model := denominator_model s; numerator_model := v; _mdenom := _mdenom s;
     Weight := Weight s; ProbabilityNumerator := ProbabilityNumerator s;
     ProbabilityDenominator := ProbabilityDenominator s; df := df s; ex := ex s;
     stabilized := stabilized s; standardize := standardize s; _pos_avg := _pos_avg s;
     _pos_min := _pos_min s; _pos_max := _pos_max s; _pos_sd := _pos_sd s |}.

Definition set_mdenom (v : option string) (s : IPTW) : IPTW :=
  {| denominator_model := denominator_model s; numerator_model := numerator_model s;
     _mdenom := v;
     Weight := Weight s; ProbabilityNumerator := ProbabilityNumerator s;
     ProbabilityDenominator := ProbabilityDenominator s; df := df s; ex := ex s;
     stabilized := stabilized s; standardize := standardize s; _pos_avg := _pos_avg s;
     _pos_min := _pos_min s; _pos_max := _pos_max s; _pos_sd := _pos_sd s |}.

Definition set_Weight (v : option col) (s : IPTW) : IPTW :=
  {| denominator_model := denominator_model s; numerator_model := numerator_model s;
     _mdenom := _mdenom s;
     Weight := v; ProbabilityNumerator := ProbabilityNumerator s;
     ProbabilityDenominator := ProbabilityDenominator s; df := df s; ex := ex s;
     stabilized := stabilized s; standardize := standardize s; _pos_avg := _pos_avg s;
     _pos_min := _pos_min s; _pos_max := _pos_max s; _pos_sd := _pos_sd s |}.

Definition set_ProbabilityNumerator (v : option col) (s : IPTW) : IPTW :=
  {| denominator_model := denominator_model s; numerator_model := numerator_model s;
     _mdenom := _mdenom s;
     Weight := Weight s; ProbabilityNumerator := v;
     ProbabilityDenominator := ProbabilityDenominator s; df := df s; ex := ex s;
     stabilized := stabilized s; standardize := standardize s; _pos_avg := _pos_avg s;
     _pos_min := _pos_min s; _pos_max := _pos_max s; _pos_sd := _pos_sd s |}.

Definition set_ProbabilityDenominator (v : option col) (s : IPTW) : IPTW :=
  {| denominator_model := denominator_model s; numerator_model := numerator_model s;
     _mdenom := _mdenom s;
     Weight := Weight s; ProbabilityNumerator := ProbabilityNumerator s;
     ProbabilityDenominator := v; df := df s; ex := ex s;
     stabilized := stabilized s; standardize := standardize s; _pos_avg := _pos_avg s;
     _pos_min := _pos_min s; _pos_max := _pos_max s; _pos_sd := _pos_sd s |}.

Definition set_pos_avg (v : option cell) (s : IPTW) : IPTW :=
  {| denominator_model := denominator_model s; numerator_model := numerator_model s;
     _mdenom := _mdenom s;
     Weight := Weight s; ProbabilityNumerator := ProbabilityNumerator s;
     ProbabilityDenominator := ProbabilityDenominator s; df := df s; ex := ex s;
     stabilized := stabilized s; standardize := standardize s; _pos_avg := v;
     _pos_min := _pos_min s; _pos_max := _pos_max s; _pos_sd := _pos_sd s |}.

Definition set_pos_min (v : option cell) (s : IPTW) : IPTW :=
  {| denominator_model := denominator_model s; numerator_model := numerator_model s;
     _mdenom := _mdenom s;
     Weight := Weight s; ProbabilityNumerator := ProbabilityNumerator s;
     ProbabilityDenominator := ProbabilityDenominator s; df := df s; ex := ex s;
     stabilized := stabilized s; standardize := standardize s; _pos_avg := _pos_avg s;
     _pos_min := v; _pos_max := _pos_max s; _pos_sd := _pos_sd s |}.

Definition set_pos_max (v : option cell) (s : IPTW) : IPTW :=
  {| denominator_model := denominator_model s; numerator_model := numerator_model s;
     _mdenom := _mdenom s;
     Weight := Weight s; ProbabilityNumerator := ProbabilityNumerator s;
     ProbabilityDenominator := ProbabilityDenominator s; df := df s; ex := ex s;
     stabilized := stabilized s; standardize := standardize s; _pos_avg := _pos_avg s;
     _pos_min := _pos_min s; _pos_max := v; _pos_sd := _pos_sd s |}.

Definition set_pos_sd (v : option cell) (s : IPTW) : IPTW :=
  {| denominator_model := denominator_model s; numerator_model := numerator_model s;
     _mdenom := _mdenom s;
     Weight := Weight s; ProbabilityNumerator := ProbabilityNumerator s;
     ProbabilityDenominator := ProbabilityDenominator s; df := df s; ex := ex s;
     stabilized := stabilized s; standardize := standardize s; _pos_avg := _pos_avg s;
     _pos_min := _pos_min s; _pos_max := _pos_max s; _pos_sd := v |}.

(** *** Methods as state transformers *)

Definition St (S A : Type) : Type := S -> outcome A * S.

#[export] Instance St_ret S : MRet (St S) := fun A a s => (Ok a, s).
#[export] Instance St_bind S : MBind (St S) := fun A B f m s =>
  match m s with
  | (Ok a, s') => f a s'
  | (Raise e, s') => (Raise e, s')
  end.

(** A method runs on the instance ([self]) and the machine. *)
Abbreviation meth := (St (IPTW * machine)).

Definition lift {A} (o : outcome A) : meth A := fun s => (o, s).

Definition getattr {A} (f : IPTW -> A) : meth A := fun s => (Ok (f s.1), s).

Definition setattr (g : IPTW -> IPTW) : meth unit := fun s => (Ok tt, (g s.1, s.2)).

(** [self.df], the frame the instance refers to. *)
Definition self_df : meth DataFrame := fun s =>
  match heap s.2 !! df s.1 with
  | Some d => (Ok d, s)
  | None => (throw AttributeError "df", s)
  end.

(** In-place update of the frame [self.df] refers to. *)
Definition store_df (d : DataFrame) : meth unit := fun s =>
  (Ok tt, (s.1, {| heap := <[df s.1 := d]> (heap s.2); console := console s.2 |})).

Definition emit (e : event) : meth unit := fun s =>
  (Ok tt, (s.1, {| heap := heap s.2; console := console s.2 ++ [e] |})).

(** *** __init__ (lines 99-119) *)

Definition msg_standardize : string :=
  "Please specify one of the currently supported weighting schemes: " +:+
  "population, exposed, unexposed".

Definition __init__ (df0 : loc) (treatment : string) (stabilized0 : bool)
    (standardize0 : string) : St machine IPTW := fun m =>
  match df_copy df0 m with
  | (Ok r, m') =>
      if bool_decide (standardize0 ∈ ["population"; "exposed"; "unexposed"]) then
        (Ok {| denominator_model := None; numerator_model := None; _mdenom := None;
               Weight := None; ProbabilityNumerator := None;
               ProbabilityDenominator := None;
               df := r; ex := treatment; stabilized := stabilized0;
               standardize := standardize0;
               _pos_avg := None; _pos_min := None; _pos_max := None; _pos_sd := None |},
         m')
      else (throw ValueError msg_standardize, m')
  | (Raise e, m') => (Raise e, m')
  end.

(** *** regression_models (lines 121-210) *)

Definition msg_custom_fit : string :=
  "Currently custom_model must have the 'fit' function with arguments 'X', 'y'. This " +:+
  "covers both sklearn and supylearner. If there is a predictive model you would " +:+
  "like to use, please open an issue at https://github.com/pzivich/zepid and I " +:+
  "can work on adding support".

Definition msg_custom_predict : string :=
  "Currently custom_model must have 'predict' or 'predict_proba' attribute".

Definition msg_numerator : string :=
  "Argument for model_numerator is only used for stabilized=True".

(** [P[:, k]] on a 2-D array given by rows. *)
Definition column (k : nat) (rows : list (list cell)) : outcome col :=
  match mapM (fun r : list cell => r !! k) rows with
  | Some c => Ok c
  | None => throw IndexError "index is out of bounds for axis 1"
  end.

(** [try: fm = custom.fit(X=data, y=y) except TypeError: raise TypeError(...)] *)
Definition try_fit (cm : custom_model) (data : design) (y : col) : outcome fitted :=
  match cm_fit cm data y with
  | Ok fm => Ok fm
  | Raise e =>
      match exc_class e with
      | TypeError => throw TypeError msg_custom_fit
      | _ => Raise e
      end
  end.

(** The predicted probabilities of a fitted custom model:
    [predict_proba(data)[:, 1]] if it has [predict_proba], else
    [predict(data)] if it has [predict], else [ValueError]. *)
Definition predicted (fm : fitted) (data : design) : outcome col :=
  match fm_predict_proba fm with
  | Some predict_proba => P ← predict_proba data; column 1 P
  | None =>
      match fm_predict fm with
      | Some predict => predict data
      | None => throw ValueError msg_custom_predict
      end
  end.

Section Methods.
Context {ext : Collaborators}.

(** The custom-model branch, lines 160-175; lines 188-203 repeat it for
    the numerator with [model_numerator], [custom_model_numerator], [n]. *)
Definition custom_predict (cm : custom_model) (formula : string)
    (print_results : bool) : meth (fitted * col) :=
  frame ← self_df;
  data ← lift (dmatrix (formula +:+ " - 1") frame);
  treatment ← getattr ex;
  y ← lift (df_get frame treatment);
  fm ← lift (try_fit cm data y);
  (if print_results then
     match fm_summarize fm with
     | Some text => emit (Print [PStr text])
     | None => mret tt
     end
   else mret tt);;
  p ← lift (predicted fm data);
  mret (fm, p).

Definition regression_models (model_denominator model_numerator : string)
    (print_results : bool)
    (custom_model_denominator custom_model_numerator : option custom_model)
    : meth unit :=
  setattr (set_mdenom (Some model_denominator));;
  treatment ← getattr ex;
  d ← match custom_model_denominator with
      | None =>
          frame ← self_df;
          m ← lift (propensity_score frame (treatment +:+ " ~ " +:+ model_denominator)
                      print_results);
          setattr (set_denominator_model (Some (Logit m)));;
          d ← lift (lm_predict m frame);
          mret (aligned d)
      | Some cm =>
          '(fm, d) ← custom_predict cm model_denominator print_results;
          setattr (set_denominator_model (Some (Custom fm)));;
          mret (array d)
      end;
  frame ← self_df;
  frame' ← lift (df_assign frame "__denom__" d);
  store_df frame';;
  stab ← getattr stabilized;
  if stab : bool then
    n ← match custom_model_numerator with
        | None =>
            frame ← self_df;
            m ← lift (propensity_score frame (treatment +:+ " ~ " +:+ model_numerator)
                        print_results);
            setattr (set_numerator_model (Some (Logit m)));;
            n ← lift (lm_predict m frame);
            mret (aligned n)
        | Some cm =>
            '(_, n) ← custom_predict cm model_numerator print_results;
            mret (array n)
        end;
    frame ← self_df;
    frame' ← lift (df_assign frame "__numer__" n);
    store_df frame'
  else
    if bool_decide (model_numerator ≠ "1") then lift (throw ValueError msg_numerator)
    else
      frame ← self_df;
      store_df (df_set_scalar frame "__numer__" (Some 1)).

(** *** _weight_calculator (lines 505-543) *)

(** The first assignment to [df['w']] of the branch selected by
    [stabilized] and [standardize]. *)
Definition branch_weights (self : IPTW) (d : DataFrame)
    (denominator numerator : string) : outcome col :=
  if stabilized self then
    if bool_decide (standardize self = "population") then
      a ← df_get d (ex self);
      n ← df_get d numerator;
      dn ← df_get d denominator;
      mret (np_where (col_eq a 1)
              (Series (col_div n dn))
              (Series (col_div (rsub 1 n) (rsub 1 dn))))
    else if bool_decide (standardize self = "exposed") then
      a ← df_get d (ex self);
      dn ← df_get d denominator;
      n ← df_get d numerator;
      mret (np_where (col_eq a 1)
              (Scalar (Some 1))
              (Series (col_mul (col_div dn (rsub 1 dn)) (col_div (rsub 1 n) n))))
    else
      a ← df_get d (ex self);
      dn ← df_get d denominator;
      n ← df_get d numerator;
      mret (np_where (col_eq a 1)
              (Series (col_mul (col_div (rsub 1 dn) dn) (col_div n (rsub 1 n))))
              (Scalar (Some 1)))
  else
    if bool_decide (standardize self = "population") then
      a ← df_get d (ex self);
      dn ← df_get d denominator;
      mret (np_where (col_eq a 1) (Series (rdiv 1 dn)) (Series (rdiv 1 (rsub 1 dn))))
    else if bool_decide (standardize self = "exposed") then
      a ← df_get d (ex self);
      dn ← df_get d denominator;
      mret (np_where (col_eq a 1) (Scalar (Some 1)) (Series (col_div dn (rsub 1 dn))))
    else
      a ← df_get d (ex self);
      dn ← df_get d denominator;
      mret (np_where (col_eq a 1) (Series (col_div (rsub 1 dn) dn)) (Scalar (Some 1))).

(** Every branch ends with the same second assignment,
    [df['w'] = np.where(df[self.ex].isna(), np.nan, df['w'])], and the
    function returns [df['w']].  The frame is updated in place: the
    result carries the frame after the call. *)
Definition _weight_calculator (self : IPTW) (d : DataFrame)
    (denominator numerator : string) : outcome (col * DataFrame) :=
  w0 ← branch_weights self d denominator numerator;
  let d1 := df_set d "w" w0 in
  a ← df_get d1 (ex self);
  w1 ← df_get d1 "w";
  let d2 := df_set d1 "w" (np_where (col_isna a) (Scalar nan) (Series w1)) in
  w ← df_get d2 "w";
  mret (w, d2).

(** *** fit (lines 212-227) *)

Definition msg_no_model : string :=
  "No model has been fit to generated predicted probabilities".

Definition fit : meth unit :=
  dm ← getattr denominator_model;
  match dm with
  | None => lift (throw ValueError msg_no_model)
  | Some _ =>
      self ← getattr (fun s => s);
      frame ← self_df;
      '(w, frame') ← lift (_weight_calculator self frame "__denom__" "__numer__");
      store_df frame';;
      setattr (set_Weight (Some w));;
      frame ← self_df;
      d ← lift (df_get frame "__denom__");
      setattr (set_ProbabilityDenominator (Some d));;
      frame ← self_df;
      n ← lift (df_get frame "__numer__");
      setattr (set_ProbabilityNumerator (Some n));;
      frame ← self_df;
      n ← lift (df_get frame "__numer__");
      d ← lift (df_get frame "__denom__");
      store_df (df_set frame "iptw" (col_div n d))
  end.

(** *** positivity (lines 318-352) *)

Definition dropna (c : col) : list R := omap (fun x : cell => x) c.

Definition Rsum (l : list R) : R := foldr Rplus 0 l.

Definition np_mean (l : list R) : cell :=
  match l with
  | [] => nan
  | _ => Some (Rsum l / INR (length l))
  end.

Definition np_max (l : list R) : cell :=
  match l with
  | [] => nan
  | x :: l' => Some (foldr Rmax x l')
  end.

Definition np_min (l : list R) : cell :=
  match l with
  | [] => nan
  | x :: l' => Some (foldr Rmin x l')
  end.

(** [np.std], population standard deviation (ddof = 0). *)
Definition np_std (l : list R) : cell :=
  match l with
  | [] => nan
  | _ =>
      let mu := Rsum l / INR (length l) in
      Some (sqrt (Rsum ((fun x => (x - mu) * (x - mu)) <$> l) / INR (length l)))
  end.

Definition tab : string := String "009"%char EmptyString.
Definition newline : string := String "010"%char EmptyString.
Definition rule : string :=
  "----------------------------------------------------------------------".

Definition msg_positivity : string :=
  "Positivity should only be used for stabilized IPTW".

Definition positivity (decimal : Z) : meth unit :=
  w ← getattr Weight;
  frame ← self_df;
  store_df (match w with
            | Some c => df_set frame "iptw" c
            | None => df_set_scalar frame "iptw" nan
            end);;
  stab ← getattr stabilized;
  (if negb stab then emit (Warn "UserWarning" msg_positivity) else mret tt);;
  frame ← self_df;
  iptw ← lift (df_get frame "iptw");
  setattr (set_pos_avg (Some (np_mean (dropna iptw))));;
  frame ← self_df;
  iptw ← lift (df_get frame "iptw");
  setattr (set_pos_max (Some (np_max (dropna iptw))));;
  frame ← self_df;
  iptw ← lift (df_get frame "iptw");
  setattr (set_pos_min (Some (np_min (dropna iptw))));;
  frame ← self_df;
  iptw ← lift (df_get frame "iptw");
  setattr (set_pos_sd (Some (np_std (dropna iptw))));;
  emit (Print [PStr rule]);;
  emit (Print [PStr "IPW Diagnostic for positivity"]);;
  emit (Print [PStr ("If the mean of the weights is far from either the min or max, this may"
                     +:+ newline +:+ " indicate the model is" +:+ newline +:+
                     "                incorrect or positivity is violated")]);;
  emit (Print [PStr "Standard deviation can help in IPTW model selection"]);;
  emit (Print [PStr rule]);;
  avg ← getattr _pos_avg;
  emit (Print [PStr ("Mean weight:" +:+ tab +:+ tab +:+ tab); PRound (default nan avg) decimal]);;
  sd ← getattr _pos_sd;
  emit (Print [PStr ("Standard Deviation:" +:+ tab +:+ tab); PRound (default nan sd) decimal]);;
  mn ← getattr _pos_min;
  emit (Print [PStr ("Minimum weight:" +:+ tab +:+ tab +:+ tab); PRound (default nan mn) decimal]);;
  mx ← getattr _pos_max;
  emit (Print [PStr ("Maximum weight:" +:+ tab +:+ tab +:+ tab); PRound (default nan mx) decimal]);;
  emit (Print [PStr rule]).

(** *** _categorical_cov (lines 545-570) *)

(** [a[i]] on a numpy vector. *)
Definition index (a : col) (i : nat) : outcome cell :=
  match a !! i with
  | Some x => Ok x
  | None => throw IndexError "index out of bounds"
  end.

(** The inner loop [for j, w in enumerate(untreated)], from index [j] on,
    for row [i] with [v = treated[i]]; [ws] is what is left of
    [untreated]. *)
Fixpoint cov_row (treated untreated : col) (i : nat) (v : cell) (j : nat)
    (ws : col) : outcome (list cell) :=
  match ws with
  | [] => Ok []
  | w :: ws' =>
      if bool_decide (j = 0%nat) then cov_row treated untreated i v (S j) ws'
      else
        x ← (if bool_decide (i = j) then Ok ((v * (#1 - v) + w * (#1 - w)) / #2)%C
             else
               ti ← index treated i;
               tj ← index treated j;
               ui ← index untreated i;
               uj ← index untreated j;
               Ok ((ti * tj + ui * uj) / #(-2))%C);
        cv1 ← cov_row treated untreated i v (S j) ws';
        mret (x :: cv1)
  end.

(** The outer loop [for i, v in enumerate(treated)], from index [i] on. *)
Fixpoint cov_rows (treated untreated : col) (i : nat) (vs : col)
    : outcome (list (list cell)) :=
  match vs with
  | [] => Ok []
  | v :: vs' =>
      if bool_decide (i = 0%nat) then cov_rows treated untreated (S i) vs'
      else
        cv1 ← cov_row treated untreated i v 0 untreated;
        cv2 ← cov_rows treated untreated (S i) vs';
        mret (cv1 :: cv2)
  end.

Definition _categorical_cov (treated untreated : col) : outcome (list (list cell)) :=
  cov_rows treated untreated 0 treated.

(** *** _standardized_difference (lines 432-503) *)

(** The frame [variable] handed to [_standardized_difference]: the
    columns of one term, then the exposure and ['iptw']. *)
Record variable_frame := { vcols : list col; v_ex : col; v_iptw : col }.

Inductive var_type := binary | continuous | categorical.

(** [frame.loc[mask]] on one column. *)
Fixpoint loc_rows {A} (mask : list bool) (l : list A) : list A :=
  match mask, l with
  | b :: mask', x :: l' => if b then x :: loc_rows mask' l' else loc_rows mask' l'
  | _, _ => []
  end.

Definition mask_and (a b : list bool) : list bool := zip_with andb a b.

Definition col_sum (c : col) : cell := foldr cell_add (Some 0) c.

Definition dot (a b : col) : cell := col_sum (col_mul a b).

(** [statsmodels] [DescrStatsW(x, weights=w, ddof=ddof)]: [.mean] and
    [.std]; without weights every weight is one. *)
Definition ones (x : col) : col := replicate (length x) (Some 1).

Definition descr_mean (x w : col) : cell := (dot x w / col_sum w)%C.

Definition descr_std (x w : col) (ddof : R) : cell :=
  let mu := descr_mean x w in
  let demeaned := (fun xi => (xi - mu)%C) <$> x in
  cell_sqrt (dot (col_mul demeaned demeaned) w / (col_sum w - #ddof))%C.

(** [np.mean] of a pandas column: missing values are skipped. *)
Definition mean_skipna (x : col) : cell := np_mean (dropna x).

(** [np.average(x, axis=0)] of an array: plain mean, NaN propagates. *)
Definition average (x : col) : cell :=
  match x with
  | [] => nan
  | _ => (col_sum x / #(INR (length x)))%C
  end.

(** [np.average(x, weights=w, axis=0)]. *)
Definition average_weighted (x w : col) : outcome cell :=
  if cell_eqb (col_sum w) 0
  then throw ZeroDivisionError "Weights sum to zero, can't be normalized"
  else Ok (dot x w / col_sum w)%C.

Definition matvec (m : list (list cell)) (v : col) : col :=
  (fun row => dot row v) <$> m.

(** [variable.loc[mask]]. *)
Definition loc_frame (mask : list bool) (variable : variable_frame) : variable_frame :=
  {| vcols := loc_rows mask <$> vcols variable;
     v_ex := loc_rows mask (v_ex variable);
     v_iptw := loc_rows mask (v_iptw variable) |}.

(** Lines 458-459: the treated and the untreated rows with a weight. *)
Definition dft (variable : variable_frame) : variable_frame :=
  loc_frame (mask_and (col_eq (v_ex variable) 1) (col_notnull (v_iptw variable))) variable.

Definition dfn (variable : variable_frame) : variable_frame :=
  loc_frame (mask_and (col_eq (v_ex variable) 0) (col_notnull (v_iptw variable))) variable.

Definition msg_scalar : string :=
  "only size-1 arrays can be converted to Python scalars".

Definition _standardized_difference (self : IPTW) (variable : variable_frame)
    (vt : var_type) (weighted : bool) : outcome cell :=
  let dft := dft variable in
  let dfn := dfn variable in
  match vt with
  | binary =>
      match vcols dft, vcols dfn with
      | [xt], [xn] =>
          let wt := if weighted then descr_mean xt (v_iptw dft) else mean_skipna xt in
          let wn := if weighted then descr_mean xn (v_iptw dfn) else mean_skipna xn in
          Ok ((wt - wn) / cell_sqrt ((wt * (#1 - wt) + wn * (#1 - wn)) / #2))%C
      | _, _ => throw TypeError msg_scalar
      end
  | continuous =>
      match vcols dft, vcols dfn with
      | [xt], [xn] =>
          let wgt_t := if weighted then v_iptw dft else ones xt in
          let wgt_n := if weighted then v_iptw dfn else ones xn in
          let wmt := descr_mean xt wgt_t in
          let wst := descr_std xt wgt_t 1 in
          let wmn := descr_mean xn wgt_n in
          let wsn := descr_std xn wgt_n 1 in
          Ok ((wmt - wmn) / cell_sqrt ((wst * wst + wsn * wsn) / #2))%C
      | _, _ => throw TypeError msg_scalar
      end
  | categorical =>
      wt ← (if weighted then mapM (fun x => average_weighted x (v_iptw dft)) (vcols dft)
            else Ok (average <$> vcols dft));
      wn ← (if weighted then mapM (fun x => average_weighted x (v_iptw dfn)) (vcols dfn)
            else Ok (mean_skipna <$> vcols dfn));
      let t_c := zip_with cell_sub wt wn in
      cov ← _categorical_cov wt wn;
      s_inv ← linalg_inv cov;
      Ok (cell_sqrt (dot (drop 1 t_c) (matvec s_inv (drop 1 t_c))))
  end.

(** *** standardized_mean_differences (lines 383-430) *)

Definition is_binary (v : col) : bool :=
  forallb (fun x => Reqb x 0 || Reqb x 1) (dropna v).

Definition detect_type (v : list col) : var_type :=
  match v with
  | [x] => if is_binary x then binary else continuous
  | _ => categorical
  end.

Definition msg_none_plus_str : string :=
  "unsupported operand type(s) for +: 'NoneType' and 'str'".

(** The result frame [s], by rows: label, [smd_w], [smd_u]. *)
Definition standardized_mean_differences : meth (list (string * cell * cell)) :=
  mdenom ← getattr _mdenom;
  formula ← lift (match mdenom with
                  | Some f => Ok (f +:+ " - 1")
                  | None => throw TypeError msg_none_plus_str
                  end);
  frame ← self_df;
  vars ← lift (dmatrix formula frame);
  self ← getattr (fun s => s);
  mapM (fun term : string * list col =>
          let v := term.2 in
          let vtype := detect_type v in
          frame ← self_df;
          a ← lift (df_get frame (ex self));
          w ← lift (df_get frame "iptw");
          let dat := {| vcols := v; v_ex := a; v_iptw := w |} in
          wsmd ← lift (_standardized_difference self dat vtype true);
          usmd ← lift (_standardized_difference self dat vtype false);
          mret (term.1, wsmd, usmd))
       (dm_terms vars).

End Methods.

(** ** The doubly robust estimators (TMLE, AIPTW)

    The module [zepid.causal.doublyrobust] is not among the sources:
    only its tests are.  Every definition of this module is written
    from the specification (sections 3, 4.2, 4.3, 4.4).  Probabilities
    and estimates are real numbers here. *)

Module DoublyRobust.

(** Modelled from the spec: the two estimators that share the
    construction/call contract, TMLE (with the targeting step) and AIPTW
    (without); the classes themselves are not under src/. *)
Inductive kind := TMLE | AIPTW.

(** Modelled from the spec: the effect-measure selector of the
    constructor, "one of risk_difference/risk_ratio/odds_ratio". *)
Inductive measure := risk_difference | risk_ratio | odds_ratio.

(** Modelled from the spec: the [bound] argument of the absent
    [exposure_model], "bound=None|scalar|[low,high]". *)
Inductive bound :=
  | Unbounded
  | Symmetric (b : R)
  | Asymmetric (lower upper : R).

(** Modelled from the spec: the bounds selected by the [bound] argument
    of the absent [exposure_model]: "default bound is effectively
    unbounded (0 to 1) unless caller supplies a scalar (symmetric:
    [bound, 1-bound]) or a two-element pair (asymmetric lower/upper)". *)
Definition bounds_of (b : bound) : R * R :=
  match b with
  | Unbounded => (0, 1)
  | Symmetric b => (b, 1 - b)
  | Asymmetric lower upper => (lower, upper)
  end.

(** Modelled from the spec: truncation of one probability into
    [bound_lower, bound_upper], the bounding step of the absent
    [exposure_model]. *)
Definition clip (lower upper g : R) : R :=
  if Rlt_dec g lower then lower
  else if Rlt_dec upper g then upper
  else g.

(** Modelled from the spec: [logit], used by the absent targeting step
    for the offset [logit(Qinit_A)]. *)
Definition logit (p : R) : R := ln (p / (1 - p)).

(** Modelled from the spec: [expit], the inverse of [logit], used by
    the absent targeting step. *)
Definition expit (x : R) : R := 1 / (1 + exp (- x)).

(** Modelled from the spec: "odds(p) = p/(1-p)", used by the absent
    effect estimator. *)
Definition odds (p : R) : R := p / (1 - p).

(** Modelled from the spec: the mean of a prediction column, as in
    "R1 = mean(Q*_1)" of the absent effect estimator. *)
Definition Rmean (l : list R) : R := foldr Rplus 0 l / INR (length l).

(** Modelled from the spec: what the absent [exposure_model] retains,
    the bounded g1 and its bounded complement. *)
Record exposure_fit := { g1 : list R; g0 : list R }.

(** Modelled from the spec: what the absent [outcome_model] retains,
    the columns Qinit_A, Qinit_1 and Qinit_0. *)
Record outcome_fit := { Qinit_A : list R; Qinit_1 : list R; Qinit_0 : list R }.

(** Modelled from the spec: the state of an instance of the absent
    classes: kind, measure, normal quantile [z], observed exposure and
    outcome, the registered models, and the result entity (fluctuation
    coefficients, point estimate, standard error, confidence
    interval), absent before [fit]. *)
Record estimator := {
  est_kind : kind;
  est_measure : measure;
  est_z : R;
  obs_A : list R;
  obs_Y : list R;
  exposure_fitted : option exposure_fit;
  outcome_fitted : option outcome_fit;
  epsilon : option (R * R);
  psi : option R;
  std_err : option R;
  conf_int : option (R * R)
}.

(** Modelled from the spec: the state after the absent constructor
    (UNFIT): no model registered, result entity absent. *)
Definition new (k : kind) (m : measure) (z : R) (A Y : list R) : estimator :=
  {| est_kind := k; est_measure := m; est_z := z; obs_A := A; obs_Y := Y;
     exposure_fitted := None; outcome_fitted := None;
     epsilon := None; psi := None; std_err := None; conf_int := None |}.

(** Modelled from the spec: the absent [exposure_model], given the
    per-row probabilities the fitted predictor returns: "Bound g1 (and
    its complement) into [bound_lower, bound_upper]". *)
Definition exposure_model (predicted_g1 : list R) (b : bound) (e : estimator) : estimator :=
  let '(lower, upper) := bounds_of b in
  {| est_kind := est_kind e; est_measure := est_measure e; est_z := est_z e;
     obs_A := obs_A e; obs_Y := obs_Y e;
     exposure_fitted := Some {| g1 := clip lower upper <$> predicted_g1;
                                g0 := (fun g => clip lower upper (1 - g)) <$> predicted_g1 |};
     outcome_fitted := outcome_fitted e;
     epsilon := epsilon e; psi := psi e; std_err := std_err e; conf_int := conf_int e |}.

(** Modelled from the spec: the absent [outcome_model], given the
    predictions with the exposure as observed, forced to 1 and forced
    to 0. *)
Definition outcome_model (qa q1 q0 : list R) (e : estimator) : estimator :=
  {| est_kind := est_kind e; est_measure := est_measure e; est_z := est_z e;
     obs_A := obs_A e; obs_Y := obs_Y e;
     exposure_fitted := exposure_fitted e;
     outcome_fitted := Some {| Qinit_A := qa; Qinit_1 := q1; Qinit_0 := q0 |};
     epsilon := epsilon e; psi := psi e; std_err := std_err e; conf_int := conf_int e |}.

(** Modelled from the spec: the numerical routines the absent [fit]
    delegates to and the specification does not define: the logistic
    regression of the targeting step, returning the coefficients of the
    treated and the untreated arm, and the influence curve of one row,
    "a function of H_A, the targeted/augmented residual ... and
    Q*_1 - Q*_0 - psi (risk-difference scale) or analogous terms for
    ratio scales"; the marginal risks R1 and R0 are at its disposal. *)
Class Numerics := {
  fluctuation_fit :
    list R (* Y *) -> list R (* H_A *) -> list R (* H_1 *) -> list R (* H_0 *) ->
    list R (* logit Qinit_A *) -> R * R;
  influence_curve :
    measure -> R (* R1 *) -> R (* R0 *) -> R (* psi *) ->
    R (* H_A *) -> R (* Y *) -> R (* Q_A *) -> R (* Q_1 *) -> R (* Q_0 *) -> R
}.

(** Modelled from the spec: the sample variance (divisor n - 1) the
    absent effect estimator takes of the influence curve. *)
Definition sample_variance (l : list R) : R :=
  let mu := Rmean l in
  foldr Rplus 0 ((fun x => (x - mu) * (x - mu)) <$> l) / (INR (length l) - 1).

(** Modelled from the spec: the standard error of the absent effect
    estimator, from "variance = sample variance of the influence curve
    divided by n". *)
Definition standard_error (ic : list R) : R :=
  sqrt (sample_variance ic / INR (length ic)).

(** Modelled from the spec: the clever covariate of the absent targeting
    step, "H_A = A/g1 - (1-A)/(1-g1)", with the bounded complement for
    [1-g1]. *)
Definition H_A (A : list R) (g : exposure_fit) : list R :=
  zip_with (fun a gg => a / gg.1 - (1 - a) / gg.2) A (zip (g1 g) (g0 g)).

(** Modelled from the spec: the one-sided covariate "H_1 = 1/g1" of the
    absent targeting step. *)
Definition H_1 (g : exposure_fit) : list R := (fun x => 1 / x) <$> g1 g.

(** Modelled from the spec: the one-sided covariate "H_0 = -1/(1-g1)"
    of the absent targeting step, with the bounded complement for
    [1-g1]. *)
Definition H_0 (g : exposure_fit) : list R := (fun x => - 1 / x) <$> g0 g.

(** Modelled from the spec: the point estimate of the absent effect
    estimator, "R1 - R0 (risk difference), R1/R0 (risk ratio),
    odds(R1)/odds(R0) (odds ratio)". *)
Definition point_estimate (m : measure) (R1 R0 : R) : R :=
  match m with
  | risk_difference => R1 - R0
  | risk_ratio => R1 / R0
  | odds_ratio => odds R1 / odds R0
  end.

(** Modelled from the spec: the confidence interval of the absent effect
    estimator, "risk difference - psi ± z*SE directly; risk ratio/odds
    ratio - compute SE and CI on the log scale, exponentiate bounds
    (exp(log(psi) ± z*SE_log))". *)
Definition confidence_interval (m : measure) (psi se z : R) : R * R :=
  match m with
  | risk_difference => (psi - z * se, psi + z * se)
  | risk_ratio | odds_ratio => (exp (ln psi - z * se), exp (ln psi + z * se))
  end.

(** Modelled from the spec: the message of the ValueError of the absent
    [fit], quoted there as "No model has been fit..." . *)
Definition msg_no_model : string := "No model has been fit".

(** Modelled from the spec: the updated predictions of the absent
    targeting step, "Q*_a = expit(logit(Qinit_a) + epsilon_a * H_a)". *)
Definition targeted (eps : R) (q h : list R) : list R :=
  zip_with (fun qi hi => expit (logit qi + eps * hi)) q h.

(** Modelled from the spec: the augmented predictions of the absent
    AIPTW estimator, "Qinit_a + H_a*(Y - Qinit_A)", no fluctuation. *)
Definition augmented (q h y qa : list R) : list R :=
  zip_with (fun qh r => qh.1 + qh.2 * r) (zip q h) (zip_with Rminus y qa).

Section Fit.
Context {num : Numerics}.

(** Modelled from the spec: the "per-row influence curve" of the absent
    effect estimator, one value for each row. *)
Definition influence_curve_rows (m : measure) (R1 R0 p : R)
    (ha y qa Q1 Q0 : list R) : list R :=
  zip_with
    (fun h (r : R * R * R * R) =>
       influence_curve m R1 R0 p h r.1.1.1 r.1.1.2 r.1.2 r.2)
    ha (zip (zip (zip y qa) Q1) Q0).

(** Modelled from the spec: the absent [fit()] of TMLE and AIPTW.
    "Fails with ValueError (No model has been fit...) if fit() is
    invoked before both an exposure model and an outcome model have been
    registered"; otherwise the result entity is populated: the
    fluctuation coefficients (TMLE), the point estimate from the means
    of the updated (TMLE) or augmented (AIPTW) predictions, the standard
    error and the confidence interval. *)
Definition fit (e : estimator) : outcome estimator :=
  match exposure_fitted e, outcome_fitted e with
  | Some g, Some q =>
      let ha := H_A (obs_A e) g in
      let eps :=
        match est_kind e with
        | TMLE => Some (fluctuation_fit (obs_Y e) ha (H_1 g) (H_0 g) (logit <$> Qinit_A q))
        | AIPTW => None
        end in
      let Q1 :=
        match eps with
        | Some ee => targeted ee.1 (Qinit_1 q) (H_1 g)
        | None => augmented (Qinit_1 q) (H_1 g) (obs_Y e) (Qinit_A q)
        end in
      let Q0 :=
        match eps with
        | Some ee => targeted ee.2 (Qinit_0 q) (H_0 g)
        | None => augmented (Qinit_0 q) (H_0 g) (obs_Y e) (Qinit_A q)
        end in
      let p := point_estimate (est_measure e) (Rmean Q1) (Rmean Q0) in
      let s := standard_error
                 (influence_curve_rows (est_measure e) (Rmean Q1) (Rmean Q0) p
                    ha (obs_Y e) (Qinit_A q) Q1 Q0) in
      Ok {| est_kind := est_kind e; est_measure := est_measure e; est_z := est_z e;
            obs_A := obs_A e; obs_Y := obs_Y e;
            exposure_fitted := exposure_fitted e; outcome_fitted := outcome_fitted e;
            epsilon := eps; psi := Some p; std_err := Some s;
            conf_int := Some (confidence_interval (est_measure e) p s (est_z e)) |}
  | _, _ => throw ValueError msg_no_model
  end.

End Fit.

End DoublyRobust.

(** ** The weighting table of the specification *)

Inductive target := population | exposed | unexposed.

Definition target_name (t : target) : string :=
  match t with
  | population => "population"
  | exposed => "exposed"
  | unexposed => "unexposed"
  end.

(** The table {population, exposed, unexposed} x {stabilized,
    unstabilized} as the specification states it, for a row with
    exposure 1 ([treated = true]) or 0, denominator probability [d] and
    numerator probability [n]. *)
Definition table_weight (stab : bool) (t : target) (treated : bool) (d n : R) : R :=
  match stab, t, treated with
  | true, population, true => n / d
  | true, population, false => (1 - n) / (1 - d)
  | true, exposed, true => 1
  | true, exposed, false => (d / (1 - d)) * ((1 - n) / n)
  | true, unexposed, true => ((1 - d) / d) * (n / (1 - n))
  | true, unexposed, false => 1
  | false, population, true => 1 / d
  | false, population, false => 1 / (1 - d)
  | false, exposed, true => 1
  | false, exposed, false => d / (1 - d)
  | false, unexposed, true => (1 - d) / d
  | false, unexposed, false => 1
  end.

(** [o !! i] for an operand of a vectorised operation. *)
Definition operand_at (o : operand) (i : nat) : option cell :=
  match o with
  | Series c => c !! i
  | Scalar v => Some v
  end.

(** ** Scripts of method calls *)

(** Two machines agree at [l]: the same frame there, the same console. *)
Definition agree (l : loc) (m m' : machine) : Prop :=
  heap m !! l = heap m' !! l /\ console m = console m'.

(** A method is local when it reads and writes the machine at
    [self.df] and the console only. *)
Definition local {A} (f : meth A) : Prop :=
  forall self m m', agree (df self) m m' ->
    exists o self1 m1 m1',
      f (self, m) = (o, (self1, m1)) /\ f (self, m') = (o, (self1, m1')) /\
      df self1 = df self /\ agree (df self) m1 m1'.

(** The public methods of the model. *)
Inductive call :=
  | call_regression_models (model_denominator model_numerator : string)
      (print_results : bool)
      (custom_model_denominator custom_model_numerator : option custom_model)
  | call_fit
  | call_positivity (decimal : Z)
  | call_standardized_mean_differences.

Inductive value :=
  | VNone
  | VFrame (rows : list (string * cell * cell)).

(** An in-place mutation of the frame at [r], leaving [d] there. *)
Definition mutate (r : loc) (d : DataFrame) (m : machine) : machine :=
  {| heap := <[r := d]> (heap m); console := console m |}.

Section Calls.
Context {ext : Collaborators}.

Definition run_call (c : call) : meth value :=
  match c with
  | call_regression_models md mn p cd cn => regression_models md mn p cd cn;; mret VNone
  | call_fit => fit;; mret VNone
  | call_positivity decimal => positivity decimal;; mret VNone
  | call_standardized_mean_differences =>
      rows ← standardized_mean_differences; mret (VFrame rows)
  end.

(** A script: the calls run one after the other, each as in a
    [try]/[except] of its own; the outcomes are collected. *)
Fixpoint run_calls (cs : list call) (s : IPTW * machine)
    : list (outcome value) * (IPTW * machine) :=
  match cs with
  | [] => ([], s)
  | c :: cs' =>
      let '(o, s') := run_call c s in
      let '(os, s'') := run_calls cs' s' in
      (o :: os, s'')
  end.

End Calls.

(** ** What positivity prints *)

(** The column [positivity] stores as ['iptw']: [self.Weight], or
    [None] in every row before [fit]. *)
Definition iptw_column (self : IPTW) (frame : DataFrame) : col :=
  match Weight self with
  | Some c => c
  | None => replicate (nrows frame) nan
  end.

(** The lines of the report for the non-missing weights [w]. *)
Definition positivity_report (decimal : Z) (w : list R) : list event :=
  [ Print [PStr rule];
    Print [PStr "IPW Diagnostic for positivity"];
    Print [PStr ("If the mean of the weights is far from either the min or max, this may"
                 +:+ newline +:+ " indicate the model is" +:+ newline +:+
                 "                incorrect or positivity is violated")];
    Print [PStr "Standard deviation can help in IPTW model selection"];
    Print [PStr rule];
    Print [PStr ("Mean weight:" +:+ tab +:+ tab +:+ tab); PRound (np_mean w) decimal];
    Print [PStr ("Standard Deviation:" +:+ tab +:+ tab); PRound (np_std w) decimal];
    Print [PStr ("Minimum weight:" +:+ tab +:+ tab +:+ tab); PRound (np_min w) decimal];
    Print [PStr ("Maximum weight:" +:+ tab +:+ tab +:+ tab); PRound (np_max w) decimal];
    Print [PStr rule] ].

(** ** The categorical covariance matrix as stated

    Entry for categories [i] and [j] of the proportions [P1] (treated)
    and [P2] (untreated), and the matrix over the categories
    1 .. k-1 (category 0 is the reference). *)
Definition cov_entry (P1 P2 : list R) (i j : nat) : R :=
  let p1 := fun n => nth n P1 0 in
  let p2 := fun n => nth n P2 0 in
  if bool_decide (i = j)
  then (p1 i * (1 - p1 i) + p2 i * (1 - p2 i)) / 2
  else - (p1 i * p1 j + p2 i * p2 j) / 2.

Definition cov_matrix (P1 P2 : list R) : list (list cell) :=
  (fun i => (fun j => Some (cov_entry P1 P2 i j)) <$> seq 1 (length P2 - 1))
    <$> seq 1 (length P1 - 1).

(** The quadratic form [v' M v]. *)
Definition quadratic_form (M : list (list cell)) (v : col) : cell :=
  dot v (matvec M v).

(** ** A sample data set

    Eight subjects, exposure [art] and one binary covariate [male]:
    among the men one of four is treated, among the others three of
    four.  A logistic regression of [art] on [male] predicts the
    stratum proportions 1/4 and 3/4, and the intercept-only model the
    overall proportion 1/2. *)
Module Sample.

Definition art : col :=
  [Some 1; Some 0; Some 0; Some 0; Some 1; Some 1; Some 1; Some 0].

Definition male : col :=
  [Some 1; Some 1; Some 1; Some 1; Some 0; Some 0; Some 0; Some 0].

Definition frame : DataFrame :=
  {| nrows := 8; cols := <["art" := art]> (<["male" := male]> ∅) |}.

Definition pr_art_given_male : col :=
  [Some (1/4); Some (1/4); Some (1/4); Some (1/4);
   Some (3/4); Some (3/4); Some (3/4); Some (3/4)].

Definition pr_art : col := replicate 8 (Some (1/2)).

Definition logit_fit (formula : string) : logit_model :=
  {| lm_predict := fun _ =>
       if bool_decide (formula = "art ~ male") then Ok pr_art_given_male
       else Ok pr_art |}.

(** The inverse of a 2 x 2 matrix. *)
Definition inv2 (M : list (list cell)) : outcome (list (list cell)) :=
  match M with
  | [[Some a; Some b]; [Some c; Some d]] =>
      let det := a * d - b * c in
      if Reqb det 0 then throw LinAlgError "Singular matrix"
      else Ok [[Some (d / det); Some (- b / det)]; [Some (- c / det); Some (a / det)]]
  | _ => throw LinAlgError "Last 2 dimensions of the array must be square"
  end.

#[export] Instance collaborators : Collaborators :=
  {| propensity_score := fun _ formula _ => Ok (logit_fit formula);
     dmatrix := fun formula d =>
       if bool_decide (formula = "male - 1")
       then (x ← df_get d "male"; Ok {| dm_terms := [("male", [x])] |})
       else throw ValueError "formula";
     linalg_inv := inv2 |}.

(** The caller's frame lives at location 1. *)
Definition caller : loc := 1%positive.

Definition machine0 : machine :=
  {| heap := {[ caller := frame ]}; console := [] |}.

(** An instance as [__init__] leaves it, its working copy at location 2. *)
Definition working : loc := 2%positive.

Definition new (stab : bool) (std : string) : IPTW :=
  {| denominator_model := None; numerator_model := None; _mdenom := None;
     Weight := None; ProbabilityNumerator := None; ProbabilityDenominator := None;
     df := working; ex := "art"; stabilized := stab; standardize := std;
     _pos_avg := None; _pos_min := None; _pos_max := None; _pos_sd := None |}.

Definition machine1 : machine :=
  {| heap := <[ working := frame ]> {[ caller := frame ]}; console := [] |}.

(** A frame with a subject whose exposure is missing, after the
    probabilities have been stored. *)
Definition frame_na : DataFrame :=
  {| nrows := 3;
     cols := <["art" := [Some 1; Some 0; nan]]>
             (<["__denom__" := [Some (1/4); Some (1/4); Some (1/2)]]>
             (<["__numer__" := [Some (1/2); Some (1/2); Some (1/2)]]> ∅)) |}.

(** The instance and its working frame after
    [regression_models('male', print_results=False)]. *)
Definition self1 : IPTW :=
  set_numerator_model (Some (Logit (logit_fit "art ~ 1")))
    (set_denominator_model (Some (Logit (logit_fit "art ~ male")))
       (set_mdenom (Some "male") (new true "population"))).

Definition frame1 : DataFrame :=
  df_set (df_set frame "__denom__" pr_art_given_male) "__numer__" pr_art.

(** The weights of the table: numerator over denominator for the
    treated, complement over complement for the untreated. *)
Definition weights : col :=
  [Some ((1/2) / (1/4));
   Some ((1 - 1/2) / (1 - 1/4)); Some ((1 - 1/2) / (1 - 1/4)); Some ((1 - 1/2) / (1 - 1/4));
   Some ((1/2) / (3/4)); Some ((1/2) / (3/4)); Some ((1/2) / (3/4));
   Some ((1 - 1/2) / (1 - 3/4))].

(** Numerator over denominator in every row. *)
Definition iptw : col :=
  [Some ((1/2) / (1/4)); Some ((1/2) / (1/4)); Some ((1/2) / (1/4)); Some ((1/2) / (1/4));
   Some ((1/2) / (3/4)); Some ((1/2) / (3/4)); Some ((1/2) / (3/4)); Some ((1/2) / (3/4))].

(** The instance and its working frame after [fit()]. *)
Definition self2 : IPTW :=
  set_ProbabilityNumerator (Some pr_art)
    (set_ProbabilityDenominator (Some pr_art_given_male) (set_Weight (Some weights) self1)).

Definition frame2 : DataFrame := df_set (df_set frame1 "w" weights) "iptw" iptw.

(** The frame handed to [_standardized_difference] for the term [male],
    with [w] as its ['iptw'] column. *)
Definition dat (w : col) : variable_frame :=
  {| vcols := [male]; v_ex := art; v_iptw := w |}.

(** The weighted standardized difference of [male] with group means
    [wt] and [wn]. *)
Definition smd (wt wn : R) : R :=
  (wt - wn) / sqrt ((wt * (1 - wt) + wn * (1 - wn)) / 2).

(** A custom classifier with both [predict_proba] and [predict]. *)
Definition proba : list (list cell) :=
  [[Some (3/4); Some (1/4)]; [Some (3/4); Some (1/4)];
   [Some (3/4); Some (1/4)]; [Some (3/4); Some (1/4)];
   [Some (1/4); Some (3/4)]; [Some (1/4); Some (3/4)];
   [Some (1/4); Some (3/4)]; [Some (1/4); Some (3/4)]].

Definition labels : col :=
  [Some 0; Some 0; Some 0; Some 0; Some 1; Some 1; Some 1; Some 1].

Definition classifier_fitted : fitted :=
  {| fm_summarize := None;
     fm_predict_proba := Some (fun _ => Ok proba);
     fm_predict := Some (fun _ => Ok labels) |}.

Definition classifier : custom_model :=
  {| cm_fit := fun _ _ => Ok classifier_fitted |}.

(** Proportions of a three-level covariate among the treated and the
    untreated. *)
Definition P1 : list R := [1/2; 1/4; 1/4].
Definition P2 : list R := [1/4; 1/4; 1/2].




End Sample.

(** ** Invariants of methods *)

(** [P] is an invariant of the method [f]: whenever it holds of the
    state [f] starts in, it holds of the state [f] leaves, on return
    and when an exception escapes. *)
Definition invariant {A} (P : IPTW * machine -> Prop) (f : meth A) : Prop :=
  forall s o s', P s -> f s = (o, s') -> P s'.

(** The instance refers to the frame at [l], and the machine agrees
    with [m0] everywhere else. *)
Definition elsewhere_as (l : loc) (m0 : machine) (s : IPTW * machine) : Prop :=
  df s.1 = l /\ forall l', l' <> l -> heap s.2 !! l' = heap m0 !! l'.

(** ** Rescaled weights *)

(** The weights [w] with those of the treated subjects (exposure 1 in
    [a]) multiplied by [ct] and those of all others by [cn]. *)
Definition rescale (ct cn : R) (a w : col) : col :=
  zip_with (fun (x y : cell) => (Some (if cell_eqb x 1 then ct else cn) * y)%C) a w.

(** ** The box plot *)

(** *** plot_boxplot (lines 283-316) *)

(** What the plots call and the class does not define: [log_odds p] is
    [np.log(probability_to_odds(p))] on a column without missing
    values. *)
Class Plotting := { log_odds : list R -> list R }.

(** The calls made on the axes [plt.gca()] returns: [ax.boxplot(boxes,
    labels=..., meanprops=dict(marker=..., markeredgecolor=...,
    markerfacecolor=...), showmeans=...)] and [ax.set_ylabel(...)]. *)
Inductive axes_call :=
  | Boxplot (boxes : list R * list R) (labels : list string)
      (marker markeredgecolor markerfacecolor : string) (showmeans : bool)
  | SetYLabel (label : string).

Definition msg_measure : string :=
  "Only plots of probabilities or log-odds are supported. Please specify either " +:+
  "'probability' or 'logit".

(** [self.df.loc[self.df[self.ex] == v]['__denom__'].dropna()] *)
Definition denominators_of (v : R) : meth (list R) :=
  frame ← self_df;
  treatment ← getattr ex;
  a ← lift (df_get frame treatment);
  d ← lift (df_get frame "__denom__");
  mret (dropna (loc_rows (col_eq a v) d)).

(** The method returns the axes; the model returns the calls made on
    them. *)
Definition plot_boxplot {plt : Plotting} (measure : string) : meth (list axes_call) :=
  boxes ← (if bool_decide (measure = "probability") then
             t ← denominators_of 1;
             u ← denominators_of 0;
             mret (t, u)
           else if bool_decide (measure = "logit") then
             t ← denominators_of 1;
             u ← denominators_of 0;
             mret (log_odds t, log_odds u)
           else lift (throw ValueError msg_measure));
  let labs := ["Treat = 1"; "Treat = 0"] in
  mret [Boxplot boxes labs "D" "black" "black" true;
        SetYLabel (if bool_decide (measure = "probability") then "Probability"
                   else "Log-Odds")].


(** * Properties *)

(** ** Columns and frames *)

Lemma lookup_broadcast (n : nat) (o : operand) (i : nat) (x : cell) :
  (i < n)%nat -> operand_at o i = Some x -> broadcast n o !! i = Some x.
Proof.
  destruct o as [c|v]; simpl; intros Hi H; [done|].
  injection H as <-. by apply lookup_replicate_2.
Qed.

Lemma lookup_np_where (cond : list bool) (x y : operand) (i : nat) (c : bool)
    (xi yi : cell) :
  cond !! i = Some c -> operand_at x i = Some xi -> operand_at y i = Some yi ->
  np_where cond x y !! i = Some (if c then xi else yi).
Proof.
  intros Hc Hx Hy. unfold np_where.
  pose proof (lookup_lt_Some _ _ _ Hc) as Hi.
  rewrite !lookup_zip_with, Hc.
  rewrite (lookup_broadcast _ _ _ _ Hi Hx), (lookup_broadcast _ _ _ _ Hi Hy).
  reflexivity.
Qed.

Lemma lookup_col_div (a b : col) (i : nat) (x y : cell) :
  a !! i = Some x -> b !! i = Some y -> col_div a b !! i = Some (x / y)%C.
Proof. intros Ha Hb. unfold col_div. by rewrite lookup_zip_with, Ha, Hb. Qed.

Lemma lookup_col_mul (a b : col) (i : nat) (x y : cell) :
  a !! i = Some x -> b !! i = Some y -> col_mul a b !! i = Some (x * y)%C.
Proof. intros Ha Hb. unfold col_mul. by rewrite lookup_zip_with, Ha, Hb. Qed.

Lemma lookup_rsub v (c : col) (i : nat) (x : cell) :
  c !! i = Some x -> rsub v c !! i = Some (#v - x)%C.
Proof. intros H. unfold rsub. by rewrite list_lookup_fmap, H. Qed.

Lemma lookup_rdiv v (c : col) (i : nat) (x : cell) :
  c !! i = Some x -> rdiv v c !! i = Some (#v / x)%C.
Proof. intros H. unfold rdiv. by rewrite list_lookup_fmap, H. Qed.

Lemma lookup_col_eq (c : col) v (i : nat) (x : cell) :
  c !! i = Some x -> col_eq c v !! i = Some (cell_eqb x v).
Proof. intros H. unfold col_eq. by rewrite list_lookup_fmap, H. Qed.

Lemma lookup_col_isna (c : col) (i : nat) (x : cell) :
  c !! i = Some x -> col_isna c !! i = Some (cell_isna x).
Proof. intros H. unfold col_isna. by rewrite list_lookup_fmap, H. Qed.

Lemma operand_at_Series c i : operand_at (Series c) i = c !! i.
Proof. reflexivity. Qed.

Lemma operand_at_Scalar v i : operand_at (Scalar v) i = Some v.
Proof. reflexivity. Qed.

Lemma Reqb_refl x : Reqb x x = true.
Proof. unfold Reqb. by destruct (Req_dec_T x x). Qed.

Lemma Reqb_neq x y : x <> y -> Reqb x y = false.
Proof. unfold Reqb. by destruct (Req_dec_T x y). Qed.

Lemma df_get_Ok d c x : cols d !! c = Some x <-> df_get d c = Ok x.
Proof.
  unfold df_get. destruct (cols d !! c); split; intros H; by (inversion H || congruence).
Qed.

Lemma df_get_set_eq d c v : df_get (df_set d c v) c = Ok v.
Proof. unfold df_get, df_set. simpl. by rewrite lookup_insert_eq. Qed.

Lemma df_get_set_ne d c c' v : c <> c' -> df_get (df_set d c v) c' = df_get d c'.
Proof. intros H. unfold df_get, df_set. simpl. by rewrite lookup_insert_ne. Qed.

Lemma df_assign_aligned d c x : df_assign d c (aligned x) = Ok (df_set d c x).
Proof. reflexivity. Qed.

Lemma df_assign_array d c (x : col) :
  length x = nrows d -> df_assign d c (array x) = Ok (df_set d c x).
Proof. intros H. unfold df_assign. by rewrite bool_decide_eq_true_2. Qed.

Lemma df_assign_inv d c v d' :
  df_assign d c v = Ok d' ->
  d' = df_set d c (match v with aligned x | array x => x end).
Proof.
  destruct v as [x|x]; simpl; [by intros [= <-]|].
  case_bool_decide; [by intros [= <-]|done].
Qed.

Lemma df_assign_array_length d c (x : col) :
  length x <> nrows d -> df_assign d c (array x) = throw ValueError msg_length.
Proof. intros H. unfold df_assign. by rewrite bool_decide_eq_false_2. Qed.

(** ** Running methods *)

Lemma run_bind {A B} (f : A -> meth B) (c : meth A) s :
  (c ≫= f) s = match c s with
               | (Ok a, s') => f a s'
               | (Raise e, s') => (Raise e, s')
               end.
Proof. reflexivity. Qed.

Lemma run_ret {A} (a : A) (s : IPTW * machine) : (mret a : meth A) s = (Ok a, s).
Proof. reflexivity. Qed.

Lemma run_lift {A} (o : outcome A) (s : IPTW * machine) : lift o s = (o, s).
Proof. reflexivity. Qed.

Lemma run_getattr {A} (f : IPTW -> A) s : getattr f s = (Ok (f s.1), s).
Proof. reflexivity. Qed.

Lemma run_setattr g s : setattr g s = (Ok tt, (g s.1, s.2)).
Proof. reflexivity. Qed.

Lemma run_self_df s d : heap s.2 !! df s.1 = Some d -> self_df s = (Ok d, s).
Proof. intros H. unfold self_df. by rewrite H. Qed.

Lemma run_store_df d s :
  store_df d s =
    (Ok tt, (s.1, {| heap := <[df s.1 := d]> (heap s.2); console := console s.2 |})).
Proof. reflexivity. Qed.

Lemma run_emit e s :
  emit e s = (Ok tt, (s.1, {| heap := heap s.2; console := console s.2 ++ [e] |})).
Proof. reflexivity. Qed.

(** One step of a method on a given state. *)
Ltac run_step :=
  first
    [ rewrite run_bind
    | erewrite run_self_df by (simpl; first [eassumption | apply lookup_insert_eq])
    | rewrite run_getattr
    | rewrite run_setattr
    | rewrite run_store_df
    | rewrite run_emit
    | rewrite run_ret
    | rewrite run_lift
    | rewrite df_assign_aligned ];
  cbn [fst snd heap console df ex stabilized denominator_model set_denominator_model
       set_numerator_model set_mdenom set_Weight set_ProbabilityNumerator
       set_ProbabilityDenominator set_pos_avg set_pos_min set_pos_max set_pos_sd].

Ltac run := repeat run_step.

(** Case analysis on the innermost call whose result is not known. *)
Ltac innermost x :=
  lazymatch x with
  | context [match _ with Ok _ => _ | Raise _ => _ end] => fail
  | context [match _ with Some _ => _ | None => _ end] => fail
  | context [if _ then _ else _] => fail
  | context [match _ with (_, _) => _ end] => fail
  | _ => idtac
  end.

Ltac case_step :=
  match goal with
  | |- context [match ?x with Ok _ => _ | Raise _ => _ end] => innermost x; destruct x eqn:?
  | |- context [match ?x with Some _ => _ | None => _ end] => innermost x; destruct x eqn:?
  | |- context [if ?x then _ else _] => innermost x; destruct x eqn:?
  | |- context [match ?x with (_, _) => _ end] => innermost x; destruct x eqn:?
  | |- context [match ?x with TypeError => _ | _ => _ end] => innermost x; destruct x eqn:?
  end.

Ltac run_cases := repeat first [ run_step | case_step ].

(** ** The weight calculator *)

(** The column a branch assigns first, at row [i]. *)
Lemma branch_weights_row self frame den num (A D N : col) t (i : nat) a d n :
  standardize self = target_name t ->
  cols frame !! ex self = Some A -> cols frame !! den = Some D ->
  cols frame !! num = Some N ->
  A !! i = Some a -> D !! i = Some (Some d) -> N !! i = Some (Some n) ->
  exists w0, branch_weights self frame den num = Ok w0 /\
    w0 !! i = Some (Some (table_weight (stabilized self) t (cell_eqb a 1) d n)).
Proof.
  intros Ht HA HD HN Ha Hd Hn.
  apply df_get_Ok in HA, HD, HN.
  unfold branch_weights. rewrite Ht.
  destruct (stabilized self), t; simpl; rewrite HA, ?HN, ?HD; simpl; rewrite ?HN, ?HD; simpl.
  all: eexists; split; [reflexivity|].
  all: erewrite lookup_np_where;
    [ | eauto using lookup_col_eq
      | first [ apply operand_at_Scalar
              | rewrite operand_at_Series;
                eauto 6 using lookup_col_div, lookup_col_mul, lookup_rsub, lookup_rdiv ]
      | first [ apply operand_at_Scalar
              | rewrite operand_at_Series;
                eauto 6 using lookup_col_div, lookup_col_mul, lookup_rsub, lookup_rdiv ] ].
  all: by destruct (cell_eqb a 1).
Qed.

(** The column [_weight_calculator] returns, at row [i]. *)
Lemma weight_calculator_row self frame den num (A D N : col) t (i : nat) a d n :
  ex self <> "w" ->
  standardize self = target_name t ->
  cols frame !! ex self = Some A -> cols frame !! den = Some D ->
  cols frame !! num = Some N ->
  A !! i = Some a -> D !! i = Some (Some d) -> N !! i = Some (Some n) ->
  exists w frame', _weight_calculator self frame den num = Ok (w, frame') /\
    w !! i = Some (if cell_isna a then nan
                   else Some (table_weight (stabilized self) t (cell_eqb a 1) d n)).
Proof.
  intros Hex Ht HA HD HN Ha Hd Hn.
  destruct (branch_weights_row self frame den num A D N t i a d n) as (w0 & Hw0 & Hi);
    try done.
  unfold _weight_calculator. rewrite Hw0. simpl.
  rewrite (df_get_set_ne _ "w" (ex self)) by congruence.
  apply df_get_Ok in HA. rewrite HA. simpl.
  rewrite df_get_set_eq. simpl. rewrite df_get_set_eq. simpl.
  do 2 eexists. split; [reflexivity|].
  erewrite lookup_np_where; eauto using lookup_col_isna.
Qed.

(** X25. Provided the treatment column is not labelled 'w', the scratch
    column of the calculator: for a row with denominator probability d
    in (0,1) and numerator probability n in (0,1) (the numerator
    matters for stabilized weights only), the column returned by
    _weight_calculator holds the entry of the specification's table for
    the instance's stabilized flag and standardize target: the treated
    entry when the exposure is 1, the untreated entry when it is 0, and
    NaN - not zero - when the exposure is missing, in all six
    branches. *)
Theorem weight_calculator_table self frame den num (A D N : col) t (i : nat) a d n :
  ex self <> "w" ->
  standardize self = target_name t ->
  cols frame !! ex self = Some A -> cols frame !! den = Some D ->
  cols frame !! num = Some N ->
  A !! i = Some a -> D !! i = Some (Some d) -> N !! i = Some (Some n) ->
  0 < d < 1 -> (stabilized self = true -> 0 < n < 1) ->
  exists w frame', _weight_calculator self frame den num = Ok (w, frame') /\
    (a = Some 1 -> w !! i = Some (Some (table_weight (stabilized self) t true d n))) /\
    (a = Some 0 -> w !! i = Some (Some (table_weight (stabilized self) t false d n))) /\
    (a = nan -> w !! i = Some nan /\ w !! i <> Some (Some 0)).
Proof.
  intros Hex Ht HA HD HN Ha Hd Hn _ _.
  destruct (weight_calculator_row self frame den num A D N t i a d n)
    as (w & frame' & Hw & Hi); try done.
  exists w, frame'. split; [done|]. rewrite Hi.
  split; [|split]; intros ->; simpl; rewrite ?Reqb_refl, ?Reqb_neq by lra; done.
Qed.

(** Witness of [weight_calculator_table]: the untreated subject of the
    sample frame with a missing subject, stabilized weights standardized
    to the population. *)
Lemma weight_calculator_table_witness :
  exists w frame',
    _weight_calculator (Sample.new true "population") Sample.frame_na
      "__denom__" "__numer__" = Ok (w, frame') /\
    w !! 1%nat = Some (Some ((1 - 1/2) / (1 - 1/4))).
Proof.
  destruct (weight_calculator_table (Sample.new true "population") Sample.frame_na
              "__denom__" "__numer__"
              [Some 1; Some 0; nan]
              [Some (1/4); Some (1/4); Some (1/2)]
              [Some (1/2); Some (1/2); Some (1/2)]
              population 1 (Some 0) (1/4) (1/2))
    as (w & frame' & Hw & _ & H0 & _).
  - discriminate.
  - reflexivity.
  - reflexivity.
  - reflexivity.
  - reflexivity.
  - reflexivity.
  - reflexivity.
  - reflexivity.
  - lra.
  - intros _. lra.
  - exists w, frame'. split; [exact Hw|]. apply H0. reflexivity.
Defined.

(** C2 (the code departs from the claim).  On a frame of three subjects
    whose treatment column is labelled 'w' - a treated, an untreated
    and one whose exposure is missing - with unstabilized weights
    standardized to the population, the first assignment to df['w']
    replaces the exposures by the weights, the test for missing
    exposures is then made on those weights, and the subject with the
    missing exposure is given the untreated entry 1/(1-d) of the table,
    not NaN; the treatment column of the frame now holds the weights.
    The same data under the label 'art' give that subject NaN. *)
Theorem weight_calculator_treatment_labelled_w :
  let data (label : string) : DataFrame :=
    {| nrows := 3;
       cols := <[label := [Some 1; Some 0; nan]]>
               (<["__denom__" := [Some (1/4); Some (1/4); Some (1/2)]]>
               (<["__numer__" := [Some 1; Some 1; Some 1]]> ∅)) |} in
  let ipt (label : string) : IPTW :=
    {| denominator_model := None; numerator_model := None; _mdenom := None;
       Weight := None; ProbabilityNumerator := None; ProbabilityDenominator := None;
       df := Sample.working; ex := label; stabilized := false;
       standardize := "population";
       _pos_avg := None; _pos_min := None; _pos_max := None; _pos_sd := None |} in
  (exists w frame',
     _weight_calculator (ipt "w") (data "w") "__denom__" "__numer__" = Ok (w, frame') /\
     w !! 2%nat = Some (Some (1 / (1 - 1/2))) /\
     w !! 2%nat <> Some nan /\
     cols frame' !! "w" = Some w) /\
  (exists w frame',
     _weight_calculator (ipt "art") (data "art") "__denom__" "__numer__" = Ok (w, frame') /\
     w !! 2%nat = Some nan).
Proof.
  intros data ipt. split.
  - destruct (branch_weights_row (ipt "w") (data "w") "__denom__" "__numer__"
                [Some 1; Some 0; nan] [Some (1/4); Some (1/4); Some (1/2)]
                [Some 1; Some 1; Some 1] population 2 nan (1/2) 1)
      as (w0 & Hw0 & Hi); try reflexivity.
    simpl in Hi.
    unfold _weight_calculator. rewrite Hw0. simpl.
    rewrite df_get_set_eq. simpl. rewrite df_get_set_eq. simpl.
    do 2 eexists. split; [reflexivity|].
    assert (Hw : np_where (col_isna w0) (Scalar nan) (Series w0) !! 2%nat
                 = Some (Some (1 / (1 - 1/2)))).
    { erewrite lookup_np_where; [|by eapply lookup_col_isna|apply operand_at_Scalar|
        rewrite operand_at_Series; exact Hi]. reflexivity. }
    split; [exact Hw|]. split; [by rewrite Hw|].
    simpl. apply lookup_insert_eq.
  - destruct (weight_calculator_row (ipt "art") (data "art") "__denom__" "__numer__"
                [Some 1; Some 0; nan] [Some (1/4); Some (1/4); Some (1/2)]
                [Some 1; Some 1; Some 1] population 2 nan (1/2) 1)
      as (w & frame' & Hw & Hi); try reflexivity; [discriminate|].
    by exists w, frame'.
Qed.

(** ** The constructor *)

Lemma init_Ok r t stab std m d :
  heap m !! r = Some d -> std ∈ ["population"; "exposed"; "unexposed"] ->
  __init__ r t stab std m =
    (Ok {| denominator_model := None; numerator_model := None; _mdenom := None;
           Weight := None; ProbabilityNumerator := None; ProbabilityDenominator := None;
           df := fresh (dom (heap m)); ex := t; stabilized := stab; standardize := std;
           _pos_avg := None; _pos_min := None; _pos_max := None; _pos_sd := None |},
     {| heap := <[fresh (dom (heap m)) := d]> (heap m); console := console m |}).
Proof.
  intros Hr Hstd. unfold __init__, df_copy. rewrite Hr.
  by rewrite bool_decide_eq_true_2.
Qed.

Lemma init_invalid r t stab std m d :
  heap m !! r = Some d -> std ∉ ["population"; "exposed"; "unexposed"] ->
  __init__ r t stab std m =
    (throw ValueError msg_standardize,
     {| heap := <[fresh (dom (heap m)) := d]> (heap m); console := console m |}).
Proof.
  intros Hr Hstd. unfold __init__, df_copy. rewrite Hr.
  by rewrite bool_decide_eq_false_2.
Qed.

Lemma init_inv r t stab std m self m' :
  __init__ r t stab std m = (Ok self, m') ->
  exists d, heap m !! r = Some d /\ std ∈ ["population"; "exposed"; "unexposed"].
Proof.
  unfold __init__, df_copy. destruct (heap m !! r) as [d|] eqn:Hr; [|done].
  case_bool_decide; [|done]. eauto.
Qed.

(** C8. On a data frame [r] of the caller, the constructor raises
    ValueError - and returns no instance - when standardize is not one
    of 'population', 'exposed', 'unexposed', and otherwise returns an
    instance whose standardize attribute is the argument, unchanged. *)
Theorem init_standardize_checked r t stab std m d :
  heap m !! r = Some d ->
  (std ∈ ["population"; "exposed"; "unexposed"] ->
     exists self m', __init__ r t stab std m = (Ok self, m') /\ standardize self = std) /\
  (std ∉ ["population"; "exposed"; "unexposed"] ->
     exists m', __init__ r t stab std m = (throw ValueError msg_standardize, m')).
Proof.
  intros Hr. split; intros Hstd.
  - rewrite (init_Ok _ _ _ _ _ _ Hr Hstd). by do 2 eexists.
  - rewrite (init_invalid _ _ _ _ _ _ Hr Hstd). by eexists.
Qed.

(** Witness of [init_standardize_checked]: the sample frame, with
    'exposed' accepted and 'treated' refused. *)
Lemma init_standardize_checked_witness :
  (exists self m',
     __init__ Sample.caller "art" true "exposed" Sample.machine0 = (Ok self, m') /\
     standardize self = "exposed") /\
  (exists m',
     __init__ Sample.caller "art" true "treated" Sample.machine0
     = (throw ValueError msg_standardize, m')).
Proof.
  split.
  - apply (init_standardize_checked Sample.caller "art" true "exposed"
             Sample.machine0 Sample.frame); [reflexivity|].
    apply (bool_decide_unpack _). exact I.
  - apply (init_standardize_checked Sample.caller "art" true "treated"
             Sample.machine0 Sample.frame); [reflexivity|].
    intros H. apply (bool_decide_pack _) in H. exact H.
Defined.

(** ** fit before the models *)

Lemma fit_no_model self m :
  denominator_model self = None ->
  fit (self, m) = (throw ValueError msg_no_model, (self, m)).
Proof. intros H. unfold fit. run. by rewrite H. Qed.

Lemma init_fields r t stab std m self m' :
  __init__ r t stab std m = (Ok self, m') ->
  denominator_model self = None /\ Weight self = None /\
  ProbabilityNumerator self = None /\ ProbabilityDenominator self = None.
Proof.
  intros H. destruct (init_inv _ _ _ _ _ _ _ H) as (d & Hr & Hstd).
  rewrite (init_Ok _ _ _ _ _ _ Hr Hstd) in H. by injection H as <- <-.
Qed.

(** C1. fit() before the nuisance models are registered raises
    ValueError with its message and populates nothing.  IPTW (from the
    source): on an instance without a denominator model - a new
    instance in particular - fit raises and leaves instance and machine
    as they were, so Weight and the two probability attributes are still
    None.  TMLE and AIPTW (as the specification describes their fit):
    with no model, with the exposure model only, and with the outcome
    model only, fit raises ValueError and returns no result. *)
Theorem fit_before_models_raises :
  (forall self m, denominator_model self = None ->
     fit (self, m) = (throw ValueError msg_no_model, (self, m))) /\
  (forall r t stab std m0 self m1, __init__ r t stab std m0 = (Ok self, m1) ->
     fit (self, m1) = (throw ValueError msg_no_model, (self, m1)) /\
     Weight self = None /\ ProbabilityNumerator self = None /\
     ProbabilityDenominator self = None) /\
  (forall (num : DoublyRobust.Numerics) k ms z A Y g b qa q1 q0,
     let e := DoublyRobust.new k ms z A Y in
     DoublyRobust.fit e = throw ValueError DoublyRobust.msg_no_model /\
     DoublyRobust.fit (DoublyRobust.exposure_model g b e)
       = throw ValueError DoublyRobust.msg_no_model /\
     DoublyRobust.fit (DoublyRobust.outcome_model qa q1 q0 e)
       = throw ValueError DoublyRobust.msg_no_model).
Proof.
  split; [exact fit_no_model|]. split.
  - intros r t stab std m0 self m1 H.
    destruct (init_fields _ _ _ _ _ _ _ H) as (Hd & HW & HN & HD).
    by rewrite (fit_no_model _ _ Hd).
  - intros num k ms z A Y g b qa q1 q0 e. subst e.
    unfold DoublyRobust.fit, DoublyRobust.exposure_model, DoublyRobust.outcome_model.
    by destruct (DoublyRobust.bounds_of b).
Qed.

(** Witness of [fit_before_models_raises]: a new instance on the sample
    frame. *)
Lemma fit_before_models_raises_witness :
  exists self m1,
    __init__ Sample.caller "art" true "population" Sample.machine0 = (Ok self, m1) /\
    fit (self, m1) = (throw ValueError msg_no_model, (self, m1)) /\
    Weight self = None.
Proof.
  destruct fit_before_models_raises as (_ & H & _).
  do 2 eexists. split.
  - apply (init_Ok Sample.caller "art" true "population" Sample.machine0 Sample.frame);
      [reflexivity|]. apply (bool_decide_unpack _). exact I.
  - split; [|reflexivity].
    refine (proj1 (H Sample.caller "art" true "population" Sample.machine0 _ _ _)).
    apply (init_Ok Sample.caller "art" true "population" Sample.machine0 Sample.frame);
      [reflexivity|]. apply (bool_decide_unpack _). exact I.
Defined.

(** ** positivity *)

(** The instance after [positivity]: the four statistics are kept in
    the private attributes. *)
Lemma positivity_run decimal self m frame :
  heap m !! df self = Some frame ->
  let w := dropna (iptw_column self frame) in
  exists m',
    positivity decimal (self, m) =
      (Ok tt,
       (set_pos_sd (Some (np_std w))
          (set_pos_min (Some (np_min w))
             (set_pos_max (Some (np_max w)) (set_pos_avg (Some (np_mean w)) self))),
        m')) /\
    heap m' !! df self = Some (df_set frame "iptw" (iptw_column self frame)) /\
    console m' = console m
      ++ (if stabilized self then [] else [Warn "UserWarning" msg_positivity])
      ++ positivity_report decimal w.
Proof.
  intros Hdf w. unfold positivity. run.
  assert (Hframe : match Weight self with
                   | Some c => df_set frame "iptw" c
                   | None => df_set_scalar frame "iptw" nan
                   end = df_set frame "iptw" (iptw_column self frame)).
  { unfold iptw_column. by destruct (Weight self). }
  rewrite Hframe.
  pose proof (df_get_set_eq frame "iptw" (iptw_column self frame)) as Hget.
  destruct (stabilized self) eqn:Hstab; cbn [negb];
    repeat (progress (run; rewrite ?Hget)).
  all: eexists; split; [reflexivity|]; cbn [heap console]; split;
    [apply lookup_insert_eq|].
  all: rewrite <- ?app_assoc; reflexivity.
Qed.

(** C9. positivity() never raises and returns None.  With
    stabilized=False it first emits a UserWarning.  In every case it
    prints - and only prints - the report whose figures are the mean,
    standard deviation, minimum and maximum of the non-missing weights
    (the weights stay where they were; the four figures are also kept in
    the private attributes _pos_avg, _pos_sd, _pos_min, _pos_max). *)
Theorem positivity_prints_summary decimal self m frame w :
  heap m !! df self = Some frame ->
  Weight self = Some w ->
  exists self' m',
    positivity decimal (self, m) = (Ok tt, (self', m')) /\
    console m' = console m
      ++ (if stabilized self then [] else [Warn "UserWarning" msg_positivity])
      ++ positivity_report decimal (dropna w) /\
    Weight self' = Some w /\
    _pos_avg self' = Some (np_mean (dropna w)) /\
    _pos_sd self' = Some (np_std (dropna w)) /\
    _pos_min self' = Some (np_min (dropna w)) /\
    _pos_max self' = Some (np_max (dropna w)).
Proof.
  intros Hdf HW.
  destruct (positivity_run decimal self m frame Hdf) as (m' & Hrun & _ & Hcons).
  unfold iptw_column in *. rewrite HW in *.
  do 2 eexists. split; [exact Hrun|]. split; [exact Hcons|]. by simpl.
Qed.

(** Witness of [positivity_prints_summary]: unstabilized weights on the
    sample frame; the warning comes first, then the report. *)
Lemma positivity_prints_summary_witness :
  exists self' m',
    positivity 3 (set_Weight (Some Sample.weights) (Sample.new false "population"),
                  Sample.machine1) = (Ok tt, (self', m')) /\
    console m' =
      Warn "UserWarning" msg_positivity :: positivity_report 3 (dropna Sample.weights).
Proof.
  destruct (positivity_prints_summary 3
              (set_Weight (Some Sample.weights) (Sample.new false "population"))
              Sample.machine1 Sample.frame Sample.weights)
    as (self' & m' & Hrun & Hcons & _).
  - reflexivity.
  - reflexivity.
  - exists self', m'. split; [exact Hrun|exact Hcons].
Defined.

(** ** The working copy *)

Lemma local_ret {A} (a : A) : local (mret a).
Proof. intros self m m' H. by exists (Ok a), self, m, m'. Qed.

Lemma local_lift {A} (o : outcome A) : local (lift o).
Proof. intros self m m' H. by exists o, self, m, m'. Qed.

Lemma local_getattr {A} (f : IPTW -> A) : local (getattr f).
Proof. intros self m m' H. by exists (Ok (f self)), self, m, m'. Qed.

Lemma local_setattr g : (forall s, df (g s) = df s) -> local (setattr g).
Proof. intros Hg self m m' H. exists (Ok tt), (g self), m, m'. by rewrite Hg. Qed.

Lemma local_self_df : local self_df.
Proof.
  intros self m m' [Hh Hc]. unfold self_df. simpl. rewrite <- Hh.
  destruct (heap m !! df self) eqn:E; do 4 eexists; repeat split; congruence.
Qed.

Lemma local_store_df d : local (store_df d).
Proof.
  intros self m m' [Hh Hc]. unfold store_df. simpl.
  do 4 eexists. repeat split; simpl; [by rewrite !lookup_insert_eq | done].
Qed.

Lemma local_emit e : local (emit e).
Proof.
  intros self m m' [Hh Hc]. unfold emit. simpl.
  do 4 eexists. repeat split; simpl; [done | by rewrite Hc].
Qed.

Lemma local_bind {A B} (c : meth A) (f : A -> meth B) :
  local c -> (forall a, local (f a)) -> local (c ≫= f).
Proof.
  intros Hc Hf self m m' H.
  destruct (Hc self m m' H) as (o & self1 & m1 & m1' & E & E' & Hdf & H1).
  rewrite !run_bind, E, E'. destruct o as [a|e].
  - rewrite <- Hdf in H1.
    destruct (Hf a self1 m1 m1' H1) as (o2 & self2 & m2 & m2' & F & F' & Hdf2 & H2).
    exists o2, self2, m2, m2'. rewrite F, F'.
    split; [done|]. split; [done|]. split; [congruence|]. by rewrite <- Hdf.
  - by exists (Raise e), self1, m1, m1'.
Qed.

Lemma local_mapM {A B} (f : A -> meth B) (l : list A) :
  (forall a, local (f a)) -> local (mapM f l).
Proof.
  intros Hf. induction l as [|x l IH]; simpl.
  - apply local_ret.
  - apply local_bind; [apply Hf|]. intros y.
    apply local_bind; [apply IH|]. intros k. apply local_ret.
Qed.

Ltac local_step :=
  first
    [ apply local_bind; [|intros]
    | apply local_ret
    | apply local_lift
    | apply local_getattr
    | apply local_setattr; reflexivity
    | apply local_self_df
    | apply local_store_df
    | apply local_emit
    | apply local_mapM; intros
    | match goal with
      | |- local (match ?x with _ => _ end) => destruct x
      | |- local (let '(_, _) := ?x in _) => destruct x
      end ].

Section Local.
Context {ext : Collaborators}.

Lemma local_custom_predict cm formula print_results :
  local (custom_predict cm formula print_results).
Proof. unfold custom_predict. repeat local_step. Qed.

Lemma local_regression_models md mn p cd cn : local (regression_models md mn p cd cn).
Proof.
  unfold regression_models. repeat first [apply local_custom_predict | local_step].
Qed.

Lemma local_fit : local fit.
Proof. unfold fit. repeat local_step. Qed.

Lemma local_positivity decimal : local (positivity decimal).
Proof. unfold positivity. repeat local_step. Qed.

Lemma local_standardized_mean_differences : local standardized_mean_differences.
Proof. unfold standardized_mean_differences. repeat local_step. Qed.

Lemma local_run_call c : local (run_call c).
Proof.
  destruct c; simpl; repeat first
    [ apply local_regression_models | apply local_fit | apply local_positivity
    | apply local_standardized_mean_differences | local_step ].
Qed.

(** A script run on two machines that agree at the working frame. *)
Lemma run_calls_local cs self m m' :
  agree (df self) m m' ->
  exists os self2 m2 m2',
    run_calls cs (self, m) = (os, (self2, m2)) /\
    run_calls cs (self, m') = (os, (self2, m2')) /\
    df self2 = df self /\ agree (df self) m2 m2'.
Proof.
  revert self m m'. induction cs as [|c cs IH]; intros self m m' H; simpl.
  - by exists [], self, m, m'.
  - destruct (local_run_call c self m m' H) as (o & self1 & m1 & m1' & E & E' & Hdf & H1).
    rewrite E, E'. rewrite <- Hdf in H1.
    destruct (IH self1 m1 m1' H1) as (os & self2 & m2 & m2' & F & F' & Hdf2 & H2).
    rewrite F, F'. exists (o :: os), self2, m2, m2'.
    split; [done|]. split; [done|]. split; [congruence|]. by rewrite <- Hdf.
Qed.

(** The constructor copies: the working frame is a new object with the
    contents of the caller's frame. *)
Lemma init_copy r t stab std m0 self m1 :
  __init__ r t stab std m0 = (Ok self, m1) ->
  exists d, heap m0 !! r = Some d /\ heap m0 !! df self = None /\ df self <> r /\
    heap m1 = <[df self := d]> (heap m0) /\ console m1 = console m0.
Proof.
  intros H. destruct (init_inv _ _ _ _ _ _ _ H) as (d & Hr & Hstd).
  rewrite (init_Ok _ _ _ _ _ _ Hr Hstd) in H. injection H as <- <-. simpl.
  assert (Hfresh : heap m0 !! fresh (dom (heap m0)) = None).
  { apply not_elem_of_dom. apply is_fresh. }
  exists d. repeat split; try done. intros E. rewrite E in Hfresh. congruence.
Qed.

(** C7. The constructor makes one copy of the caller's data frame: the
    machine gains exactly one frame, at a new location, with the
    contents of the caller's.  Whatever the caller's frame is mutated
    into afterwards ([d']), every script of method calls returns the same
    outcomes, leaves the same instance (weights, probabilities, stored
    statistics) and the same working frame and console as without the
    mutation. *)
Theorem working_copy_isolated r t stab std m0 self m1 :
  __init__ r t stab std m0 = (Ok self, m1) ->
  (exists d, heap m0 !! r = Some d /\ heap m0 !! df self = None /\
     heap m1 = <[df self := d]> (heap m0)) /\
  forall (d' : DataFrame) (cs : list call),
    exists os self2 m2 m2',
      run_calls cs (self, m1) = (os, (self2, m2)) /\
      run_calls cs (self, mutate r d' m1) = (os, (self2, m2')) /\
      heap m2' !! df self = heap m2 !! df self /\
      console m2' = console m2.
Proof.
  intros H. destruct (init_copy _ _ _ _ _ _ _ H) as (d & Hr & Hnew & Hne & Hheap & _).
  split; [by exists d|].
  intros d' cs.
  assert (Ha : agree (df self) m1 (mutate r d' m1)).
  { split; [|done]. unfold mutate. simpl. by rewrite lookup_insert_ne. }
  destruct (run_calls_local cs self m1 _ Ha) as (os & self2 & m2 & m2' & E & E' & _ & [Hh Hc]).
  by exists os, self2, m2, m2'.
Qed.

End Local.

(** Witness of [working_copy_isolated]: the caller empties the sample
    frame after construction; the models are registered and fit() is
    called. *)
Lemma working_copy_isolated_witness :
  exists self m1 os self2 m2 m2',
    __init__ Sample.caller "art" true "population" Sample.machine0 = (Ok self, m1) /\
    let script := [call_regression_models "male" "1" false None None; call_fit] in
    run_calls (ext := Sample.collaborators) script (self, m1) = (os, (self2, m2)) /\
    run_calls (ext := Sample.collaborators) script
      (self, mutate Sample.caller {| nrows := 0; cols := ∅ |} m1)
      = (os, (self2, m2')) /\
    heap m2' !! df self = heap m2 !! df self.
Proof.
  assert (Hinit : __init__ Sample.caller "art" true "population" Sample.machine0
                  = (Ok {| denominator_model := None; numerator_model := None;
                           _mdenom := None; Weight := None; ProbabilityNumerator := None;
                           ProbabilityDenominator := None;
                           df := fresh (dom (heap Sample.machine0)); ex := "art";
                           stabilized := true; standardize := "population";
                           _pos_avg := None; _pos_min := None; _pos_max := None;
                           _pos_sd := None |},
                     {| heap := <[fresh (dom (heap Sample.machine0)) := Sample.frame]>
                                  (heap Sample.machine0);
                        console := console Sample.machine0 |})).
  { apply init_Ok; [reflexivity|]. apply (bool_decide_unpack _). exact I. }
  destruct (working_copy_isolated (ext := Sample.collaborators) _ _ _ _ _ _ _ Hinit)
    as [_ Hiso].
  destruct (Hiso {| nrows := 0; cols := ∅ |}
              [call_regression_models "male" "1" false None None; call_fit])
    as (os & self2 & m2 & m2' & E & E' & Hh & _).
  do 6 eexists. split; [exact Hinit|]. split; [exact E|]. split; [exact E'|exact Hh].
Defined.

(** ** Custom models in regression_models *)

Lemma predicted_proba fm pp data :
  fm_predict_proba fm = Some pp ->
  predicted fm data = (P ← pp data; column 1 P).
Proof. intros H. unfold predicted. by rewrite H. Qed.

Lemma predicted_predict fm pr data :
  fm_predict_proba fm = None -> fm_predict fm = Some pr ->
  predicted fm data = pr data.
Proof. intros H1 H2. unfold predicted. by rewrite H1, H2. Qed.

Lemma predicted_neither fm data :
  fm_predict_proba fm = None -> fm_predict fm = None ->
  predicted fm data = throw ValueError msg_custom_predict.
Proof. intros H1 H2. unfold predicted. by rewrite H1, H2. Qed.

Section Custom.
Context {ext : Collaborators}.

Lemma custom_predict_fit_TypeError cm formula print_results self m frame data y e :
  heap m !! df self = Some frame ->
  dmatrix (formula +:+ " - 1") frame = Ok data ->
  cols frame !! ex self = Some y ->
  cm_fit cm data y = Raise e -> exc_class e = TypeError ->
  custom_predict cm formula print_results (self, m) =
    (throw TypeError msg_custom_fit, (self, m)).
Proof.
  intros Hdf Hdm Hy Hfit He. apply df_get_Ok in Hy.
  unfold custom_predict. run. rewrite Hdm. run. rewrite Hy. run.
  unfold try_fit. rewrite Hfit, He. reflexivity.
Qed.

Lemma custom_predict_Ok cm formula print_results self m frame data y fm p :
  heap m !! df self = Some frame ->
  dmatrix (formula +:+ " - 1") frame = Ok data ->
  cols frame !! ex self = Some y ->
  cm_fit cm data y = Ok fm ->
  predicted fm data = Ok p ->
  custom_predict cm formula print_results (self, m) =
    (Ok (fm, p),
     (self, {| heap := heap m;
               console := console m ++
                 (if print_results then
                    match fm_summarize fm with
                    | Some text => [Print [PStr text]]
                    | None => []
                    end
                  else []) |})).
Proof.
  intros Hdf Hdm Hy Hfit Hp. apply df_get_Ok in Hy.
  unfold custom_predict. run. rewrite Hdm. run. rewrite Hy. run.
  unfold try_fit. rewrite Hfit. cbn [fst snd].
  destruct print_results, (fm_summarize fm); run; rewrite Hp; run;
    rewrite ?app_nil_r; try reflexivity; by destruct m.
Qed.

Lemma custom_predict_Raise cm formula print_results self m frame data y fm e :
  heap m !! df self = Some frame ->
  dmatrix (formula +:+ " - 1") frame = Ok data ->
  cols frame !! ex self = Some y ->
  cm_fit cm data y = Ok fm ->
  predicted fm data = Raise e ->
  exists m', custom_predict cm formula print_results (self, m) = (Raise e, (self, m')).
Proof.
  intros Hdf Hdm Hy Hfit Hp. apply df_get_Ok in Hy.
  unfold custom_predict. run. rewrite Hdm. run. rewrite Hy. run.
  unfold try_fit. rewrite Hfit. cbn [fst snd].
  destruct print_results, (fm_summarize fm); run; rewrite Hp; run; eauto.
Qed.

(** With a fitted custom denominator model whose predictions [p] have
    one value per row: whatever the numerator part does afterwards, [p]
    is the ['__denom__'] column and the fitted model is the denominator
    model. *)
Lemma regression_models_custom_denominator md mn print_results cm cn self m frame data y
    fm (p : col) :
  heap m !! df self = Some frame ->
  dmatrix (md +:+ " - 1") frame = Ok data ->
  cols frame !! ex self = Some y ->
  cm_fit cm data y = Ok fm ->
  predicted fm data = Ok p ->
  length p = nrows frame ->
  exists o self' m' frame',
    regression_models md mn print_results (Some cm) cn (self, m) = (o, (self', m')) /\
    heap m' !! df self' = Some frame' /\
    cols frame' !! "__denom__" = Some p /\
    denominator_model self' = Some (Custom fm).
Proof.
  intros Hdf Hdm Hy Hfit Hp Hlen.
  unfold regression_models. run.
  erewrite custom_predict_Ok; [| eassumption ..].
  run. rewrite (df_assign_array _ _ _ Hlen). run. unfold custom_predict.
  run_cases.
  all: repeat match goal with
         | H : df_assign _ _ _ = Ok _ |- _ => apply df_assign_inv in H; subst
         end.
  all: do 4 eexists; (split; [reflexivity|]); cbn [heap console df denominator_model fst snd].
  all: split; [apply lookup_insert_eq|]; split; [|reflexivity].
  all: unfold df_set_scalar, df_set; cbn [cols];
    rewrite ?(lookup_insert_ne _ "__numer__" "__denom__") by done;
    apply lookup_insert_eq.
Qed.

(** With predictions that do not have one value per row, the
    assignment of the column raises: the fitted model is registered,
    the frame is as it was. *)
Lemma regression_models_custom_denominator_length md mn print_results cm cn self m frame
    data y fm (p : col) :
  heap m !! df self = Some frame ->
  dmatrix (md +:+ " - 1") frame = Ok data ->
  cols frame !! ex self = Some y ->
  cm_fit cm data y = Ok fm ->
  predicted fm data = Ok p ->
  length p <> nrows frame ->
  exists m',
    regression_models md mn print_results (Some cm) cn (self, m)
    = (throw ValueError msg_length,
       (set_denominator_model (Some (Custom fm)) (set_mdenom (Some md) self), m')) /\
    heap m' = heap m.
Proof.
  intros Hdf Hdm Hy Hfit Hp Hlen.
  unfold regression_models. run.
  erewrite custom_predict_Ok; [| eassumption ..].
  run. rewrite (df_assign_array_length _ _ _ Hlen). by eexists.
Qed.

(** C4. With a custom denominator model, the design matrix is that of
    the formula followed by ' - 1' (no intercept) on the working frame,
    and the model's fit receives it as X with the exposure column as y:
    - if that call raises TypeError, regression_models raises TypeError
      with its own message;
    - if the fitted object has predict_proba, column 1 of its output is
      what is assigned to ['__denom__'], whether or not the object also
      has predict: the fitted object is registered as denominator
      model, the column is stored when it has one value per row, and
      pandas' ValueError for an array of another length is raised
      otherwise, the frame left as it was;
    - if it has predict only, the output of predict is assigned in the
      same way;
    - if it has neither, regression_models raises ValueError. *)
Theorem custom_denominator_model md mn print_results cm cn self m frame data y :
  heap m !! df self = Some frame ->
  dmatrix (md +:+ " - 1") frame = Ok data ->
  cols frame !! ex self = Some y ->
  let result := regression_models md mn print_results (Some cm) cn (self, m) in
  (forall e, cm_fit cm data y = Raise e -> exc_class e = TypeError ->
     result.1 = throw TypeError msg_custom_fit) /\
  (forall fm predict_proba P (p : col),
     cm_fit cm data y = Ok fm -> fm_predict_proba fm = Some predict_proba ->
     predict_proba data = Ok P -> column 1 P = Ok p ->
     denominator_model result.2.1 = Some (Custom fm) /\
     (length p = nrows frame ->
        exists frame', heap result.2.2 !! df result.2.1 = Some frame' /\
          cols frame' !! "__denom__" = Some p) /\
     (length p <> nrows frame ->
        result.1 = throw ValueError msg_length /\
        heap result.2.2 !! df result.2.1 = Some frame)) /\
  (forall fm predict (p : col),
     cm_fit cm data y = Ok fm -> fm_predict_proba fm = None ->
     fm_predict fm = Some predict -> predict data = Ok p ->
     denominator_model result.2.1 = Some (Custom fm) /\
     (length p = nrows frame ->
        exists frame', heap result.2.2 !! df result.2.1 = Some frame' /\
          cols frame' !! "__denom__" = Some p) /\
     (length p <> nrows frame ->
        result.1 = throw ValueError msg_length /\
        heap result.2.2 !! df result.2.1 = Some frame)) /\
  (forall fm,
     cm_fit cm data y = Ok fm -> fm_predict_proba fm = None -> fm_predict fm = None ->
     result.1 = throw ValueError msg_custom_predict).
Proof.
  intros Hdf Hdm Hy result. subst result.
  assert (Hstored : forall fm (p : col),
            cm_fit cm data y = Ok fm -> predicted fm data = Ok p ->
            let result := regression_models md mn print_results (Some cm) cn (self, m) in
            denominator_model result.2.1 = Some (Custom fm) /\
            (length p = nrows frame ->
               exists frame', heap result.2.2 !! df result.2.1 = Some frame' /\
                 cols frame' !! "__denom__" = Some p) /\
            (length p <> nrows frame ->
               result.1 = throw ValueError msg_length /\
               heap result.2.2 !! df result.2.1 = Some frame)).
  { intros fm p Hfit Hpred result. subst result.
    destruct (decide (length p = nrows frame)) as [Hlen|Hlen].
    - destruct (regression_models_custom_denominator md mn print_results cm cn self m
                  frame data y fm p) as (o & self' & m' & frame' & -> & H1 & H2 & H3);
        try done.
      split; [done|]. split; [|done]. intros _. by exists frame'.
    - destruct (regression_models_custom_denominator_length md mn print_results cm cn
                  self m frame data y fm p) as (m' & -> & Hheap); try done.
      split; [done|]. split; [done|]. intros _. split; [done|].
      cbn [fst snd df set_denominator_model set_mdenom]. by rewrite Hheap. }
  split; [|split; [|split]].
  - intros e Hfit He. unfold regression_models. run.
    erewrite custom_predict_fit_TypeError by eassumption. reflexivity.
  - intros fm pp P p Hfit Hpp HP Hp. apply Hstored; [done|].
    rewrite (predicted_proba _ _ _ Hpp), HP. exact Hp.
  - intros fm pr p Hfit Hpp Hpr Hp. apply Hstored; [done|].
    by rewrite (predicted_predict _ _ _ Hpp Hpr).
  - intros fm Hfit Hpp Hpr.
    destruct (custom_predict_Raise cm md print_results (set_mdenom (Some md) self) m
                frame data y fm _ Hdf Hdm Hy Hfit (predicted_neither _ _ Hpp Hpr))
      as (m' & Hrun).
    unfold regression_models. run. rewrite Hrun. reflexivity.
Qed.

End Custom.

(** Witness of [custom_denominator_model]: a classifier with both
    predict_proba and predict on the sample frame; the second column of
    predict_proba, one value for each of the eight rows, is stored. *)
Lemma custom_denominator_model_witness :
  let result :=
    regression_models (ext := Sample.collaborators) "male" "1" false
      (Some Sample.classifier) None (Sample.new true "population", Sample.machine1) in
  exists frame', heap result.2.2 !! df result.2.1 = Some frame' /\
    cols frame' !! "__denom__" = Some Sample.pr_art_given_male.
Proof.
  intros result.
  destruct (custom_denominator_model (ext := Sample.collaborators)
              "male" "1" false Sample.classifier None
              (Sample.new true "population") Sample.machine1 Sample.frame
              {| dm_terms := [("male", [Sample.male])] |} Sample.art)
    as (_ & H & _).
  - reflexivity.
  - reflexivity.
  - reflexivity.
  - destruct (H Sample.classifier_fitted (fun _ => Ok Sample.proba) Sample.proba
                Sample.pr_art_given_male) as (_ & H1 & _); try reflexivity.
    destruct H1 as (frame' & H1 & H2); [reflexivity|].
    exists frame'. split; [exact H1|exact H2].
Defined.

(** ** fit and the column the balance diagnostics read *)

Lemma weight_calculator_frame self frame den num w frame' :
  _weight_calculator self frame den num = Ok (w, frame') ->
  frame' = df_set frame "w" w.
Proof.
  unfold _weight_calculator.
  destruct (branch_weights self frame den num) as [w0|]; [|done]. simpl.
  destruct (df_get (df_set frame "w" w0) (ex self)) as [a|]; [|done]. simpl.
  rewrite df_get_set_eq. simpl. rewrite df_get_set_eq. simpl.
  intros [= <- <-]. unfold df_set. simpl. by rewrite insert_insert_eq.
Qed.

(** What [fit] leaves behind: the weights in [self.Weight], and
    numerator over denominator in the ['iptw'] column. *)
Lemma fit_run self m frame dm (D N : col) w frame' :
  heap m !! df self = Some frame ->
  denominator_model self = Some dm ->
  cols frame !! "__denom__" = Some D -> cols frame !! "__numer__" = Some N ->
  _weight_calculator self frame "__denom__" "__numer__" = Ok (w, frame') ->
  exists m',
    fit (self, m) =
      (Ok tt,
       (set_ProbabilityNumerator (Some N)
          (set_ProbabilityDenominator (Some D) (set_Weight (Some w) self)), m')) /\
    heap m' !! df self = Some (df_set frame' "iptw" (col_div N D)) /\
    console m' = console m.
Proof.
  intros Hdf Hdm HD HN Hw.
  pose proof (weight_calculator_frame _ _ _ _ _ _ Hw) as ->.
  assert (HD' : df_get (df_set frame "w" w) "__denom__" = Ok D)
    by (rewrite df_get_set_ne by done; by apply df_get_Ok).
  assert (HN' : df_get (df_set frame "w" w) "__numer__" = Ok N)
    by (rewrite df_get_set_ne by done; by apply df_get_Ok).
  unfold fit. run. rewrite Hdm. run. rewrite Hw. run.
  rewrite HD'. run. rewrite HN'. run. rewrite HN'. run. rewrite HD'. run.
  eexists. split; [reflexivity|]. simpl. split; [|done]. apply lookup_insert_eq.
Qed.

Section Balance.
Context {ext : Collaborators}.

(** [standardized_mean_differences] for a formula with one term of one
    column: the weights are the ['iptw'] column of the working frame. *)
Lemma smd_run_single self m frame formula label (x a w : col) :
  heap m !! df self = Some frame ->
  _mdenom self = Some formula ->
  dmatrix (formula +:+ " - 1") frame = Ok {| dm_terms := [(label, [x])] |} ->
  cols frame !! ex self = Some a ->
  cols frame !! "iptw" = Some w ->
  standardized_mean_differences (self, m) =
    ((let dat := {| vcols := [x]; v_ex := a; v_iptw := w |} in
      wsmd ← _standardized_difference self dat (detect_type [x]) true;
      usmd ← _standardized_difference self dat (detect_type [x]) false;
      Ok [(label, wsmd, usmd)]), (self, m)).
Proof.
  intros Hdf Hmd Hdm Ha Hw. apply df_get_Ok in Ha, Hw.
  unfold standardized_mean_differences. run. rewrite Hmd. run. rewrite Hdm. run.
  cbn [dm_terms mapM]. run. rewrite Ha. run. rewrite Hw. run.
  cbn [fst snd].
  destruct (_standardized_difference self _ _ true); run; [|done].
  destruct (_standardized_difference self _ _ false); run; done.
Qed.

End Balance.

(** *** The sample, step by step *)

Ltac reals :=
  repeat first
    [ rewrite Reqb_refl
    | rewrite Reqb_neq by lra ].

Lemma cell_sqrt_nonneg x : 0 <= x -> cell_sqrt (Some x) = Some (sqrt x).
Proof. intros H. unfold cell_sqrt. destruct (Rlt_dec x 0); [lra|done]. Qed.

Module SampleRun.
Import Sample.

Ltac crun :=
  repeat first
    [ run_step
    | progress cbn [new stabilized ex df standardize propensity_score collaborators
                    String.append lm_predict logit_fit machine1 heap console]
    | rewrite bool_decide_eq_true_2 by reflexivity
    | rewrite bool_decide_eq_false_2 by done ].

Lemma models_run :
  exists m,
    regression_models "male" "1" false None None (new true "population", machine1)
    = (Ok tt, (self1, m)) /\
    heap m !! working = Some frame1 /\ console m = [].
Proof.
  unfold regression_models. crun.
  eexists. split; [reflexivity|]. split; [|reflexivity].
  cbn [heap]. rewrite lookup_insert_eq. reflexivity.
Qed.

Lemma weights_eval :
  np_where (col_isna art) (Scalar nan)
    (Series
       (np_where (col_eq art 1)
          (Series (col_div pr_art pr_art_given_male))
          (Series (col_div (rsub 1 pr_art) (rsub 1 pr_art_given_male))))) = weights.
Proof.
  unfold art, pr_art, pr_art_given_male, weights.
  cbn. reals. reflexivity.
Qed.

Lemma weights_run :
  _weight_calculator self1 frame1 "__denom__" "__numer__"
  = Ok (weights, df_set frame1 "w" weights).
Proof.
  unfold _weight_calculator, branch_weights.
  cbn [stabilized standardize self1 set_numerator_model set_denominator_model
       set_mdenom new].
  rewrite bool_decide_eq_true_2 by reflexivity.
  replace (df_get frame1 (ex self1)) with (Ok art : outcome col) by reflexivity.
  replace (df_get frame1 "__numer__") with (Ok pr_art : outcome col) by reflexivity.
  replace (df_get frame1 "__denom__") with (Ok pr_art_given_male : outcome col)
    by reflexivity.
  cbn [mbind outcome_bind mret outcome_ret].
  rewrite (df_get_set_ne _ "w" (ex self1)) by done.
  replace (df_get frame1 (ex self1)) with (Ok art : outcome col) by reflexivity.
  cbn [mbind outcome_bind mret outcome_ret].
  rewrite !df_get_set_eq.
  cbn [mbind outcome_bind mret outcome_ret].
  rewrite !df_get_set_eq.
  cbn [mbind outcome_bind mret outcome_ret].
  rewrite weights_eval. unfold df_set. cbn [cols nrows]. by rewrite insert_insert_eq.
Qed.

Lemma fit_sample m :
  heap m !! working = Some frame1 ->
  exists m', fit (self1, m) = (Ok tt, (self2, m')) /\
    heap m' !! working = Some frame2 /\ console m' = console m.
Proof.
  intros Hm.
  destruct (fit_run self1 m frame1 (Logit (logit_fit "art ~ male"))
              pr_art_given_male pr_art weights (df_set frame1 "w" weights))
    as (m' & Hfit & Hheap & Hcons); try done.
  - apply weights_run.
  - exists m'. done.
Qed.

Lemma masks_eval :
  mask_and (col_eq art 1) (col_notnull iptw)
    = [true; false; false; false; true; true; true; false] /\
  mask_and (col_eq art 0) (col_notnull iptw)
    = [false; true; true; true; false; false; false; true] /\
  mask_and (col_eq art 1) (col_notnull weights)
    = [true; false; false; false; true; true; true; false] /\
  mask_and (col_eq art 0) (col_notnull weights)
    = [false; true; true; true; false; false; false; true].
Proof. unfold art, iptw, weights. cbn. reals. done. Qed.

Lemma male_binary : detect_type [male] = binary.
Proof. unfold detect_type, is_binary, male. cbn. reals. reflexivity. Qed.

(** With numerator over denominator as weights the untreated mean of
    [male] is 9/10. *)
Lemma smd_iptw self :
  _standardized_difference self (dat iptw) binary true = Ok (Some (smd (1/2) (9/10))).
Proof.
  destruct masks_eval as (Ht & Hn & _ & _).
  unfold _standardized_difference, dft, dfn, loc_frame. cbn [dat vcols v_ex v_iptw].
  rewrite Ht, Hn. unfold male, iptw. cbn [fmap list_fmap loc_rows].
  assert (E1 : descr_mean [Some 1; Some 0; Some 0; Some 0]
                 [Some (1 / 2 / (1 / 4)); Some (1 / 2 / (3 / 4)); Some (1 / 2 / (3 / 4));
                  Some (1 / 2 / (3 / 4))] = Some (1/2)).
  { unfold descr_mean, dot, col_sum, col_mul. cbn. f_equal. field. }
  assert (E2 : descr_mean [Some 1; Some 1; Some 1; Some 0]
                 [Some (1 / 2 / (1 / 4)); Some (1 / 2 / (1 / 4)); Some (1 / 2 / (1 / 4));
                  Some (1 / 2 / (3 / 4))] = Some (9/10)).
  { unfold descr_mean, dot, col_sum, col_mul. cbn. f_equal. field. }
  rewrite E1, E2. cbn [cell_add cell_sub cell_mul cell_div cell_lift2].
  rewrite cell_sqrt_nonneg by lra. reflexivity.
Qed.

(** With the weights of the table both means are 1/2. *)
Lemma smd_weights self :
  _standardized_difference self (dat weights) binary true = Ok (Some (smd (1/2) (1/2))).
Proof.
  destruct masks_eval as (_ & _ & Ht & Hn).
  unfold _standardized_difference, dft, dfn, loc_frame. cbn [dat vcols v_ex v_iptw].
  rewrite Ht, Hn. unfold male, weights. cbn [fmap list_fmap loc_rows].
  assert (E1 : descr_mean [Some 1; Some 0; Some 0; Some 0]
                 [Some (1 / 2 / (1 / 4)); Some (1 / 2 / (3 / 4)); Some (1 / 2 / (3 / 4));
                  Some (1 / 2 / (3 / 4))] = Some (1/2)).
  { unfold descr_mean, dot, col_sum, col_mul. cbn. f_equal. field. }
  assert (E2 : descr_mean [Some 1; Some 1; Some 1; Some 0]
                 [Some ((1 - 1 / 2) / (1 - 1 / 4)); Some ((1 - 1 / 2) / (1 - 1 / 4));
                  Some ((1 - 1 / 2) / (1 - 1 / 4)); Some ((1 - 1 / 2) / (1 - 3 / 4))]
               = Some (1/2)).
  { unfold descr_mean, dot, col_sum, col_mul. cbn. f_equal. field. }
  rewrite E1, E2. cbn [cell_add cell_sub cell_mul cell_div cell_lift2].
  rewrite cell_sqrt_nonneg by lra. reflexivity.
Qed.

Lemma smd_unweighted self w :
  exists u, _standardized_difference self (dat w) binary false = Ok u.
Proof.
  unfold _standardized_difference, dft, dfn, loc_frame. cbn [dat vcols fmap list_fmap].
  by eexists.
Qed.

Lemma smd_balanced : smd (1/2) (1/2) = 0.
Proof. unfold smd. replace (1/2 - 1/2) with 0 by lra. unfold Rdiv. apply Rmult_0_l. Qed.

Lemma smd_unbalanced : smd (1/2) (9/10) < 0.
Proof.
  unfold smd.
  assert (Hs : 0 < sqrt ((1/2 * (1 - 1/2) + 9/10 * (1 - 9/10)) / 2))
    by (apply sqrt_lt_R0; lra).
  apply Rmult_neg_pos; [lra|]. by apply Rinv_0_lt_compat.
Qed.

Lemma iptw_not_weights : iptw !! 1%nat <> weights !! 1%nat.
Proof.
  unfold iptw, weights. simpl. intros H.
  assert (E : 1 / 2 / (1 / 4) = (1 - 1 / 2) / (1 - 1 / 4)) by congruence.
  lra.
Qed.

(** fit, then the balance table. *)
Lemma balance_after_fit :
  exists u s,
    (regression_models "male" "1" false None None;; fit;;
     standardized_mean_differences) (new true "population", machine1)
    = (Ok [("male", Some (smd (1/2) (9/10)), u)], s).
Proof.
  destruct models_run as (m1 & Hmodels & Hheap1 & _).
  destruct (fit_sample m1 Hheap1) as (m2 & Hfit & Hheap2 & _).
  destruct (smd_unweighted self2 iptw) as (u & Hu).
  rewrite run_bind, Hmodels. cbn [fst snd]. rewrite run_bind, Hfit. cbn [fst snd].
  rewrite (smd_run_single self2 m2 frame2 "male" "male" male art iptw);
    try done.
  rewrite male_binary. cbn zeta. rewrite smd_iptw. fold (dat iptw). rewrite Hu.
  by do 2 eexists.
Qed.

(** fit, positivity, then the balance table. *)
Lemma balance_after_positivity :
  exists u s,
    (regression_models "male" "1" false None None;; fit;; positivity 3;;
     standardized_mean_differences) (new true "population", machine1)
    = (Ok [("male", Some 0, u)], s).
Proof.
  destruct models_run as (m1 & Hmodels & Hheap1 & _).
  destruct (fit_sample m1 Hheap1) as (m2 & Hfit & Hheap2 & _).
  destruct (positivity_run 3 self2 m2 frame2 Hheap2) as (m3 & Hpos & Hheap3 & _).
  rewrite run_bind, Hmodels. cbn [fst snd]. rewrite run_bind, Hfit. cbn [fst snd].
  rewrite run_bind, Hpos. cbn [fst snd].
  erewrite (smd_run_single _ m3 _ "male" "male" male art weights);
    try done.
  rewrite male_binary. cbn zeta. rewrite smd_weights. fold (dat weights).
  rewrite smd_balanced.
  match goal with
  | |- context [_standardized_difference ?s (dat weights) binary false] =>
      destruct (smd_unweighted s weights) as (u & Hu)
  end.
  rewrite Hu. by do 2 eexists.
Qed.

End SampleRun.

(** C3 (the code departs from the claim).  On the sample data set, with
    stabilized weights standardized to the population: fit() returns
    the weights of the table in Weight but stores numerator over
    denominator in the ['iptw'] column, which differs from the weight
    for every untreated subject (row 1: 2 against 2/3); the balance
    table computed right after fit() reads that column and reports a
    weighted standardized difference of [male] below zero, with an
    untreated mean of 9/10; computed after positivity(), which stores
    Weight in ['iptw'], it reports zero, the value the weights of the
    table give. *)
Theorem balance_after_fit_ignores_weights :
  let start := (Sample.new true "population", Sample.machine1) in
  let models := regression_models (ext := Sample.collaborators) "male" "1" false None None in
  let balance := standardized_mean_differences (ext := Sample.collaborators) in
  (exists m frame,
     (models;; fit) start = (Ok tt, (Sample.self2, m)) /\
     Weight Sample.self2 = Some Sample.weights /\
     heap m !! df Sample.self2 = Some frame /\
     cols frame !! "iptw" = Some Sample.iptw /\
     Sample.iptw !! 1%nat = Some (Some (1/2 / (1/4))) /\
     Sample.weights !! 1%nat = Some (Some ((1 - 1/2) / (1 - 1/4))) /\
     Sample.iptw !! 1%nat <> Sample.weights !! 1%nat) /\
  (exists u s,
     (models;; fit;; balance) start
     = (Ok [("male", Some (Sample.smd (1/2) (9/10)), u)], s)) /\
  Sample.smd (1/2) (9/10) < 0 /\
  (exists u s,
     (models;; fit;; positivity 3;; balance) start = (Ok [("male", Some 0, u)], s)).
Proof.
  intros start models balance. subst start models balance. repeat split.
  - destruct SampleRun.models_run as (m1 & Hmodels & Hheap1 & _).
    destruct (SampleRun.fit_sample m1 Hheap1) as (m2 & Hfit & Hheap2 & _).
    exists m2, Sample.frame2.
    rewrite run_bind, Hmodels. cbn [fst snd]. rewrite Hfit.
    repeat split; try done. apply SampleRun.iptw_not_weights.
  - apply SampleRun.balance_after_fit.
  - apply SampleRun.smd_unbalanced.
  - apply SampleRun.balance_after_positivity.
Qed.

(** ** The categorical covariance matrix *)

Lemma index_Some (P : list R) (i : nat) :
  (i < length P)%nat -> index (Some <$> P) i = Ok (Some (nth i P 0)).
Proof.
  intros Hi. unfold index. rewrite list_lookup_fmap.
  destruct (P !! i) as [x|] eqn:E.
  - simpl. by rewrite (nth_lookup_Some _ _ _ _ E).
  - apply lookup_ge_None in E. lia.
Qed.

(** The inner loop from column [j >= 1] on. *)
Lemma cov_row_spec (P1 P2 : list R) (i : nat) (ws : list R) (j : nat) :
  (1 <= j)%nat -> (i < length P1)%nat -> (i < length P2)%nat ->
  (j + length ws <= length P1)%nat ->
  drop j P2 = ws ->
  cov_row (Some <$> P1) (Some <$> P2) i (Some (nth i P1 0)) j (Some <$> ws)
  = Ok ((fun j => Some (cov_entry P1 P2 i j)) <$> seq j (length ws)).
Proof.
  revert j. induction ws as [|w ws IH]; intros j Hj Hi1 Hi2 Hlen Hdrop; [done|].
  simpl in Hlen. cbn [fmap list_fmap cov_row].
  rewrite bool_decide_eq_false_2 by lia.
  assert (Hw : P2 !! j = Some w).
  { rewrite <- (Nat.add_0_r j), <- lookup_drop, Hdrop. done. }
  assert (Hjlen : (j < length P2)%nat) by (eapply lookup_lt_Some; eauto).
  assert (Hd : drop (S j) P2 = ws).
  { rewrite (drop_S _ _ _ Hw) in Hdrop. congruence. }
  rewrite (IH (S j)) by (done || lia). clear IH.
  rewrite !index_Some by lia.
  assert (Hnth : nth j P2 0 = w) by apply (nth_lookup_Some _ _ 0 _ Hw).
  cbn [length seq fmap list_fmap].
  unfold cov_entry at 2.
  case_bool_decide as Hij; cbn [mbind outcome_bind mret outcome_ret];
    do 3 f_equal; cbn [cell_add cell_sub cell_mul cell_div cell_lift2]; f_equal.
  - subst i. by rewrite Hnth.
  - lra.
Qed.

(** The inner loop: column 0 is skipped. *)
Lemma cov_row_full (P1 P2 : list R) (i : nat) :
  (i < length P1)%nat -> (i < length P2)%nat -> length P2 = length P1 ->
  cov_row (Some <$> P1) (Some <$> P2) i (Some (nth i P1 0)) 0 (Some <$> P2)
  = Ok ((fun j => Some (cov_entry P1 P2 i j)) <$> seq 1 (length P2 - 1)).
Proof.
  intros Hi1 Hi2 Hlen. destruct P2 as [|w ws]; [simpl in Hi2; lia|].
  cbn [fmap list_fmap cov_row]. rewrite bool_decide_eq_true_2 by done.
  change (Some w :: (Some <$> ws)) with (Some <$> (w :: ws)).
  rewrite (cov_row_spec P1 (w :: ws) i ws 1); try done; try lia.
  - simpl. by rewrite Nat.sub_0_r.
  - simpl in *. lia.
Qed.

(** The outer loop from row [i >= 1] on. *)
Lemma cov_rows_spec (P1 P2 : list R) (vs : list R) (i : nat) :
  (1 <= i)%nat -> length P2 = length P1 ->
  (i + length vs <= length P1)%nat ->
  drop i P1 = vs ->
  cov_rows (Some <$> P1) (Some <$> P2) i (Some <$> vs)
  = Ok ((fun i => (fun j => Some (cov_entry P1 P2 i j)) <$> seq 1 (length P2 - 1))
          <$> seq i (length vs)).
Proof.
  revert i. induction vs as [|v vs IH]; intros i Hi Hlen Hl Hdrop; [done|].
  simpl in Hl. cbn [fmap list_fmap cov_rows].
  rewrite bool_decide_eq_false_2 by lia.
  assert (Hv : P1 !! i = Some v).
  { rewrite <- (Nat.add_0_r i), <- lookup_drop, Hdrop. done. }
  assert (Hd : drop (S i) P1 = vs).
  { rewrite (drop_S _ _ _ Hv) in Hdrop. congruence. }
  rewrite <- (nth_lookup_Some _ _ 0 _ Hv).
  rewrite cov_row_full by lia.
  rewrite (IH (S i)) by (done || lia).
  reflexivity.
Qed.

(** The loops compute the matrix as stated. *)
Lemma categorical_cov_matrix (P1 P2 : list R) :
  length P2 = length P1 ->
  _categorical_cov (Some <$> P1) (Some <$> P2) = Ok (cov_matrix P1 P2).
Proof.
  intros Hlen. unfold _categorical_cov, cov_matrix.
  destruct P1 as [|v vs]; [done|].
  cbn [fmap list_fmap cov_rows]. rewrite bool_decide_eq_true_2 by done.
  change (Some v :: (Some <$> vs)) with (Some <$> (v :: vs)).
  rewrite (cov_rows_spec (v :: vs) P2 vs 1); try done; try (simpl; lia).
  simpl. by rewrite Nat.sub_0_r.
Qed.

Lemma cov_matrix_lookup (P1 P2 : list R) (k i j : nat) :
  length P1 = k -> length P2 = k -> (1 <= i < k)%nat -> (1 <= j < k)%nat ->
  exists row, cov_matrix P1 P2 !! (i - 1)%nat = Some row /\
    length row = (k - 1)%nat /\
    row !! (j - 1)%nat = Some (Some (cov_entry P1 P2 i j)).
Proof.
  intros H1 H2 Hi Hj. unfold cov_matrix.
  destruct i as [|i]; [lia|]. destruct j as [|j]; [lia|].
  cbn [Nat.sub]. rewrite !Nat.sub_0_r.
  eexists. split.
  - rewrite list_lookup_fmap, lookup_seq_lt by lia. reflexivity.
  - split.
    + rewrite length_fmap, length_seq. lia.
    + rewrite list_lookup_fmap, lookup_seq_lt by lia. reflexivity.
Qed.

Section Categorical.
Context {ext : Collaborators}.

(** The categorical branch of [_standardized_difference], given the
    group means. *)
Lemma categorical_smd self variable (weighted : bool) (P1 P2 : list R) S_inv :
  (if weighted
   then mapM (fun x => average_weighted x (v_iptw (dft variable))) (vcols (dft variable))
   else Ok (average <$> vcols (dft variable))) = Ok (Some <$> P1) ->
  (if weighted
   then mapM (fun x => average_weighted x (v_iptw (dfn variable))) (vcols (dfn variable))
   else Ok (mean_skipna <$> vcols (dfn variable))) = Ok (Some <$> P2) ->
  length P2 = length P1 ->
  linalg_inv (cov_matrix P1 P2) = Ok S_inv ->
  _standardized_difference self variable categorical weighted
  = Ok (cell_sqrt (quadratic_form S_inv
                     (drop 1 (zip_with cell_sub (Some <$> P1) (Some <$> P2))))).
Proof.
  intros Ht Hn Hlen Hinv. unfold _standardized_difference.
  cbv zeta. rewrite Ht, Hn. cbn [mbind outcome_bind].
  rewrite (categorical_cov_matrix P1 P2 Hlen). cbn [mbind outcome_bind].
  rewrite Hinv. reflexivity.
Qed.

(** C10. For proportion vectors P1 (treated) and P2 (untreated) of
    equal length k >= 2, _categorical_cov returns a matrix S with k-1
    rows of k-1 entries, for the categories 1 .. k-1 (the reference
    category 0 is left out): the entry for categories i and j is
    (P1[i](1-P1[i]) + P2[i](1-P2[i]))/2 when i = j and
    -(P1[i]P1[j] + P2[i]P2[j])/2 otherwise.  When P1 and P2 are the
    group means of a categorical term and np.linalg.inv returns S_inv
    for S, the standardized difference is the square root of the
    quadratic form of S_inv at the mean differences of the categories
    1 .. k-1. *)
Theorem categorical_cov_spec (P1 P2 : list R) (k : nat) :
  length P1 = k -> length P2 = k -> (2 <= k)%nat ->
  exists S, _categorical_cov (Some <$> P1) (Some <$> P2) = Ok S /\
    length S = (k - 1)%nat /\
    (forall i j, (1 <= i < k)%nat -> (1 <= j < k)%nat ->
       exists row, S !! (i - 1)%nat = Some row /\ length row = (k - 1)%nat /\
         row !! (j - 1)%nat =
           Some (Some (if bool_decide (i = j)
                       then (nth i P1 0 * (1 - nth i P1 0)
                             + nth i P2 0 * (1 - nth i P2 0)) / 2
                       else - (nth i P1 0 * nth j P1 0 + nth i P2 0 * nth j P2 0) / 2))) /\
    (forall self variable (weighted : bool) S_inv,
       (if weighted
        then mapM (fun x => average_weighted x (v_iptw (dft variable)))
               (vcols (dft variable))
        else Ok (average <$> vcols (dft variable))) = Ok (Some <$> P1) ->
       (if weighted
        then mapM (fun x => average_weighted x (v_iptw (dfn variable)))
               (vcols (dfn variable))
        else Ok (mean_skipna <$> vcols (dfn variable))) = Ok (Some <$> P2) ->
       linalg_inv S = Ok S_inv ->
       _standardized_difference self variable categorical weighted
       = Ok (cell_sqrt (quadratic_form S_inv
                          (drop 1 (zip_with cell_sub (Some <$> P1) (Some <$> P2)))))).
Proof.
  intros H1 H2 Hk. exists (cov_matrix P1 P2).
  split; [apply categorical_cov_matrix; congruence|].
  split; [unfold cov_matrix; rewrite length_fmap, length_seq; lia|].
  split.
  - intros i j Hi Hj. exact (cov_matrix_lookup P1 P2 k i j H1 H2 Hi Hj).
  - intros self variable weighted S_inv Ht Hn Hinv.
    apply categorical_smd; (done || congruence).
Qed.

End Categorical.

(** Witness of [categorical_cov_spec]: three categories; the entry for
    categories 1 and 2 and the entry for category 2 with itself. *)
Lemma categorical_cov_spec_witness :
  exists S row0 row1,
    _categorical_cov (Some <$> Sample.P1) (Some <$> Sample.P2) = Ok S /\
    length S = 2%nat /\
    S !! 0%nat = Some row0 /\ row0 !! 1%nat = Some (Some (- (1/4 * (1/4) + 1/4 * (1/2)) / 2)) /\
    S !! 1%nat = Some row1 /\
    row1 !! 1%nat = Some (Some ((1/4 * (1 - 1/4) + 1/2 * (1 - 1/2)) / 2)).
Proof.
  destruct (categorical_cov_spec (ext := Sample.collaborators) Sample.P1 Sample.P2 3)
    as (S & HS & Hlen & Hentry & _).
  - reflexivity.
  - reflexivity.
  - lia.
  - destruct (Hentry 1%nat 2%nat) as (row0 & Hrow0 & _ & H12); [lia | lia |].
    destruct (Hentry 2%nat 2%nat) as (row1 & Hrow1 & _ & H22); [lia | lia |].
    exists S, row0, row1.
    split; [exact HS|]. split; [exact Hlen|]. split; [exact Hrow0|].
    split; [exact H12|]. split; [exact Hrow1|exact H22].
Defined.

(** ** The doubly robust estimators *)

Section DoublyRobustFacts.
Import DoublyRobust.
Context {num : Numerics}.






End DoublyRobustFacts.

(** *** Two concrete estimators *)









(** * Further properties of the class IPTW *)

(** ** More on the weight calculator *)

Lemma table_weight_pos stab t treated d n :
  0 < d < 1 -> (stab = true -> 0 < n < 1) -> 0 < table_weight stab t treated d n.
Proof.
  intros Hd Hn.
  assert (H1 : 0 < 1 - d) by lra.
  destruct stab.
  - specialize (Hn eq_refl). assert (H2 : 0 < 1 - n) by lra.
    destruct t, treated; simpl; try lra;
      repeat first [ apply Rdiv_lt_0_compat | apply Rmult_lt_0_compat ]; lra.
  - destruct t, treated; simpl; try lra;
      repeat first [ apply Rdiv_lt_0_compat | apply Rmult_lt_0_compat ]; lra.
Qed.

(** X1. For a row whose exposure is recorded, with denominator
    probability d in (0,1) and - for stabilized weights - numerator
    probability n in (0,1), the weight _weight_calculator returns is
    never negative in any of the six branches, and an unstabilized
    weight standardized to the population is never below 1.  The
    treatment column must not be labelled 'w'. *)
Theorem weights_nonnegative self frame den num (A D N : col) t (i : nat) a d n :
  ex self <> "w" ->
  standardize self = target_name t ->
  cols frame !! ex self = Some A -> cols frame !! den = Some D ->
  cols frame !! num = Some N ->
  A !! i = Some (Some a) -> D !! i = Some (Some d) -> N !! i = Some (Some n) ->
  0 < d < 1 -> (stabilized self = true -> 0 < n < 1) ->
  exists w frame' x, _weight_calculator self frame den num = Ok (w, frame') /\
    w !! i = Some (Some x) /\ 0 <= x /\
    (stabilized self = false -> t = population -> 1 <= x).
Proof.
  intros Hex Ht HA HD HN Ha Hd Hn Hdr Hnr.
  destruct (weight_calculator_row self frame den num A D N t i (Some a) d n)
    as (w & frame' & Hw & Hi); try done.
  simpl in Hi. exists w, frame'. eexists. split; [done|]. split; [exact Hi|].
  split; [by apply Rlt_le, table_weight_pos|].
  intros Hs ->. rewrite Hs.
  assert (H1 : 0 < 1 - d) by lra.
  destruct (Reqb a 1); simpl.
  - assert (0 < (1 - d) / d) by (apply Rdiv_lt_0_compat; lra).
    replace (1 / d) with (1 + (1 - d) / d) by (field; lra). lra.
  - assert (0 < d / (1 - d)) by (apply Rdiv_lt_0_compat; lra).
    replace (1 / (1 - d)) with (1 + d / (1 - d)) by (field; lra). lra.
Qed.

(** Witness of [weights_nonnegative]: the treated subject of the sample
    frame with a missing subject, unstabilized weights standardized to
    the population. *)
Lemma weights_nonnegative_witness :
  exists w frame' x,
    _weight_calculator (Sample.new false "population") Sample.frame_na
      "__denom__" "__numer__" = Ok (w, frame') /\
    w !! 0%nat = Some (Some x) /\ 1 <= x.
Proof.
  destruct (weights_nonnegative (Sample.new false "population") Sample.frame_na
              "__denom__" "__numer__"
              [Some 1; Some 0; nan]
              [Some (1/4); Some (1/4); Some (1/2)]
              [Some (1/2); Some (1/2); Some (1/2)]
              population 0 1 (1/4) (1/2))
    as (w & frame' & x & Hw & Hx & _ & H1).
  - discriminate.
  - reflexivity.
  - reflexivity.
  - reflexivity.
  - reflexivity.
  - reflexivity.
  - reflexivity.
  - reflexivity.
  - lra.
  - intros _. lra.
  - exists w, frame', x. split; [exact Hw|]. split; [exact Hx|].
    apply H1; reflexivity.
Defined.

(** *** The length of the result *)

Lemma length_np_where (cond : list bool) (x y : operand) (L : nat) :
  length cond = L ->
  (forall c, x = Series c -> length c = L) ->
  (forall c, y = Series c -> length c = L) ->
  length (np_where cond x y) = L.
Proof.
  intros Hc Hx Hy. unfold np_where.
  rewrite !length_zip_with, Hc.
  assert (Hbx : length (broadcast L x) = L).
  { destruct x; simpl; [by apply Hx | by rewrite length_replicate]. }
  assert (Hby : length (broadcast L y) = L).
  { destruct y; simpl; [by apply Hy | by rewrite length_replicate]. }
  rewrite Hbx, Hby. lia.
Qed.

Lemma length_col_eq (c : col) v : length (col_eq c v) = length c.
Proof. unfold col_eq. by rewrite length_fmap. Qed.

Lemma length_col_isna (c : col) : length (col_isna c) = length c.
Proof. unfold col_isna. by rewrite length_fmap. Qed.

Lemma length_rsub v (c : col) : length (rsub v c) = length c.
Proof. unfold rsub. by rewrite length_fmap. Qed.

Lemma length_rdiv v (c : col) : length (rdiv v c) = length c.
Proof. unfold rdiv. by rewrite length_fmap. Qed.

Lemma length_col_div (a b : col) (L : nat) :
  length a = L -> length b = L -> length (col_div a b) = L.
Proof. intros Ha Hb. unfold col_div. rewrite length_zip_with. lia. Qed.

Lemma length_col_mul (a b : col) (L : nat) :
  length a = L -> length b = L -> length (col_mul a b) = L.
Proof. intros Ha Hb. unfold col_mul. rewrite length_zip_with. lia. Qed.

Lemma branch_weights_length self frame den num (A D N : col) (L : nat) :
  cols frame !! ex self = Some A -> cols frame !! den = Some D ->
  (stabilized self = true -> cols frame !! num = Some N /\ length N = L) ->
  length A = L -> length D = L ->
  exists w0, branch_weights self frame den num = Ok w0 /\ length w0 = L.
Proof.
  intros HA HD HN HLA HLD. apply df_get_Ok in HA, HD.
  unfold branch_weights.
  destruct (stabilized self).
  - destruct (HN eq_refl) as [HN' HLN]. apply df_get_Ok in HN'.
    repeat case_bool_decide; rewrite HA, ?HN', ?HD; simpl; rewrite ?HN', ?HD; simpl;
      (eexists; split; [reflexivity|]);
      apply length_np_where; rewrite ?length_col_eq; try done;
      intros c [= <-];
      repeat first [ apply length_col_mul | apply length_col_div
                   | rewrite length_rsub | rewrite length_rdiv ]; done.
  - repeat case_bool_decide; rewrite HA, ?HD; simpl; rewrite ?HD; simpl;
      (eexists; split; [reflexivity|]);
      apply length_np_where; rewrite ?length_col_eq; try done;
      intros c [= <-];
      repeat first [ apply length_col_mul | apply length_col_div
                   | rewrite length_rsub | rewrite length_rdiv ]; done.
Qed.

(** X2. On a frame whose exposure and denominator columns - and, for
    stabilized weights, numerator column - have L rows,
    _weight_calculator does not raise and returns a column of exactly L
    weights, one per row, whatever the cells hold (missing values
    included) and whatever the label of the treatment column.  For
    unstabilized weights the numerator column need not exist. *)
Theorem weight_calculator_one_per_row self frame den num (A D N : col) (L : nat) :
  cols frame !! ex self = Some A -> cols frame !! den = Some D ->
  (stabilized self = true -> cols frame !! num = Some N /\ length N = L) ->
  length A = L -> length D = L ->
  exists w frame', _weight_calculator self frame den num = Ok (w, frame') /\
    length w = L.
Proof.
  intros HA HD HN HLA HLD.
  destruct (branch_weights_length self frame den num A D N L) as (w0 & Hw0 & HL0);
    try done.
  unfold _weight_calculator. rewrite Hw0. simpl.
  assert (Ha : exists a, df_get (df_set frame "w" w0) (ex self) = Ok a /\ length a = L).
  { destruct (decide ("w" = ex self)) as [E|E].
    - rewrite <- E, df_get_set_eq. eauto.
    - rewrite df_get_set_ne by done. apply df_get_Ok in HA. rewrite HA. eauto. }
  destruct Ha as (a & -> & HLa). simpl.
  rewrite df_get_set_eq. simpl. rewrite df_get_set_eq. simpl.
  do 2 eexists. split; [reflexivity|].
  apply length_np_where; rewrite ?length_col_isna; try done.
  by intros c [= <-].
Qed.

(** Witness of [weight_calculator_one_per_row]: the sample frame with a
    missing subject has three rows. *)
Lemma weight_calculator_one_per_row_witness :
  exists w frame',
    _weight_calculator (Sample.new true "exposed") Sample.frame_na
      "__denom__" "__numer__" = Ok (w, frame') /\
    length w = 3%nat.
Proof.
  apply (weight_calculator_one_per_row (Sample.new true "exposed") Sample.frame_na
           "__denom__" "__numer__"
           [Some 1; Some 0; nan]
           [Some (1/4); Some (1/4); Some (1/2)]
           [Some (1/2); Some (1/2); Some (1/2)] 3).
  - reflexivity.
  - reflexivity.
  - intros _. split; reflexivity.
  - reflexivity.
  - reflexivity.
Defined.

(** *** A treatment column labelled 'w' *)

(** X3. When the treatment column is itself labelled 'w', the first
    assignment of the calculator overwrites it, and the second one
    looks for missing exposures among the weights just computed: a
    subject whose exposure is missing is weighted as an untreated one
    (the table's untreated entry), not NaN. *)
Theorem weight_calculator_scratch_collision self frame den num (A D N : col) t
    (i : nat) d n :
  ex self = "w" ->
  standardize self = target_name t ->
  cols frame !! "w" = Some A -> cols frame !! den = Some D ->
  cols frame !! num = Some N ->
  A !! i = Some nan -> D !! i = Some (Some d) -> N !! i = Some (Some n) ->
  exists w frame', _weight_calculator self frame den num = Ok (w, frame') /\
    w !! i = Some (Some (table_weight (stabilized self) t false d n)) /\
    cols frame' !! ex self = Some w.
Proof.
  intros Hex Ht HA HD HN Ha Hd Hn.
  rewrite <- Hex in HA.
  destruct (branch_weights_row self frame den num A D N t i nan d n) as (w0 & Hw0 & Hi);
    try done.
  simpl in Hi.
  unfold _weight_calculator. rewrite Hw0. simpl.
  rewrite Hex, df_get_set_eq. simpl. rewrite df_get_set_eq. simpl.
  do 2 eexists. split; [reflexivity|]. split.
  - erewrite lookup_np_where; [|by eapply lookup_col_isna|apply operand_at_Scalar|
      rewrite operand_at_Series; exact Hi]. reflexivity.
  - simpl. apply lookup_insert_eq.
Qed.

(** Witness of [weight_calculator_scratch_collision]: one subject with
    a missing exposure in a treatment column labelled 'w'. *)
Lemma weight_calculator_scratch_collision_witness :
  let self := {| denominator_model := None; numerator_model := None; _mdenom := None;
                 Weight := None; ProbabilityNumerator := None;
                 ProbabilityDenominator := None;
                 df := Sample.working; ex := "w"; stabilized := false;
                 standardize := "population";
                 _pos_avg := None; _pos_min := None; _pos_max := None;
                 _pos_sd := None |} in
  let frame := {| nrows := 1;
                  cols := <["w" := [nan]]>
                          (<["__denom__" := [Some (1/4)]]>
                          (<["__numer__" := [Some 1]]> ∅)) |} in
  exists w frame',
    _weight_calculator self frame "__denom__" "__numer__" = Ok (w, frame') /\
    w !! 0%nat = Some (Some (1 / (1 - 1/4))).
Proof.
  intros self frame.
  destruct (weight_calculator_scratch_collision self frame "__denom__" "__numer__"
              [nan] [Some (1/4)] [Some 1] population 0 (1/4) 1)
    as (w & frame' & Hw & Hi & _).
  - reflexivity.
  - reflexivity.
  - reflexivity.
  - reflexivity.
  - reflexivity.
  - reflexivity.
  - reflexivity.
  - reflexivity.
  - exists w, frame'. split; [exact Hw|exact Hi].
Defined.

(** ** More on fit *)

(** The calculator reads three columns of the frame. *)
Lemma branch_weights_ext self f1 f2 den num :
  cols f1 !! ex self = cols f2 !! ex self ->
  cols f1 !! den = cols f2 !! den ->
  cols f1 !! num = cols f2 !! num ->
  branch_weights self f1 den num = branch_weights self f2 den num.
Proof.
  intros H1 H2 H3. unfold branch_weights, df_get. by rewrite H1, H2, H3.
Qed.

Lemma weight_calculator_ext self f1 f2 den num w f1' :
  ex self <> "w" ->
  cols f1 !! ex self = cols f2 !! ex self ->
  cols f1 !! den = cols f2 !! den ->
  cols f1 !! num = cols f2 !! num ->
  _weight_calculator self f1 den num = Ok (w, f1') ->
  _weight_calculator self f2 den num = Ok (w, df_set f2 "w" w).
Proof.
  intros Hex H1 H2 H3. unfold _weight_calculator.
  rewrite (branch_weights_ext self f1 f2) by done.
  destruct (branch_weights self f2 den num) as [w0|]; [|done]. simpl.
  rewrite !(df_get_set_ne _ "w" (ex self)) by congruence.
  assert (Ha : df_get f1 (ex self) = df_get f2 (ex self))
    by (unfold df_get; by rewrite H1).
  rewrite Ha.
  destruct (df_get f2 (ex self)) as [a|]; [|done]. simpl.
  rewrite !df_get_set_eq. simpl. rewrite !df_get_set_eq. simpl.
  intros [= <- _]. f_equal. f_equal. unfold df_set. simpl.
  by rewrite insert_insert_eq.
Qed.

(** [fit] on a state where every step succeeds, with the machine it
    leaves. *)
Lemma fit_run_state self m frame dm (D N : col) w frame' :
  heap m !! df self = Some frame ->
  denominator_model self = Some dm ->
  cols frame !! "__denom__" = Some D -> cols frame !! "__numer__" = Some N ->
  _weight_calculator self frame "__denom__" "__numer__" = Ok (w, frame') ->
  fit (self, m) =
    (Ok tt,
     (set_ProbabilityNumerator (Some N)
        (set_ProbabilityDenominator (Some D) (set_Weight (Some w) self)),
      {| heap := <[df self := df_set (df_set frame "w" w) "iptw" (col_div N D)]> (heap m);
         console := console m |})).
Proof.
  intros Hdf Hdm HD HN Hw.
  pose proof (weight_calculator_frame _ _ _ _ _ _ Hw) as ->.
  assert (HD' : df_get (df_set frame "w" w) "__denom__" = Ok D)
    by (rewrite df_get_set_ne by done; by apply df_get_Ok).
  assert (HN' : df_get (df_set frame "w" w) "__numer__" = Ok N)
    by (rewrite df_get_set_ne by done; by apply df_get_Ok).
  unfold fit. run. rewrite Hdm. run. rewrite Hw. run.
  rewrite HD'. run. rewrite HN'. run. rewrite HN'. run. rewrite HD'. run.
  by rewrite insert_insert_eq.
Qed.

(** What a successful [fit] went through. *)
Lemma fit_Ok_inv self m s1 :
  fit (self, m) = (Ok tt, s1) ->
  exists frame dm D N w,
    heap m !! df self = Some frame /\ denominator_model self = Some dm /\
    cols frame !! "__denom__" = Some D /\ cols frame !! "__numer__" = Some N /\
    _weight_calculator self frame "__denom__" "__numer__" = Ok (w, df_set frame "w" w).
Proof.
  unfold fit. run.
  destruct (denominator_model self) as [dm|] eqn:Hdm; [|done].
  run. unfold self_df at 1. cbn [fst snd].
  destruct (heap m !! df self) as [frame|] eqn:Hdf; [|done].
  run.
  destruct (_weight_calculator self frame "__denom__" "__numer__") as [[w frame']|] eqn:Hw;
    [|done].
  pose proof (weight_calculator_frame _ _ _ _ _ _ Hw) as ->.
  run.
  destruct (df_get (df_set frame "w" w) "__denom__") as [D|] eqn:HD; [|done]. run.
  destruct (df_get (df_set frame "w" w) "__numer__") as [N|] eqn:HN; [|done].
  intros _. rewrite df_get_set_ne in HD, HN by done.
  apply df_get_Ok in HD, HN. by exists frame, dm, D, N, w.
Qed.

Lemma df_set_twice frame (w c : col) :
  df_set (df_set (df_set (df_set frame "w" w) "iptw" c) "w" w) "iptw" c
  = df_set (df_set frame "w" w) "iptw" c.
Proof.
  unfold df_set. simpl. f_equal. apply map_eq. intros k.
  destruct (decide (k = "iptw")) as [->|H1]; [by rewrite !lookup_insert_eq|].
  rewrite !(lookup_insert_ne _ "iptw" k) by done.
  destruct (decide (k = "w")) as [->|H2]; [by rewrite !lookup_insert_eq|].
  rewrite !(lookup_insert_ne _ "w" k) by done.
  rewrite ?(lookup_insert_ne _ "iptw" k) by done.
  rewrite ?(lookup_insert_ne _ "w" k) by done. done.
Qed.

(** X4. Calling fit() a second time changes nothing: when fit returns,
    a further call returns as well and leaves the instance (weights and
    the two probability attributes), every frame and the console exactly
    as the first call left them.  The treatment column must be labelled
    neither 'w' nor 'iptw', the two columns fit writes. *)
Theorem fit_idempotent self m s1 :
  ex self <> "w" -> ex self <> "iptw" ->
  fit (self, m) = (Ok tt, s1) ->
  fit s1 = (Ok tt, s1).
Proof.
  intros Hw Hi H.
  destruct (fit_Ok_inv _ _ _ H) as (frame & dm & D & N & w & Hdf & Hdm & HD & HN & Hcalc).
  rewrite (fit_run_state _ _ _ _ _ _ _ _ Hdf Hdm HD HN Hcalc) in H.
  injection H as <-.
  set (frame2 := df_set (df_set frame "w" w) "iptw" (col_div N D)).
  erewrite (fit_run_state _ _ frame2 dm D N w).
  - f_equal. f_equal. simpl. f_equal.
    rewrite insert_insert_eq. subst frame2. by rewrite df_set_twice.
  - simpl. apply lookup_insert_eq.
  - done.
  - subst frame2. unfold df_set. simpl. by rewrite !lookup_insert_ne.
  - subst frame2. unfold df_set. simpl. by rewrite !lookup_insert_ne.
  - eapply (weight_calculator_ext _ frame frame2); try done;
      subst frame2; unfold df_set; simpl; by rewrite !lookup_insert_ne.
Qed.

(** Witness of [fit_idempotent]: the sample instance after
    regression_models. *)
Lemma fit_idempotent_witness :
  exists s1,
    fit (Sample.self1, mutate Sample.working Sample.frame1 Sample.machine1) = (Ok tt, s1) /\
    fit s1 = (Ok tt, s1).
Proof.
  destruct (SampleRun.fit_sample (mutate Sample.working Sample.frame1 Sample.machine1))
    as (m' & Hfit & _); [apply lookup_insert_eq|].
  exists (Sample.self2, m'). split; [exact Hfit|].
  apply (fit_idempotent Sample.self1
           (mutate Sample.working Sample.frame1 Sample.machine1));
    [discriminate|discriminate|exact Hfit].
Defined.

(** X5. What a successful fit() does to the machine: the working frame
    gains (or has overwritten) the scratch column 'w', holding the
    weights returned in Weight, and the column 'iptw'; every other
    column and the number of rows are as before; every other frame is
    untouched; nothing is printed; and of the instance only Weight,
    ProbabilityDenominator and ProbabilityNumerator change. *)
Theorem fit_effects self m self1 m1 :
  fit (self, m) = (Ok tt, (self1, m1)) ->
  exists frame frame1 w D N,
    heap m !! df self = Some frame /\
    heap m1 !! df self = Some frame1 /\
    self1 = set_ProbabilityNumerator (Some N)
              (set_ProbabilityDenominator (Some D) (set_Weight (Some w) self)) /\
    cols frame !! "__denom__" = Some D /\ cols frame !! "__numer__" = Some N /\
    cols frame1 !! "w" = Some w /\
    cols frame1 !! "iptw" = Some (col_div N D) /\
    (forall c, c <> "w" -> c <> "iptw" -> cols frame1 !! c = cols frame !! c) /\
    nrows frame1 = nrows frame /\
    (forall l, l <> df self -> heap m1 !! l = heap m !! l) /\
    console m1 = console m.
Proof.
  intros H.
  destruct (fit_Ok_inv _ _ _ H) as (frame & dm & D & N & w & Hdf & Hdm & HD & HN & Hcalc).
  rewrite (fit_run_state _ _ _ _ _ _ _ _ Hdf Hdm HD HN Hcalc) in H.
  injection H as <- <-.
  exists frame, (df_set (df_set frame "w" w) "iptw" (col_div N D)), w, D, N.
  cbn [heap console]. split; [done|]. split; [apply lookup_insert_eq|].
  split; [done|]. split; [done|]. split; [done|].
  unfold df_set. cbn [cols nrows].
  split; [by rewrite lookup_insert_ne, lookup_insert_eq|].
  split; [by rewrite lookup_insert_eq|].
  split; [intros c H1 H2; by rewrite !lookup_insert_ne|].
  split; [done|]. split; [|done].
  intros l Hl. by rewrite lookup_insert_ne.
Qed.

(** Witness of [fit_effects]: the sample instance after
    regression_models; the exposure column is still there. *)
Lemma fit_effects_witness :
  exists self1 m1 frame1,
    fit (Sample.self1, mutate Sample.working Sample.frame1 Sample.machine1)
      = (Ok tt, (self1, m1)) /\
    heap m1 !! Sample.working = Some frame1 /\
    cols frame1 !! "art" = Some Sample.art.
Proof.
  destruct (SampleRun.fit_sample (mutate Sample.working Sample.frame1 Sample.machine1))
    as (m' & Hfit & _); [apply lookup_insert_eq|].
  destruct (fit_effects Sample.self1
              (mutate Sample.working Sample.frame1 Sample.machine1) Sample.self2 m' Hfit)
    as (frame & frame1 & w & D & N & Hdf & Hdf1 & _ & _ & _ & _ & _ & Hc & _).
  exists Sample.self2, m', frame1. split; [exact Hfit|]. split; [exact Hdf1|].
  rewrite Hc by discriminate.
  assert (E : frame = Sample.frame1).
  { simpl in Hdf. rewrite lookup_insert_eq in Hdf. by injection Hdf. }
  rewrite E. reflexivity.
Defined.

(** The calculator succeeds as soon as the columns it reads exist. *)
Lemma weight_calculator_Ok self frame den num (A D : col) :
  cols frame !! ex self = Some A -> cols frame !! den = Some D ->
  (stabilized self = true -> exists N : col, cols frame !! num = Some N) ->
  exists w, _weight_calculator self frame den num = Ok (w, df_set frame "w" w).
Proof.
  intros HA HD HN.
  assert (Hb : exists w0, branch_weights self frame den num = Ok w0).
  { apply df_get_Ok in HA, HD. unfold branch_weights.
    destruct (stabilized self).
    - destruct (HN eq_refl) as (N & HN'). apply df_get_Ok in HN'.
      repeat case_bool_decide; rewrite HA, ?HN', ?HD; simpl; rewrite ?HN', ?HD; simpl;
        by eexists.
    - repeat case_bool_decide; rewrite HA, ?HD; simpl; rewrite ?HD; simpl; by eexists. }
  destruct Hb as (w0 & Hw0).
  assert (Hc : exists w f, _weight_calculator self frame den num = Ok (w, f)).
  { unfold _weight_calculator. rewrite Hw0. simpl.
    assert (Ha : exists a, df_get (df_set frame "w" w0) (ex self) = Ok a).
    { destruct (decide ("w" = ex self)) as [E|E].
      - rewrite <- E, df_get_set_eq. eauto.
      - rewrite df_get_set_ne by done. apply df_get_Ok in HA. rewrite HA. eauto. }
    destruct Ha as (a & ->). simpl.
    rewrite df_get_set_eq. simpl. rewrite df_get_set_eq. simpl. by do 2 eexists. }
  destruct Hc as (w & f & Hc). exists w.
  by rewrite <- (weight_calculator_frame _ _ _ _ _ _ Hc).
Qed.

(** The calculator stops at the first column it cannot read. *)
Lemma weight_calculator_no_numerator self frame den num (A D : col) :
  stabilized self = true ->
  cols frame !! ex self = Some A -> cols frame !! den = Some D ->
  cols frame !! num = None ->
  _weight_calculator self frame den num = throw KeyError num.
Proof.
  intros Hs HA HD HN. apply df_get_Ok in HA, HD.
  assert (HN' : df_get frame num = throw KeyError num)
    by (unfold df_get; by rewrite HN).
  unfold _weight_calculator, branch_weights. rewrite Hs.
  repeat case_bool_decide; rewrite HA, ?HN', ?HD; simpl; rewrite ?HN'; reflexivity.
Qed.

(** X6. fit() on an instance whose working frame has no '__numer__'
    column - the state regression_models leaves when it refuses a
    numerator formula for unstabilized weights.  With unstabilized
    weights fit raises KeyError('__numer__') only after it has stored
    the weights in Weight and the denominator probabilities in
    ProbabilityDenominator and written the column 'w':
    ProbabilityNumerator is not set and no 'iptw' column is written.
    With stabilized weights the same KeyError comes from the calculator
    and nothing at all is changed. *)
Theorem fit_without_numerator self m frame dm (A D : col) :
  heap m !! df self = Some frame ->
  denominator_model self = Some dm ->
  cols frame !! ex self = Some A -> cols frame !! "__denom__" = Some D ->
  cols frame !! "__numer__" = None ->
  (stabilized self = true ->
     fit (self, m) = (throw KeyError "__numer__", (self, m))) /\
  (stabilized self = false ->
     exists w,
       _weight_calculator self frame "__denom__" "__numer__" = Ok (w, df_set frame "w" w) /\
       fit (self, m) =
         (throw KeyError "__numer__",
          (set_ProbabilityDenominator (Some D) (set_Weight (Some w) self),
           {| heap := <[df self := df_set frame "w" w]> (heap m);
              console := console m |}))).
Proof.
  intros Hdf Hdm HA HD HN. split; intros Hs.
  - unfold fit. run. rewrite Hdm. run.
    by rewrite (weight_calculator_no_numerator _ _ _ _ A D).
  - destruct (weight_calculator_Ok self frame "__denom__" "__numer__" A D) as (w & Hw);
      [done|done|congruence|].
    exists w. split; [done|].
    assert (HD' : df_get (df_set frame "w" w) "__denom__" = Ok D)
      by (rewrite df_get_set_ne by done; by apply df_get_Ok).
    assert (HN' : df_get (df_set frame "w" w) "__numer__" = throw KeyError "__numer__").
    { rewrite df_get_set_ne by done. unfold df_get. by rewrite HN. }
    unfold fit. run. rewrite Hdm. run. rewrite Hw. run.
    rewrite HD'. run. rewrite HN'. reflexivity.
Qed.

(** Witness of [fit_without_numerator]: unstabilized weights on the
    sample frame with the denominator probabilities only. *)
Lemma fit_without_numerator_witness :
  let self := set_denominator_model (Some (Logit (Sample.logit_fit "art ~ male")))
                (Sample.new false "population") in
  let frame := df_set Sample.frame "__denom__" Sample.pr_art_given_male in
  exists w s,
    fit (self, mutate Sample.working frame Sample.machine1)
      = (throw KeyError "__numer__", s) /\
    Weight s.1 = Some w /\ ProbabilityNumerator s.1 = None.
Proof.
  intros self frame.
  destruct (fit_without_numerator self (mutate Sample.working frame Sample.machine1)
              frame (Logit (Sample.logit_fit "art ~ male"))
              Sample.art Sample.pr_art_given_male) as [_ H].
  - apply lookup_insert_eq.
  - reflexivity.
  - reflexivity.
  - reflexivity.
  - reflexivity.
  - destruct (H eq_refl) as (w & _ & Hfit).
    exists w. eexists. split; [exact Hfit|]. split; reflexivity.
Defined.

(** ** More on regression_models *)

Section Models.
Context {ext : Collaborators}.

(** The denominator part with the built-in logistic regression. *)
Lemma regression_models_denominator md mn p cn self m frame lm (D : col) :
  heap m !! df self = Some frame ->
  propensity_score frame (ex self +:+ " ~ " +:+ md) p = Ok lm ->
  lm_predict lm frame = Ok D ->
  regression_models md mn p None cn (self, m) =
    (let self1 := set_denominator_model (Some (Logit lm)) (set_mdenom (Some md) self) in
     let m1 := {| heap := <[df self := df_set frame "__denom__" D]> (heap m);
                  console := console m |} in
     if stabilized self then
       (n ← match cn with
            | None =>
                frame ← self_df;
                m ← lift (propensity_score frame (ex self +:+ " ~ " +:+ mn) p);
                setattr (set_numerator_model (Some (Logit m)));;
                n ← lift (lm_predict m frame);
                mret (aligned n)
            | Some cm => '(_, n) ← custom_predict cm mn p; mret (array n)
            end;
        frame ← self_df;
        frame' ← lift (df_assign frame "__numer__" n);
        store_df frame') (self1, m1)
     else if bool_decide (mn ≠ "1") then (throw ValueError msg_numerator, (self1, m1))
     else (Ok tt,
           (self1,
            {| heap := <[df self := df_set_scalar (df_set frame "__denom__" D)
                                      "__numer__" (Some 1)]> (heap m);
               console := console m |}))).
Proof.
  intros Hdf Hps Hp. unfold regression_models. run. rewrite Hps. run. rewrite Hp. run.
  destruct (stabilized self); [reflexivity|].
  case_bool_decide; [reflexivity|]. run. by rewrite insert_insert_eq.
Qed.


(** X8. With unstabilized weights and the default numerator formula
    '1', regression_models stores 1 in every row of '__numer__', fits
    no numerator model (numerator_model keeps its value) and ignores a
    custom numerator model if one is given. *)
Theorem unstabilized_numerator_is_one md p cn self m frame lm (D : col) :
  heap m !! df self = Some frame ->
  stabilized self = false ->
  propensity_score frame (ex self +:+ " ~ " +:+ md) p = Ok lm ->
  lm_predict lm frame = Ok D ->
  exists self' m' frame',
    regression_models md "1" p None cn (self, m) = (Ok tt, (self', m')) /\
    heap m' !! df self = Some frame' /\
    cols frame' !! "__numer__" = Some (replicate (nrows frame) (Some 1)) /\
    cols frame' !! "__denom__" = Some D /\
    numerator_model self' = numerator_model self /\
    denominator_model self' = Some (Logit lm).
Proof.
  intros Hdf Hs Hps Hp.
  rewrite (regression_models_denominator _ _ _ _ _ _ _ _ _ Hdf Hps Hp), Hs.
  rewrite bool_decide_eq_false_2 by (intros H; by apply H).
  do 3 eexists. split; [reflexivity|]. cbn [heap].
  split; [apply lookup_insert_eq|].
  unfold df_set_scalar, df_set. cbn [cols nrows].
  split; [apply lookup_insert_eq|].
  split; [by rewrite lookup_insert_ne, lookup_insert_eq|]. done.
Qed.

(** X9. A custom numerator model is used and forgotten: for stabilized
    weights with a custom numerator model whose fit succeeds, the
    fitted model is not kept - numerator_model keeps the value it had -
    whereas the denominator model is registered.  The predictions of
    the fitted model become the '__numer__' column when there is one
    for each row; otherwise pandas' ValueError for an array of another
    length is raised and no '__numer__' column is written. *)
Theorem custom_numerator_not_recorded md mn p cn self m frame lm (D : col) data y fm
    (N : col) :
  heap m !! df self = Some frame ->
  stabilized self = true ->
  propensity_score frame (ex self +:+ " ~ " +:+ md) p = Ok lm ->
  lm_predict lm frame = Ok D ->
  dmatrix (mn +:+ " - 1") (df_set frame "__denom__" D) = Ok data ->
  cols (df_set frame "__denom__" D) !! ex self = Some y ->
  cm_fit cn data y = Ok fm ->
  predicted fm data = Ok N ->
  exists o self' m',
    regression_models md mn p None (Some cn) (self, m) = (o, (self', m')) /\
    denominator_model self' = Some (Logit lm) /\
    numerator_model self' = numerator_model self /\
    (length N = nrows frame ->
       o = Ok tt /\
       heap m' !! df self = Some (df_set (df_set frame "__denom__" D) "__numer__" N)) /\
    (length N <> nrows frame ->
       o = throw ValueError msg_length /\
       heap m' !! df self = Some (df_set frame "__denom__" D)).
Proof.
  intros Hdf Hs Hps Hp Hdm Hy Hfit Hpred.
  rewrite (regression_models_denominator _ _ _ _ _ _ _ _ _ Hdf Hps Hp), Hs.
  cbv zeta. run.
  erewrite custom_predict_Ok; [|apply lookup_insert_eq|eassumption..].
  run.
  destruct (decide (length N = nrows frame)) as [Hlen|Hlen].
  - rewrite df_assign_array by done. run.
    do 3 eexists. split; [reflexivity|]. cbn [heap].
    split; [done|]. split; [done|]. split; [|done].
    intros _. split; [done|]. apply lookup_insert_eq.
  - rewrite df_assign_array_length by done.
    do 3 eexists. split; [reflexivity|]. cbn [heap].
    split; [done|]. split; [done|]. split; [done|].
    intros _. split; [done|]. apply lookup_insert_eq.
Qed.

(** X10. An exception of a custom model's fit other than TypeError is
    not translated: regression_models raises that very exception, and
    nothing but the recorded denominator formula has changed - no model
    is registered, no column written, nothing printed. *)
Theorem custom_fit_error_propagates md mn p cm cn self m frame data y e :
  heap m !! df self = Some frame ->
  dmatrix (md +:+ " - 1") frame = Ok data ->
  cols frame !! ex self = Some y ->
  cm_fit cm data y = Raise e -> exc_class e <> TypeError ->
  regression_models md mn p (Some cm) cn (self, m) =
    (Raise e, (set_mdenom (Some md) self, m)).
Proof.
  intros Hdf Hdm Hy Hfit He. apply df_get_Ok in Hy.
  unfold regression_models. run. unfold custom_predict. run.
  rewrite Hdm. run. rewrite Hy. run. unfold try_fit. rewrite Hfit.
  destruct (exc_class e); done.
Qed.

End Models.


(** Witness of [unstabilized_numerator_is_one]: the sample frame has
    eight rows. *)
Lemma unstabilized_numerator_is_one_witness :
  exists self' m' frame',
    regression_models (ext := Sample.collaborators) "male" "1" false None None
      (Sample.new false "population", Sample.machine1) = (Ok tt, (self', m')) /\
    heap m' !! Sample.working = Some frame' /\
    cols frame' !! "__numer__" = Some (replicate 8 (Some 1)) /\
    numerator_model self' = None.
Proof.
  destruct (unstabilized_numerator_is_one (ext := Sample.collaborators)
              "male" false None (Sample.new false "population") Sample.machine1
              Sample.frame (Sample.logit_fit "art ~ male") Sample.pr_art_given_male)
    as (self' & m' & frame' & Hrun & Hdf & Hn & _ & Hnm & _).
  - reflexivity.
  - reflexivity.
  - reflexivity.
  - reflexivity.
  - exists self', m', frame'.
    split; [exact Hrun|]. split; [exact Hdf|]. split; [exact Hn|exact Hnm].
Defined.

(** Witness of [custom_numerator_not_recorded]: the sample classifier
    as numerator model; it predicts one value for each of the eight
    rows. *)
Lemma custom_numerator_not_recorded_witness :
  exists self' m',
    regression_models (ext := Sample.collaborators) "male" "male" false None
      (Some Sample.classifier) (Sample.new true "population", Sample.machine1)
    = (Ok tt, (self', m')) /\
    numerator_model self' = None /\
    denominator_model self' = Some (Logit (Sample.logit_fit "art ~ male")).
Proof.
  destruct (custom_numerator_not_recorded (ext := Sample.collaborators)
              "male" "male" false Sample.classifier (Sample.new true "population")
              Sample.machine1 Sample.frame (Sample.logit_fit "art ~ male")
              Sample.pr_art_given_male {| dm_terms := [("male", [Sample.male])] |}
              Sample.art Sample.classifier_fitted Sample.pr_art_given_male)
    as (o & self' & m' & Hrun & Hd & Hn & Hok & _).
  - reflexivity.
  - reflexivity.
  - reflexivity.
  - reflexivity.
  - reflexivity.
  - reflexivity.
  - reflexivity.
  - reflexivity.
  - destruct Hok as [Ho _]; [reflexivity|].
    exists self', m'. split; [by rewrite <- Ho|]. split; [exact Hn|exact Hd].
Defined.

(** Witness of [custom_fit_error_propagates]: a custom model whose fit
    raises ValueError. *)
Lemma custom_fit_error_propagates_witness :
  let cm := {| cm_fit := fun _ _ => throw ValueError "Found input variables with NaN" |} in
  regression_models (ext := Sample.collaborators) "male" "1" false (Some cm) None
    (Sample.new true "population", Sample.machine1)
  = (throw ValueError "Found input variables with NaN",
     (set_mdenom (Some "male") (Sample.new true "population"), Sample.machine1)).
Proof.
  intros cm.
  apply (custom_fit_error_propagates (ext := Sample.collaborators)
           "male" "1" false cm None (Sample.new true "population") Sample.machine1
           Sample.frame {| dm_terms := [("male", [Sample.male])] |} Sample.art).
  - reflexivity.
  - reflexivity.
  - reflexivity.
  - reflexivity.
  - discriminate.
Defined.

Section Pipeline.
Context {ext : Collaborators}.

(** Both parts with the built-in logistic regression. *)
Lemma regression_models_builtin md mn p self m frame lm_d (D N : col) :
  heap m !! df self = Some frame ->
  propensity_score frame (ex self +:+ " ~ " +:+ md) p = Ok lm_d ->
  lm_predict lm_d frame = Ok D ->
  (if stabilized self
   then exists lm_n,
     propensity_score (df_set frame "__denom__" D) (ex self +:+ " ~ " +:+ mn) p = Ok lm_n /\
     lm_predict lm_n (df_set frame "__denom__" D) = Ok N
   else mn = "1" /\ N = replicate (nrows frame) (Some 1)) ->
  exists self2 m2,
    regression_models md mn p None None (self, m) = (Ok tt, (self2, m2)) /\
    heap m2 !! df self = Some (df_set (df_set frame "__denom__" D) "__numer__" N) /\
    denominator_model self2 = Some (Logit lm_d) /\
    df self2 = df self /\ ex self2 = ex self /\ stabilized self2 = stabilized self /\
    standardize self2 = standardize self.
Proof.
  intros Hdf Hps Hp HN.
  rewrite (regression_models_denominator _ _ _ _ _ _ _ _ _ Hdf Hps Hp).
  destruct (stabilized self) eqn:Hs.
  - destruct HN as (lm_n & Hps2 & Hp2). cbv zeta. run. rewrite Hps2. run. rewrite Hp2. run.
    do 2 eexists. split; [reflexivity|]. cbn [heap]. split; [apply lookup_insert_eq|].
    simpl. by rewrite Hs.
  - destruct HN as [-> ->]. rewrite bool_decide_eq_false_2 by (intros H; by apply H).
    do 2 eexists. split; [reflexivity|]. cbn [heap]. split; [apply lookup_insert_eq|].
    simpl. by rewrite Hs.
Qed.

(** X11. regression_models followed by fit, with the built-in logistic
    regressions: when the models are fitted and predict the columns D
    (denominator) and N (numerator; all ones for unstabilized weights
    with the default formula), the two calls return, Weight holds in
    every row the table's weight for the predictions of that row (NaN
    where the exposure is missing), and ProbabilityDenominator and
    ProbabilityNumerator are the predicted columns.  The treatment
    column must not bear one of the labels 'w', '__denom__',
    '__numer__' the class uses. *)
Theorem models_then_fit md mn p self m frame lm_d (A D N : col) t (i : nat) a d n :
  heap m !! df self = Some frame ->
  ex self <> "w" -> ex self <> "__denom__" -> ex self <> "__numer__" ->
  standardize self = target_name t ->
  propensity_score frame (ex self +:+ " ~ " +:+ md) p = Ok lm_d ->
  lm_predict lm_d frame = Ok D ->
  (if stabilized self
   then exists lm_n,
     propensity_score (df_set frame "__denom__" D) (ex self +:+ " ~ " +:+ mn) p = Ok lm_n /\
     lm_predict lm_n (df_set frame "__denom__" D) = Ok N
   else mn = "1" /\ N = replicate (nrows frame) (Some 1)) ->
  cols frame !! ex self = Some A ->
  A !! i = Some a -> D !! i = Some (Some d) -> N !! i = Some (Some n) ->
  exists self' m' w,
    (regression_models md mn p None None;; fit) (self, m) = (Ok tt, (self', m')) /\
    Weight self' = Some w /\
    w !! i = Some (if cell_isna a then nan
                   else Some (table_weight (stabilized self) t (cell_eqb a 1) d n)) /\
    ProbabilityDenominator self' = Some D /\
    ProbabilityNumerator self' = Some N.
Proof.
  intros Hdf Hw Hd Hn Ht Hps Hp HN HA Ha Hdi Hni.
  destruct (regression_models_builtin md mn p self m frame lm_d D N Hdf Hps Hp HN)
    as (self2 & m2 & Hrun & Hdf2 & Hdm & Edf & Eex & Estab & Estd).
  set (frame2 := df_set (df_set frame "__denom__" D) "__numer__" N) in *.
  assert (HA2 : cols frame2 !! ex self2 = Some A).
  { rewrite Eex. subst frame2. unfold df_set. cbn [cols].
    by rewrite !lookup_insert_ne by congruence. }
  assert (HD2 : cols frame2 !! "__denom__" = Some D).
  { subst frame2. unfold df_set. cbn [cols].
    by rewrite lookup_insert_ne, lookup_insert_eq. }
  assert (HN2 : cols frame2 !! "__numer__" = Some N).
  { subst frame2. unfold df_set. cbn [cols]. by rewrite lookup_insert_eq. }
  destruct (weight_calculator_row self2 frame2 "__denom__" "__numer__" A D N t i a d n)
    as (w & frame' & Hcalc & Hi); try done; try congruence.
  rewrite <- Edf in Hdf2.
  rewrite run_bind, Hrun.
  rewrite (fit_run_state _ _ _ _ _ _ _ _ Hdf2 Hdm HD2 HN2 Hcalc).
  do 3 eexists. split; [reflexivity|]. rewrite <- Estab. done.
Qed.

End Pipeline.

(** Witness of [models_then_fit]: the sample data set, stabilized
    weights standardized to the population, an untreated man. *)
Lemma models_then_fit_witness :
  exists self' m' w,
    (regression_models (ext := Sample.collaborators) "male" "1" false None None;; fit)
      (Sample.new true "population", Sample.machine1) = (Ok tt, (self', m')) /\
    Weight self' = Some w /\
    w !! 1%nat = Some (Some ((1 - 1/2) / (1 - 1/4))).
Proof.
  destruct (models_then_fit (ext := Sample.collaborators) "male" "1" false
              (Sample.new true "population") Sample.machine1 Sample.frame
              (Sample.logit_fit "art ~ male")
              Sample.art Sample.pr_art_given_male Sample.pr_art
              population 1 (Some 0) (1/4) (1/2))
    as (self' & m' & w & Hrun & HW & Hi & _).
  - reflexivity.
  - discriminate.
  - discriminate.
  - discriminate.
  - reflexivity.
  - reflexivity.
  - reflexivity.
  - exists (Sample.logit_fit "art ~ 1"). split; reflexivity.
  - reflexivity.
  - reflexivity.
  - reflexivity.
  - reflexivity.
  - exists self', m', w. split; [exact Hrun|]. split; [exact HW|].
    rewrite Hi. simpl. rewrite Reqb_neq by lra. reflexivity.
Defined.

(** ** Invariants *)

Lemma invariant_ret {A} P (a : A) : invariant P (mret a).
Proof. intros s o s' HP [= _ <-]. done. Qed.

Lemma invariant_lift {A} P (o : outcome A) : invariant P (lift o).
Proof. intros s o' s' HP [= _ <-]. done. Qed.

Lemma invariant_getattr {A} P (f : IPTW -> A) : invariant P (getattr f).
Proof. intros s o s' HP [= _ <-]. done. Qed.

Lemma invariant_self_df P : invariant P self_df.
Proof.
  intros s o s' HP. unfold self_df. destruct (heap s.2 !! df s.1); by intros [= _ <-].
Qed.

Lemma invariant_setattr (P : IPTW * machine -> Prop) g :
  (forall s, P s -> P (g s.1, s.2)) -> invariant P (setattr g).
Proof. intros Hg s o s' HP [= _ <-]. by apply Hg. Qed.

Lemma invariant_store_df (P : IPTW * machine -> Prop) d :
  (forall s, P s ->
     P (s.1, {| heap := <[df s.1 := d]> (heap s.2); console := console s.2 |})) ->
  invariant P (store_df d).
Proof. intros Hd s o s' HP [= _ <-]. by apply Hd. Qed.

Lemma invariant_emit (P : IPTW * machine -> Prop) e :
  (forall s, P s -> P (s.1, {| heap := heap s.2; console := console s.2 ++ [e] |})) ->
  invariant P (emit e).
Proof. intros He s o s' HP [= _ <-]. by apply He. Qed.

Lemma invariant_bind {A B} P (c : meth A) (f : A -> meth B) :
  invariant P c -> (forall a, invariant P (f a)) -> invariant P (c ≫= f).
Proof.
  intros Hc Hf s o s' HP. rewrite run_bind.
  destruct (c s) as [[a|e] s1] eqn:E.
  - intros H. exact (Hf a s1 o s' (Hc _ _ _ HP E) H).
  - intros [= _ <-]. exact (Hc _ _ _ HP E).
Qed.

Lemma invariant_mapM {A B} P (f : A -> meth B) (l : list A) :
  (forall a, invariant P (f a)) -> invariant P (mapM f l).
Proof.
  intros Hf. induction l as [|x l IH]; simpl.
  - apply invariant_ret.
  - apply invariant_bind; [apply Hf|]. intros y.
    apply invariant_bind; [apply IH|]. intros k. apply invariant_ret.
Qed.

(** One step of an invariance proof; the side conditions of the
    writing primitives are left to the caller. *)
Ltac invariant_step :=
  first
    [ apply invariant_bind; [|intros]
    | apply invariant_ret
    | apply invariant_lift
    | apply invariant_getattr
    | apply invariant_self_df
    | apply invariant_mapM; intros
    | match goal with
      | |- invariant _ (match ?x with _ => _ end) => destruct x
      | |- invariant _ (let '(_, _) := ?x in _) => destruct x
      end ].

Section Invariants.
Context {ext : Collaborators}.

(** *** The balance table only reads *)

Lemma smd_invariant P : invariant P standardized_mean_differences.
Proof. unfold standardized_mean_differences. repeat invariant_step. Qed.

(** X12. standardized_mean_differences only reads: whatever it returns
    or raises, the instance, every frame (the 'iptw' column of the
    working frame included) and the console are exactly as before the
    call. *)
Theorem smd_read_only self m :
  (standardized_mean_differences (self, m)).2 = (self, m).
Proof.
  destruct (standardized_mean_differences (self, m)) as [o s'] eqn:E.
  exact (smd_invariant (fun s => s = (self, m)) _ _ _ eq_refl E).
Qed.

(** *** The recorded denominator formula *)

Lemma custom_predict_keeps_self (Q : IPTW -> Prop) cm formula p :
  invariant (fun s => Q s.1) (custom_predict cm formula p).
Proof.
  unfold custom_predict.
  repeat first [ invariant_step | apply invariant_emit; by intros [? ?] ].
Qed.

(** X13. regression_models records its first argument before anything
    else: whatever the call returns or raises - an unknown formula, a
    custom model that fails, a refused numerator - the formula the
    balance diagnostics will use afterwards is the denominator formula
    of this call. *)
Theorem mdenom_always_recorded md mn p cd cn s :
  _mdenom (regression_models md mn p cd cn s).2.1 = Some md.
Proof.
  destruct (regression_models md mn p cd cn s) as [o s'] eqn:E.
  revert E. unfold regression_models. run_step. run_step. intros E.
  match type of E with
  | ?f ?st = _ => assert (Hinv : invariant (fun s => _mdenom s.1 = Some md) f)
  end.
  { repeat first
      [ apply custom_predict_keeps_self
      | invariant_step
      | apply invariant_setattr; by intros [? ?]
      | apply invariant_emit; by intros [? ?]
      | apply invariant_store_df; by intros [? ?] ]. }
  exact (Hinv (set_mdenom (Some md) s.1, s.2) o s' eq_refl E).
Qed.

End Invariants.

(** *** Frames other than the working copy *)

Section Confined.
Context {ext : Collaborators}.

Lemma elsewhere_setattr l m0 g :
  (forall s, df (g s) = df s) -> invariant (elsewhere_as l m0) (setattr g).
Proof.
  intros Hg. apply invariant_setattr. intros [self m] [H1 H2]. split; [|done].
  simpl in *. by rewrite Hg.
Qed.

Lemma elsewhere_store_df l m0 d : invariant (elsewhere_as l m0) (store_df d).
Proof.
  apply invariant_store_df. intros [self m] [H1 H2]. split; [done|].
  simpl in *. intros l' Hl. rewrite lookup_insert_ne by congruence. by apply H2.
Qed.

Lemma elsewhere_emit l m0 e : invariant (elsewhere_as l m0) (emit e).
Proof. apply invariant_emit. by intros [self m] [H1 H2]. Qed.

Ltac elsewhere_step :=
  first
    [ invariant_step
    | apply elsewhere_setattr; reflexivity
    | apply elsewhere_store_df
    | apply elsewhere_emit ].

Lemma elsewhere_run_call l m0 c : invariant (elsewhere_as l m0) (run_call c).
Proof.
  destruct c; simpl;
    unfold regression_models, custom_predict, fit, positivity,
      standardized_mean_differences;
    repeat elsewhere_step.
Qed.

Lemma elsewhere_run_calls l m0 cs s :
  elsewhere_as l m0 s -> elsewhere_as l m0 (run_calls cs s).2.
Proof.
  revert s. induction cs as [|c cs IH]; intros s Hs; simpl; [done|].
  destruct (run_call c s) as [o s1] eqn:E.
  pose proof (elsewhere_run_call l m0 c s o s1 Hs E) as H1.
  specialize (IH s1 H1). by destruct (run_calls cs s1) as [os s2].
Qed.

(** X14. The class works on its copy only: after the constructor has
    copied the caller's frame, no script of method calls -
    regression_models, fit, positivity, standardized_mean_differences,
    whether they return or raise - changes a frame that existed before
    the instance was made; the caller's data frame in particular is
    never given the columns '__denom__', '__numer__', 'w' or 'iptw'. *)
Theorem caller_frame_never_modified r t stab std m0 self m1 cs (l : loc) d :
  __init__ r t stab std m0 = (Ok self, m1) ->
  heap m0 !! l = Some d ->
  heap (run_calls cs (self, m1)).2.2 !! l = Some d.
Proof.
  intros Hinit Hl.
  destruct (init_copy _ _ _ _ _ _ _ Hinit) as (d0 & Hr & Hnew & Hne & Hheap & _).
  assert (Hs : elsewhere_as (df self) m0 (self, m1)).
  { split; [done|]. intros l' Hl'. simpl. rewrite Hheap. by rewrite lookup_insert_ne. }
  destruct (elsewhere_run_calls _ _ cs _ Hs) as [_ H].
  rewrite H; [done|]. intros ->. congruence.
Qed.

End Confined.

(** Witness of [caller_frame_never_modified]: the sample frame of the
    caller after the models, fit() and positivity(). *)
Lemma caller_frame_never_modified_witness :
  exists self m1,
    __init__ Sample.caller "art" true "population" Sample.machine0 = (Ok self, m1) /\
    heap (run_calls (ext := Sample.collaborators)
            [call_regression_models "male" "1" false None None; call_fit;
             call_positivity 3] (self, m1)).2.2 !! Sample.caller = Some Sample.frame.
Proof.
  assert (Hinit : __init__ Sample.caller "art" true "population" Sample.machine0
                  = (Ok {| denominator_model := None; numerator_model := None;
                           _mdenom := None; Weight := None; ProbabilityNumerator := None;
                           ProbabilityDenominator := None;
                           df := fresh (dom (heap Sample.machine0)); ex := "art";
                           stabilized := true; standardize := "population";
                           _pos_avg := None; _pos_min := None; _pos_max := None;
                           _pos_sd := None |},
                     {| heap := <[fresh (dom (heap Sample.machine0)) := Sample.frame]>
                                  (heap Sample.machine0);
                        console := console Sample.machine0 |})).
  { apply init_Ok; [reflexivity|]. apply (bool_decide_unpack _). exact I. }
  do 2 eexists. split; [exact Hinit|].
  apply (caller_frame_never_modified (ext := Sample.collaborators) _ _ _ _ _ _ _
           _ Sample.caller Sample.frame Hinit).
  reflexivity.
Defined.

(** ** More on the balance table *)

Section BalanceTable.
Context {ext : Collaborators}.

(** X15. The balance table before its inputs exist.  Before
    regression_models has been called, standardized_mean_differences
    raises the TypeError of None + ' - 1'.  After regression_models but
    before fit or positivity, the working frame has no 'iptw' column
    and the call raises KeyError as soon as the formula has a term; with
    a formula without terms it returns an empty table.  Nothing is
    changed in either case. *)
Theorem smd_before_weights self m frame :
  heap m !! df self = Some frame ->
  (_mdenom self = None ->
     standardized_mean_differences (self, m)
     = (throw TypeError msg_none_plus_str, (self, m))) /\
  (forall formula vars (a : col),
     _mdenom self = Some formula ->
     dmatrix (formula +:+ " - 1") frame = Ok vars ->
     cols frame !! ex self = Some a ->
     cols frame !! "iptw" = None ->
     (dm_terms vars <> [] ->
        exists e, standardized_mean_differences (self, m) = (Raise e, (self, m)) /\
          exc_class e = KeyError) /\
     (dm_terms vars = [] ->
        standardized_mean_differences (self, m) = (Ok [], (self, m)))).
Proof.
  intros Hdf. split.
  - intros Hmd. unfold standardized_mean_differences. run. by rewrite Hmd.
  - intros formula vars a Hmd Hdm Ha Hw. apply df_get_Ok in Ha.
    assert (Hw' : df_get frame "iptw" = throw KeyError "iptw")
      by (unfold df_get; by rewrite Hw).
    split; intros Hterms.
    + destruct (dm_terms vars) as [|term terms] eqn:E; [done|].
      unfold standardized_mean_differences. run. rewrite Hmd. run. rewrite Hdm. run.
      rewrite E. cbn [mapM]. run. rewrite Ha. run. rewrite Hw'.
      by eexists.
    + unfold standardized_mean_differences. run. rewrite Hmd. run. rewrite Hdm. run.
      by rewrite Hterms.
Qed.

(** The rows [mapM] returns follow the list it runs over. *)
Lemma mapM_rows {A B C} (f : A -> meth B) (g : B -> C) (h : A -> C) (l : list A) :
  (forall x s y s', f x s = (Ok y, s') -> g y = h x) ->
  forall s ys s', mapM f l s = (Ok ys, s') -> g <$> ys = h <$> l.
Proof.
  intros Hf. induction l as [|x l IH]; intros s ys s'; simpl.
  - by intros [= <- _].
  - rewrite run_bind. destruct (f x s) as [[y|e] s1] eqn:E; [|done].
    rewrite run_bind. destruct (mapM f l s1) as [[k|e] s2] eqn:E2; [|done].
    intros [= <- _]. simpl. f_equal; [by eapply Hf|by eapply IH].
Qed.

(** X16. The table standardized_mean_differences returns has one row
    for each term of the denominator formula, in the order of the
    terms, labelled with the name of the term - also for a term that
    spans several columns. *)
Theorem smd_rows_follow_terms self m frame formula vars rows s' :
  heap m !! df self = Some frame ->
  _mdenom self = Some formula ->
  dmatrix (formula +:+ " - 1") frame = Ok vars ->
  standardized_mean_differences (self, m) = (Ok rows, s') ->
  (fun r : string * cell * cell => r.1.1) <$> rows = fst <$> dm_terms vars.
Proof.
  intros Hdf Hmd Hdm. unfold standardized_mean_differences.
  run. rewrite Hmd. run. rewrite Hdm. run.
  apply mapM_rows. intros term s y s1.
  unfold self_df. rewrite run_bind.
  destruct (heap s.2 !! df s.1) as [d|]; [|done].
  repeat (rewrite run_bind, run_lift;
          match goal with
          | |- context [match ?x with Ok _ => _ | Raise _ => _ end] =>
              innermost x; destruct x; [|done]
          end; cbn [fst snd]).
  rewrite run_ret. by intros [= <- _].
Qed.

End BalanceTable.

(** The balance table of the sample after fit(). *)
Lemma sample_table :
  exists u,
    standardized_mean_differences (ext := Sample.collaborators)
      (Sample.self2, mutate Sample.working Sample.frame2 Sample.machine1)
    = (Ok [("male", Some (Sample.smd (1/2) (9/10)), u)],
       (Sample.self2, mutate Sample.working Sample.frame2 Sample.machine1)).
Proof.
  destruct (SampleRun.smd_unweighted Sample.self2 Sample.iptw) as (u & Hu).
  exists u.
  rewrite (smd_run_single (ext := Sample.collaborators) Sample.self2 _ Sample.frame2
             "male" "male" Sample.male Sample.art Sample.iptw);
    [|apply lookup_insert_eq|reflexivity..].
  rewrite SampleRun.male_binary. cbn zeta. rewrite SampleRun.smd_iptw.
  fold (Sample.dat Sample.iptw). by rewrite Hu.
Qed.

(** Witness of [smd_before_weights]: a new instance on the sample
    frame, and the same instance with the formula recorded. *)
Lemma smd_before_weights_witness :
  standardized_mean_differences (ext := Sample.collaborators)
    (Sample.new true "population", Sample.machine1)
  = (throw TypeError msg_none_plus_str, (Sample.new true "population", Sample.machine1)) /\
  exists e,
    standardized_mean_differences (ext := Sample.collaborators)
      (set_mdenom (Some "male") (Sample.new true "population"), Sample.machine1)
    = (Raise e, (set_mdenom (Some "male") (Sample.new true "population"), Sample.machine1)) /\
    exc_class e = KeyError.
Proof.
  split.
  - apply (smd_before_weights (ext := Sample.collaborators)
             (Sample.new true "population") Sample.machine1 Sample.frame);
      reflexivity.
  - destruct (smd_before_weights (ext := Sample.collaborators)
                (set_mdenom (Some "male") (Sample.new true "population"))
                Sample.machine1 Sample.frame) as [_ H]; [reflexivity|].
    destruct (H "male" {| dm_terms := [("male", [Sample.male])] |} Sample.art)
      as [H1 _]; [reflexivity..|].
    apply H1. discriminate.
Defined.

(** Witness of [smd_rows_follow_terms]: the sample after fit(), one
    term. *)
Lemma smd_rows_follow_terms_witness :
  exists rows s',
    standardized_mean_differences (ext := Sample.collaborators)
      (Sample.self2, mutate Sample.working Sample.frame2 Sample.machine1)
    = (Ok rows, s') /\
    (fun r : string * cell * cell => r.1.1) <$> rows = ["male"].
Proof.
  destruct sample_table as (u & Hrun).
  do 2 eexists. split; [exact Hrun|].
  refine (smd_rows_follow_terms (ext := Sample.collaborators) Sample.self2
            (mutate Sample.working Sample.frame2 Sample.machine1) Sample.frame2 "male"
            {| dm_terms := [("male", [Sample.male])] |} _ _ _ _ _ Hrun).
  - apply lookup_insert_eq.
  - reflexivity.
  - reflexivity.
Defined.

(** ** Balance and the scale of the weights *)

Lemma col_sum_scale c (l : col) :
  col_sum (cell_mul (Some c) <$> l) = (Some c * col_sum l)%C.
Proof.
  unfold col_sum. induction l as [|x l IH]; cbn [fmap list_fmap foldr].
  - simpl. f_equal. ring.
  - change (list_fmap cell cell (cell_mul (Some c)) l) with (cell_mul (Some c) <$> l).
    rewrite IH. destruct x as [x|]; [|done].
    destruct (foldr cell_add (Some 0) l) as [s|]; [|done]. simpl. f_equal. ring.
Qed.

Lemma col_mul_scale c (x w : col) :
  col_mul x (cell_mul (Some c) <$> w) = cell_mul (Some c) <$> col_mul x w.
Proof.
  unfold col_mul. revert w. induction x as [|a x IH]; intros [|b w]; simpl; try done.
  rewrite IH. f_equal. destruct a, b; simpl; try done. f_equal. ring.
Qed.

(** The weighted mean does not see a common factor of the weights. *)
Lemma descr_mean_scale c (x w : col) :
  c <> 0 -> descr_mean x (cell_mul (Some c) <$> w) = descr_mean x w.
Proof.
  intros Hc. unfold descr_mean, dot. rewrite col_mul_scale, !col_sum_scale.
  destruct (col_sum (col_mul x w)) as [d|], (col_sum w) as [s|]; simpl; try done.
  f_equal. unfold Rdiv. rewrite Rinv_mult.
  replace (c * d * (/ c * / s)) with (d * / s * (c * / c)) by ring.
  rewrite Rinv_r by done. ring.
Qed.

Lemma mask_rescale ct cn (a w : col) v :
  mask_and (col_eq a v) (col_notnull (rescale ct cn a w))
  = mask_and (col_eq a v) (col_notnull w).
Proof.
  unfold mask_and, col_eq, col_notnull, rescale.
  revert w. induction a as [|x a IH]; intros [|y w]; simpl; try done.
  rewrite IH. by destruct y.
Qed.

Lemma loc_rows_rescale ct cn c (a w : col) v :
  (forall x : cell, cell_eqb x v = true -> (if cell_eqb x 1 then ct else cn) = c) ->
  loc_rows (mask_and (col_eq a v) (col_notnull w)) (rescale ct cn a w)
  = cell_mul (Some c) <$> loc_rows (mask_and (col_eq a v) (col_notnull w)) w.
Proof.
  intros Hv. unfold mask_and, col_eq, col_notnull, rescale.
  revert w. induction a as [|x a IH]; intros [|y w]; simpl; try done.
  rewrite IH. destruct (cell_eqb x v) eqn:E; simpl; [|done].
  destruct (cell_notnull y); [|done]. simpl. by rewrite (Hv x E).
Qed.

Lemma loc_rows_same_mask {A} (m1 m2 : list bool) (l : list A) :
  m1 = m2 -> loc_rows m1 l = loc_rows m2 l.
Proof. by intros ->. Qed.

Section Scale.
Context {ext : Collaborators}.

(** X17. The weighted standardized difference of a binary covariate
    depends on the weights only up to a factor within each exposure
    group: multiplying the weights of the treated by one nonzero
    constant and those of the untreated by another leaves it
    unchanged. *)
Theorem binary_smd_scale_invariant self (x a w : col) ct cn :
  ct <> 0 -> cn <> 0 ->
  _standardized_difference self
    {| vcols := [x]; v_ex := a; v_iptw := rescale ct cn a w |} binary true
  = _standardized_difference self {| vcols := [x]; v_ex := a; v_iptw := w |} binary true.
Proof.
  intros Ht Hn.
  unfold _standardized_difference, dft, dfn, loc_frame.
  cbn [vcols v_ex v_iptw fmap list_fmap].
  rewrite !mask_rescale.
  rewrite (loc_rows_rescale ct cn ct a w 1) by (by intros y ->).
  rewrite (loc_rows_rescale ct cn cn a w 0).
  - by rewrite !descr_mean_scale.
  - intros [y|]; simpl; [|done]. unfold Reqb.
    destruct (Req_dec_T y 0) as [->|]; [|done]. intros _.
    destruct (Req_dec_T 0 1); [lra|done].
Qed.

End Scale.

(** Witness of [binary_smd_scale_invariant]: the weights of the sample
    with those of the treated doubled and those of the untreated
    halved. *)
Lemma binary_smd_scale_invariant_witness :
  _standardized_difference (ext := Sample.collaborators) Sample.self2
    {| vcols := [Sample.male]; v_ex := Sample.art;
       v_iptw := rescale 2 (1/2) Sample.art Sample.weights |} binary true
  = _standardized_difference (ext := Sample.collaborators) Sample.self2
      (Sample.dat Sample.weights) binary true.
Proof.
  apply (binary_smd_scale_invariant (ext := Sample.collaborators) Sample.self2
           Sample.male Sample.art Sample.weights 2 (1/2)); lra.
Defined.

(** ** The box plot *)

Lemma Reqb_true x y : Reqb x y = true -> x = y.
Proof. unfold Reqb. by destruct (Req_dec_T x y). Qed.

Lemma elem_of_loc_rows {A} (mask : list bool) (l : list A) (y : A) :
  y ∈ loc_rows mask l <-> exists i : nat, mask !! i = Some true /\ l !! i = Some y.
Proof.
  revert l. induction mask as [|b mask IH]; intros [|x l]; simpl.
  - split; [by intros ?%elem_of_nil|by intros (i & ? & ?)].
  - split; [by intros ?%elem_of_nil|by intros (i & ? & ?)].
  - split; [by intros ?%elem_of_nil|by intros (i & ? & ?)].
  - destruct b.
    + rewrite elem_of_cons, IH. split.
      * intros [->|(i & H1 & H2)]; [by exists 0%nat|by exists (S i)].
      * intros ([|i] & H1 & H2); simpl in *; [left; congruence|right; eauto].
    + rewrite IH. split.
      * intros (i & H1 & H2). by exists (S i).
      * intros ([|i] & H1 & H2); simpl in *; [done|eauto].
Qed.

(** The rows a box is drawn from. *)
Lemma elem_of_box (a d : col) v x :
  x ∈ dropna (loc_rows (col_eq a v) d)
  <-> exists i : nat, a !! i = Some (Some v) /\ d !! i = Some (Some x).
Proof.
  unfold dropna. rewrite list_elem_of_omap. split.
  - intros (c & Hc & ->). apply elem_of_loc_rows in Hc as (i & Hm & Hd).
    exists i. split; [|done]. unfold col_eq in Hm.
    rewrite list_lookup_fmap in Hm. destruct (a !! i) as [[y|]|]; simpl in Hm; try done.
    injection Hm as Hm. by rewrite (Reqb_true _ _ Hm).
  - intros (i & Ha & Hd). exists (Some x). split; [|done].
    apply elem_of_loc_rows. exists i. split; [|done].
    unfold col_eq. rewrite list_lookup_fmap, Ha. simpl. by rewrite Reqb_refl.
Qed.

Lemma denominators_of_run v self m frame (a d : col) :
  heap m !! df self = Some frame ->
  cols frame !! ex self = Some a -> cols frame !! "__denom__" = Some d ->
  denominators_of v (self, m) = (Ok (dropna (loc_rows (col_eq a v) d)), (self, m)).
Proof.
  intros Hdf Ha Hd. apply df_get_Ok in Ha, Hd.
  unfold denominators_of. run. rewrite Ha. run. rewrite Hd. reflexivity.
Qed.

Section BoxPlot.
Context {plt : Plotting}.

(** X19. plot_boxplot.  A measure other than 'probability' and 'logit'
    is refused with ValueError before the data are looked at.  With
    'probability', the plot has two boxes labelled 'Treat = 1' and
    'Treat = 0': the first is drawn from the denominator probabilities
    of exactly the subjects with exposure 1, the second from those with
    exposure 0; a subject whose exposure or probability is missing, or
    whose exposure is another value, is in neither box.  The instance
    and its frames are left as they were. *)
Theorem plot_boxplot_boxes self m frame (a d : col) :
  heap m !! df self = Some frame ->
  cols frame !! ex self = Some a -> cols frame !! "__denom__" = Some d ->
  (forall measure s, measure <> "probability" -> measure <> "logit" ->
     plot_boxplot measure s = (throw ValueError msg_measure, s)) /\
  exists t u,
    plot_boxplot "probability" (self, m)
    = (Ok [Boxplot (t, u) ["Treat = 1"; "Treat = 0"] "D" "black" "black" true;
           SetYLabel "Probability"], (self, m)) /\
    (forall x, x ∈ t <-> exists i : nat, a !! i = Some (Some 1) /\ d !! i = Some (Some x)) /\
    (forall x, x ∈ u <-> exists i : nat, a !! i = Some (Some 0) /\ d !! i = Some (Some x)).
Proof.
  intros Hdf Ha Hd. split.
  - intros measure s H1 H2. unfold plot_boxplot.
    by rewrite run_bind, !bool_decide_eq_false_2.
  - exists (dropna (loc_rows (col_eq a 1) d)), (dropna (loc_rows (col_eq a 0) d)).
    split; [|split; intros x; apply elem_of_box].
    unfold plot_boxplot. rewrite bool_decide_eq_true_2 by done.
    rewrite !run_bind, (denominators_of_run 1 self m frame a d) by done.
    rewrite !run_bind, (denominators_of_run 0 self m frame a d) by done.
    reflexivity.
Qed.

End BoxPlot.

(** Witness of [plot_boxplot_boxes]: the sample frame with the
    denominator probabilities. *)
Lemma plot_boxplot_boxes_witness :
  let plt := {| log_odds := fun p => p |} in
  exists t u,
    plot_boxplot "probability"
      (Sample.self1, mutate Sample.working Sample.frame1 Sample.machine1)
    = (Ok [Boxplot (t, u) ["Treat = 1"; "Treat = 0"] "D" "black" "black" true;
           SetYLabel "Probability"],
       (Sample.self1, mutate Sample.working Sample.frame1 Sample.machine1)) /\
    1/4 ∈ t /\ 1/4 ∈ u.
Proof.
  intros plt.
  destruct (plot_boxplot_boxes (plt := plt) Sample.self1
              (mutate Sample.working Sample.frame1 Sample.machine1) Sample.frame1
              Sample.art Sample.pr_art_given_male)
    as (_ & t & u & Hrun & Ht & Hu).
  - apply lookup_insert_eq.
  - reflexivity.
  - reflexivity.
  - exists t, u. split; [exact Hrun|]. split.
    + apply Ht. by exists 0%nat.
    + apply Hu. by exists 1%nat.
Defined.

(** ** Who counts as treated *)

Lemma lookup_mask_and (a b : list bool) (i : nat) x y :
  a !! i = Some x -> b !! i = Some y -> mask_and a b !! i = Some (x && y).
Proof. intros Ha Hb. unfold mask_and. by rewrite lookup_zip_with, Ha, Hb. Qed.

(** X20. An exposure that is recorded but is neither 0 nor 1 - a
    subject coded 2, say - is weighted by _weight_calculator as an
    untreated subject (the comparison with 1 fails), while the balance
    diagnostics, which select the treated with == 1 and the untreated
    with == 0, leave that subject out of both groups. *)
Theorem other_exposure_values self frame den num (A D N W : col) t (i : nat) v d n y :
  ex self <> "w" ->
  standardize self = target_name t ->
  cols frame !! ex self = Some A -> cols frame !! den = Some D ->
  cols frame !! num = Some N ->
  A !! i = Some (Some v) -> v <> 1 -> v <> 0 ->
  D !! i = Some (Some d) -> N !! i = Some (Some n) ->
  W !! i = Some y ->
  (exists w frame', _weight_calculator self frame den num = Ok (w, frame') /\
     w !! i = Some (Some (table_weight (stabilized self) t false d n))) /\
  mask_and (col_eq A 1) (col_notnull W) !! i = Some false /\
  mask_and (col_eq A 0) (col_notnull W) !! i = Some false.
Proof.
  intros Hex Ht HA HD HN Ha H1 H0 Hd Hn HW. split; [|split].
  - destruct (weight_calculator_row self frame den num A D N t i (Some v) d n)
      as (w & frame' & Hw & Hi); try done.
    exists w, frame'. split; [done|]. rewrite Hi. simpl. by rewrite Reqb_neq.
  - erewrite lookup_mask_and; [|by eapply lookup_col_eq|].
    + simpl. by rewrite Reqb_neq.
    + unfold col_notnull. by rewrite list_lookup_fmap, HW.
  - erewrite lookup_mask_and; [|by eapply lookup_col_eq|].
    + simpl. by rewrite Reqb_neq.
    + unfold col_notnull. by rewrite list_lookup_fmap, HW.
Qed.

(** Witness of [other_exposure_values]: a subject coded 2. *)
Lemma other_exposure_values_witness :
  let frame := {| nrows := 1;
                  cols := <["art" := [Some 2]]>
                          (<["__denom__" := [Some (1/4)]]>
                          (<["__numer__" := [Some (1/2)]]> ∅)) |} in
  exists w frame',
    _weight_calculator (Sample.new true "population") frame "__denom__" "__numer__"
      = Ok (w, frame') /\
    w !! 0%nat = Some (Some ((1 - 1/2) / (1 - 1/4))) /\
    mask_and (col_eq [Some 2] 0) (col_notnull [Some 1]) !! 0%nat = Some false.
Proof.
  intros frame.
  destruct (other_exposure_values (Sample.new true "population") frame
              "__denom__" "__numer__" [Some 2] [Some (1/4)] [Some (1/2)] [Some 1]
              population 0 2 (1/4) (1/2) (Some 1))
    as ((w & frame' & Hw & Hi) & _ & Hm); try reflexivity.
  - discriminate.
  - lra.
  - lra.
  - exists w, frame'. split; [exact Hw|]. split; [exact Hi|exact Hm].
Defined.

Section Unweighted.
Context {ext : Collaborators}.

(** X21. The unweighted standardized difference uses the weights only
    to select rows: two weight columns that are missing in the same
    rows give the same unweighted difference, for binary, continuous
    and categorical terms alike, whatever the weights are - and the
    subjects without a weight are left out of the unweighted figure as
    well. *)
Theorem unweighted_smd_ignores_weights self (v : list col) (a w w' : col) vt :
  col_notnull w = col_notnull w' ->
  _standardized_difference self {| vcols := v; v_ex := a; v_iptw := w |} vt false
  = _standardized_difference self {| vcols := v; v_ex := a; v_iptw := w' |} vt false.
Proof.
  intros H. unfold _standardized_difference, dft, dfn, loc_frame.
  cbn [vcols v_ex v_iptw]. rewrite H. by destruct vt.
Qed.

End Unweighted.

(** Witness of [unweighted_smd_ignores_weights]: the two weight
    columns of the sample. *)
Lemma unweighted_smd_ignores_weights_witness :
  _standardized_difference (ext := Sample.collaborators) Sample.self2
    (Sample.dat Sample.weights) binary false
  = _standardized_difference (ext := Sample.collaborators) Sample.self2
      (Sample.dat Sample.iptw) binary false.
Proof.
  apply (unweighted_smd_ignores_weights (ext := Sample.collaborators) Sample.self2
           [Sample.male] Sample.art Sample.weights Sample.iptw binary).
  reflexivity.
Defined.

(** ** The categorical covariance matrix on vectors of different length *)

Lemma index_raises (a : col) (i : nat) e :
  index a i = Raise e -> exc_class e = IndexError /\ a !! i = None.
Proof. unfold index. destruct (a !! i); [done|]. by intros [= <-]. Qed.

Lemma index_Ok (a : col) (i : nat) x : index a i = Ok x -> a !! i = Some x.
Proof. unfold index. destruct (a !! i); [|done]. by intros [= <-]. Qed.

Lemma cov_row_raises (T U : col) (i : nat) v (ws : col) (j : nat) e :
  cov_row T U i v j ws = Raise e -> exc_class e = IndexError.
Proof.
  revert j. induction ws as [|w ws IH]; intros j; simpl; [done|].
  case_bool_decide; [apply IH|].
  case_bool_decide; simpl.
  - destruct (cov_row T U i v (S j) ws) eqn:E; simpl; [done|].
    intros [= <-]. by eapply IH.
  - destruct (index T i) eqn:E1; simpl; [|intros [= <-]; by eapply index_raises].
    destruct (index T j) eqn:E2; simpl; [|intros [= <-]; by eapply index_raises].
    destruct (index U i) eqn:E3; simpl; [|intros [= <-]; by eapply index_raises].
    destruct (index U j) eqn:E4; simpl; [|intros [= <-]; by eapply index_raises].
    destruct (cov_row T U i v (S j) ws) eqn:E; simpl; [done|].
    intros [= <-]. by eapply IH.
Qed.

(** What a finished row has read. *)
Lemma cov_row_Ok_inv (T U : col) (i : nat) v (ws : col) (j : nat) r :
  cov_row T U i v j ws = Ok r ->
  forall (k : nat) w, ws !! k = Some w -> (j + k)%nat <> 0%nat -> (j + k)%nat <> i ->
    is_Some (T !! (j + k)%nat) /\ is_Some (U !! i).
Proof.
  revert j r. induction ws as [|w0 ws IH]; intros j r; simpl; [done|].
  intros H k w Hk Hne0 Hnei.
  assert (Hrest : forall r', cov_row T U i v (S j) ws = Ok r' ->
            forall k', k = S k' -> is_Some (T !! (j + k)%nat) /\ is_Some (U !! i)).
  { intros r' Hr' k' ->. simpl in Hk.
    replace (j + S k')%nat with (S j + k')%nat in * by lia.
    by eapply (IH (S j) r' Hr' k' w). }
  case_bool_decide as Hj0.
  - destruct k as [|k']; [exfalso; lia|]. by eapply Hrest.
  - case_bool_decide as Hij; simpl in H.
    + destruct (cov_row T U i v (S j) ws) eqn:E; simpl in H; [|done].
      destruct k as [|k']; [exfalso; lia|]. by eapply Hrest.
    + destruct (index T i) eqn:E1; simpl in H; [|done].
      destruct (index T j) eqn:E2; simpl in H; [|done].
      destruct (index U i) eqn:E3; simpl in H; [|done].
      destruct (index U j) eqn:E4; simpl in H; [|done].
      destruct (cov_row T U i v (S j) ws) eqn:E; simpl in H; [|done].
      destruct k as [|k']; [|by eapply Hrest].
      rewrite Nat.add_0_r. apply index_Ok in E2, E3. by rewrite E2, E3.
Qed.

Lemma cov_rows_raises (T U : col) (vs : col) (i : nat) e :
  cov_rows T U i vs = Raise e -> exc_class e = IndexError.
Proof.
  revert i. induction vs as [|v vs IH]; intros i; simpl; [done|].
  case_bool_decide; [apply IH|].
  destruct (cov_row T U i v 0 U) eqn:E1; simpl;
    [|intros [= <-]; by eapply cov_row_raises].
  destruct (cov_rows T U (S i) vs) eqn:E2; simpl; [done|].
  intros [= <-]. by eapply IH.
Qed.

Lemma cov_rows_Ok_inv (T U : col) (vs : col) (i : nat) M :
  cov_rows T U i vs = Ok M ->
  forall (k : nat) v, vs !! k = Some v -> (i + k)%nat <> 0%nat ->
    exists r, cov_row T U (i + k) v 0 U = Ok r.
Proof.
  revert i M. induction vs as [|v0 vs IH]; intros i M; simpl; [done|].
  intros H k v Hk Hne.
  assert (Hrest : forall M', cov_rows T U (S i) vs = Ok M' ->
            forall k', k = S k' -> exists r, cov_row T U (i + k) v 0 U = Ok r).
  { intros M' HM' k' ->. simpl in Hk.
    replace (i + S k')%nat with (S i + k')%nat in * by lia.
    by eapply (IH (S i) M' HM' k' v). }
  case_bool_decide as Hi0.
  - destruct k as [|k']; [exfalso; lia|]. by eapply Hrest.
  - destruct (cov_row T U i v0 0 U) eqn:E1; simpl in H; [|done].
    destruct (cov_rows T U (S i) vs) eqn:E2; simpl in H; [|done].
    destruct k as [|k']; [|by eapply Hrest].
    rewrite Nat.add_0_r. simpl in Hk. injection Hk as <-. eauto.
Qed.

(** X22. _categorical_cov on vectors of different length.  When the
    treated and the untreated vector both have at least two entries and
    their lengths differ, the loops index one of the vectors out of
    bounds and the function raises IndexError: it never returns a
    matrix of the wrong shape.  With at most one treated entry it
    returns the empty matrix without looking at the untreated
    vector. *)
Theorem categorical_cov_length_mismatch (T U : col) :
  ((2 <= length T)%nat -> (2 <= length U)%nat -> length T <> length U ->
     exists e, _categorical_cov T U = Raise e /\ exc_class e = IndexError) /\
  ((length T <= 1)%nat -> _categorical_cov T U = Ok []).
Proof.
  split.
  - intros HT HU Hne. unfold _categorical_cov.
    destruct (cov_rows T U 0 T) as [M|e] eqn:E;
      [|exists e; split; [done|by eapply cov_rows_raises]].
    exfalso. destruct (decide (length T < length U)%nat) as [Hlt|Hge].
    + destruct (lookup_lt_is_Some_2 T 1) as [v Hv]; [lia|].
      destruct (cov_rows_Ok_inv _ _ _ _ _ E 1%nat v Hv) as [r Hr]; [lia|].
      destruct (lookup_lt_is_Some_2 U (length T)) as [w Hw]; [lia|].
      destruct (cov_row_Ok_inv _ _ _ _ _ _ _ Hr (length T) w Hw) as [[x Hx] _];
        [simpl; lia|simpl; lia|].
      simpl in Hx. apply lookup_lt_Some in Hx. lia.
    + destruct (lookup_lt_is_Some_2 T (length U)) as [v Hv]; [lia|].
      destruct (cov_rows_Ok_inv _ _ _ _ _ E (length U) v Hv) as [r Hr]; [simpl; lia|].
      destruct (lookup_lt_is_Some_2 U 1) as [w Hw]; [lia|].
      destruct (cov_row_Ok_inv _ _ _ _ _ _ _ Hr 1%nat w Hw) as [_ [x Hx]];
        [simpl; lia|simpl; lia|].
      simpl in Hx. apply lookup_lt_Some in Hx. lia.
  - intros HT. unfold _categorical_cov.
    destruct T as [|v [|v' T]]; simpl in *; [done|done|lia].
Qed.

(** Witness of [categorical_cov_length_mismatch]: three proportions
    against two. *)
Lemma categorical_cov_length_mismatch_witness :
  exists e,
    _categorical_cov [Some (1/2); Some (1/4); Some (1/4)] [Some (1/2); Some (1/2)]
      = Raise e /\
    exc_class e = IndexError.
Proof.
  apply (categorical_cov_length_mismatch
           [Some (1/2); Some (1/4); Some (1/4)] [Some (1/2); Some (1/2)]);
    simpl; lia.
Defined.

(** ** positivity and the 'iptw' column *)

(** X23. positivity() is not only a report: it replaces the 'iptw'
    column of the working frame - which fit() fills with numerator over
    denominator - by the weights held in Weight, and leaves every other
    column, the number of rows and Weight itself as they were.  The
    balance table computed afterwards reads that column. *)
Theorem positivity_stores_weights decimal self m frame (w : col) :
  heap m !! df self = Some frame ->
  Weight self = Some w ->
  exists self' m' frame',
    positivity decimal (self, m) = (Ok tt, (self', m')) /\
    df self' = df self /\
    heap m' !! df self = Some frame' /\
    cols frame' !! "iptw" = Some w /\
    (forall c, c <> "iptw" -> cols frame' !! c = cols frame !! c) /\
    nrows frame' = nrows frame /\
    Weight self' = Some w.
Proof.
  intros Hdf HW.
  destruct (positivity_run decimal self m frame Hdf) as (m' & Hrun & Hheap & _).
  unfold iptw_column in *. rewrite HW in *.
  do 3 eexists. split; [exact Hrun|]. split; [done|]. split; [exact Hheap|].
  unfold df_set. cbn [cols nrows].
  split; [apply lookup_insert_eq|]. split; [|done].
  intros c Hc. by rewrite lookup_insert_ne.
Qed.

(** Witness of [positivity_stores_weights]: the sample after fit();
    the 'iptw' column of row 1 changes from 2 to 2/3. *)
Lemma positivity_stores_weights_witness :
  exists self' m' frame',
    positivity 3 (Sample.self2, mutate Sample.working Sample.frame2 Sample.machine1)
      = (Ok tt, (self', m')) /\
    heap m' !! Sample.working = Some frame' /\
    cols Sample.frame2 !! "iptw" = Some Sample.iptw /\
    cols frame' !! "iptw" = Some Sample.weights.
Proof.
  destruct (positivity_stores_weights 3 Sample.self2
              (mutate Sample.working Sample.frame2 Sample.machine1)
              Sample.frame2 Sample.weights)
    as (self' & m' & frame' & Hrun & _ & Hheap & Hiptw & _).
  - apply lookup_insert_eq.
  - reflexivity.
  - exists self', m', frame'.
    split; [exact Hrun|]. split; [exact Hheap|]. split; [reflexivity|exact Hiptw].
Defined.

(** ** A categorical term and an empty group *)

Lemma loc_rows_none {A} (mask : list bool) (l : list A) :
  (forall (i : nat) b, mask !! i = Some b -> b = false) -> loc_rows mask l = [].
Proof.
  revert l. induction mask as [|b mask IH]; intros [|x l] H; simpl; try done.
  rewrite (H 0%nat b eq_refl). apply IH. intros i b' Hi. exact (H (S i) b' Hi).
Qed.

Lemma mask_and_none (a b : list bool) :
  (forall (i : nat) x, a !! i = Some x -> x = false) ->
  forall (i : nat) x, mask_and a b !! i = Some x -> x = false.
Proof.
  intros Ha i x. unfold mask_and. rewrite lookup_zip_with.
  destruct (a !! i) as [y|] eqn:E; simpl; [|done].
  destruct (b !! i) as [z|]; simpl; [|done].
  intros [= <-]. by rewrite (Ha i y E).
Qed.

Section EmptyGroup.
Context {ext : Collaborators}.

(** X24. A categorical term when no subject is treated: the weighted
    standardized difference needs the weighted average of every level
    among the treated, the weights of an empty group sum to zero, and
    _standardized_difference raises ZeroDivisionError. *)
Theorem categorical_smd_no_treated self (c : col) (v : list col) (a w : col) :
  (forall (i : nat) x, a !! i = Some x -> cell_eqb x 1 = false) ->
  exists e,
    _standardized_difference self {| vcols := c :: v; v_ex := a; v_iptw := w |}
      categorical true = Raise e /\
    exc_class e = ZeroDivisionError.
Proof.
  intros Ha.
  assert (Hmask : forall (i : nat) b,
            mask_and (col_eq a 1) (col_notnull w) !! i = Some b -> b = false).
  { apply mask_and_none. intros i x. unfold col_eq. rewrite list_lookup_fmap.
    destruct (a !! i) as [y|] eqn:E; simpl; [|done]. intros [= <-]. by eapply Ha. }
  unfold _standardized_difference, dft, loc_frame. cbn [vcols v_ex v_iptw].
  rewrite !(loc_rows_none _ _ Hmask). cbn [fmap list_fmap mapM].
  rewrite (loc_rows_none _ c Hmask).
  assert (E : average_weighted [] []
              = throw ZeroDivisionError "Weights sum to zero, can't be normalized").
  { unfold average_weighted. cbn [col_sum foldr cell_eqb]. by rewrite Reqb_refl. }
  rewrite E. by eexists.
Qed.

End EmptyGroup.

(** Witness of [categorical_smd_no_treated]: two untreated subjects and
    a covariate with two levels. *)
Lemma categorical_smd_no_treated_witness :
  exists e,
    _standardized_difference (ext := Sample.collaborators) (Sample.new true "population")
      {| vcols := [[Some 1; Some 0]; [Some 0; Some 1]];
         v_ex := [Some 0; Some 0]; v_iptw := [Some 1; Some 1] |}
      categorical true = Raise e /\
    exc_class e = ZeroDivisionError.
Proof.
  apply (categorical_smd_no_treated (ext := Sample.collaborators)
           (Sample.new true "population") [Some 1; Some 0] [[Some 0; Some 1]]
           [Some 0; Some 0] [Some 1; Some 1]).
  intros [|[|i]] x; simpl; try done; intros [= <-]; simpl; apply Reqb_neq; lra.
Defined.
